(** * Product-record validation pipeline (main.py): a shallow embedding

    The development follows main.py top to bottom:
    - [PyStr]    the string methods the validator calls ([strip], [split], [len]);
    - [PyNum]    [int()], [float()], binary64 arithmetic, [round(x, 2)] and [sum];
    - [PyDate]   [datetime.strptime(s, "%Y-%m-%d").date()] and date comparison;
    - the validator [parse_and_validate], the file loop [process_file],
      the aggregator [calculate_statistics], the values [generate_report]
      renders and [main]; [main_with], which also covers a write of the
      report that fails; [process_file_in], the file loop on a store of
      objects, where two calls can be told apart;
    - [PyText]   [str] of an int, the format [.2f], [join], and with them
      the messages and the text of the report;
    - the vocabulary of the properties: the ten validation rules in the
      words of the specification, the reading of the outputs, the verdict
      of a line in a run, the exact value of a float, sample inputs;
    - the properties of the pipeline, C1 to C10, and further properties of
      the validator, the loop, the statistics and the report, X1 to X17.

    Conventions.  A Python [str] is a [string]; every [ascii] stands for one
    character with code point below 256, so [String.length] is [len].  A
    Python [int] is a [Z]; line numbers and lengths are [nat].  A Python
    [float] is a [spec_float] at precision 53 and [emax] 1024 (IEEE
    binary64) with the operations of the standard library's [SpecFloat].
    The [set] of used ids is a [gset Z]; the insertion-ordered [dict] of
    per-category statistics is an association list.  Exceptions are values:
    a [ValidationError] carries a [reason], every other exception is an
    [exn].  The current date, the outcome of [open] and of the reads of the
    input, and the outcome of the write of the report are inputs. *)

From Stdlib Require Import ZArith List String Ascii Bool Lia Sorted Permutation
  SpecFloat.
From stdpp Require Import gmap.
Import ListNotations.
Local Open Scope string_scope.
Local Open Scope list_scope.
Local Open Scope Z_scope.

(** ** Strings *)

Module PyStr.

(** [str.strip()] removes the characters for which [Py_UNICODE_ISSPACE]
    holds: below 256 these are 9-13, 28-32, 0x85 and 0xA0. *)
Definition isspace (c : ascii) : bool :=
  let n := N_of_ascii c in
  ((9 <=? n) && (n <=? 13) || (28 <=? n) && (n <=? 32)
   || (n =? 133) || (n =? 160))%N.

Fixpoint lstrip_with (sp : ascii -> bool) (s : string) : string :=
  match s with
  | String c r => if sp c then lstrip_with sp r else s
  | EmptyString => EmptyString
  end.

Fixpoint rstrip_with (sp : ascii -> bool) (s : string) : string :=
  match s with
  | String c r =>
      match rstrip_with sp r with
      | EmptyString => if sp c then EmptyString else String c EmptyString
      | r' => String c r'
      end
  | EmptyString => EmptyString
  end.

Definition strip_with (sp : ascii -> bool) (s : string) : string :=
  rstrip_with sp (lstrip_with sp s).

(** [s.strip()] *)
Definition strip : string -> string := strip_with isspace.

(** [s.split(sep)] for a one-character separator: never returns the empty
    list, [''.split(';') == ['']]. *)
Fixpoint split (sep : ascii) (s : string) : list string :=
  match s with
  | EmptyString => [EmptyString]
  | String c r =>
      if Ascii.eqb c sep then EmptyString :: split sep r
      else match split sep r with
           | h :: t => String c h :: t
           | [] => [String c EmptyString]
           end
  end.

(** [len(s)] as a Python int. *)
Definition len (s : string) : Z := Z.of_nat (String.length s).

End PyStr.

(** ** Numbers *)

Module PyNum.

(** *** Integer and float literals *)

(** Both [int(s)] and [float(s)] skip leading and trailing characters that
    are [Py_ISSPACE] after CPython has mapped the non-ASCII Unicode spaces
    to a blank: 9-13, 32, 0x85 and 0xA0.  The separators 28-31 are removed
    by [str.strip] but rejected here. *)
Definition num_space (c : ascii) : bool :=
  let n := N_of_ascii c in
  ((9 <=? n) && (n <=? 13) || (n =? 32) || (n =? 133) || (n =? 160))%N.

Definition digit (c : ascii) : option Z :=
  let n := N_of_ascii c in
  if ((48 <=? n) && (n <=? 57))%N then Some (Z.of_N n - 48) else None.

(** What the scanner saw last: underscores are allowed only between two
    digits. *)
Variant seen := AtStart | AfterDigit | AfterUnderscore.

(** A run of decimal digits with single underscores between digits, read up
    to the end of the string: the value and the number of digits. *)
Fixpoint scan_digits (prev : seen) (acc : Z) (count : nat) (s : string)
  : option (Z * nat) :=
  match s with
  | EmptyString =>
      match prev with AfterDigit => Some (acc, count) | _ => None end
  | String c r =>
      match digit c with
      | Some d => scan_digits AfterDigit (10 * acc + d) (S count) r
      | None =>
          if Ascii.eqb c "_" then
            match prev with
            | AfterDigit => scan_digits AfterUnderscore acc count r
            | _ => None
            end
          else None
      end
  end.

(** [sys.get_int_max_str_digits()], the default limit on the number of
    digits [int()] converts. *)
Definition max_str_digits : nat := 4300.

Definition split_sign (s : string) : bool * string :=
  match s with
  | String "-" r => (true, r)
  | String "+" r => (false, r)
  | _ => (false, s)
  end.

(** [int(s)]: [None] is [ValueError]. *)
Definition py_int (s : string) : option Z :=
  let '(neg, body) := split_sign (PyStr.strip_with num_space s) in
  match scan_digits AtStart 0 0 body with
  | Some (n, count) =>
      if (max_str_digits <? count)%nat then None
      else Some (if neg then - n else n)
  | None => None
  end.

(** *** Binary64 *)

Definition prec : Z := 53.
Definition emax : Z := 1024.

Abbreviation float := spec_float.

Definition fadd : float -> float -> float := SFadd prec emax.
Definition fsub : float -> float -> float := SFsub prec emax.
Definition fmul : float -> float -> float := SFmul prec emax.
Definition fdiv : float -> float -> float := SFdiv prec emax.
Definition flt : float -> float -> bool := SFltb.
Definition fle : float -> float -> bool := SFleb.

(** The float nearest to the integer [n] (ties to even), infinite when
    [n] is beyond the largest float. *)
Definition of_Z (n : Z) : float := binary_normalize prec emax n 0 false.

(** The float nearest to [n / d], for integers of any size: the division
    of [SpecFloat] applied to the two integers as exact mantissas. *)
Definition of_ratio (s : bool) (n d : positive) : float :=
  fdiv (S754_finite s n 0) (S754_finite false d 0).

(** The float nearest to [m * 10 ^ e10], as [strtod] returns it
    ([m] is the digit string read as an integer, so [0 <= m]). *)
Definition of_decimal (s : bool) (m : Z) (e10 : Z) : float :=
  match m with
  | Zpos p =>
      if 0 <=? e10 then binary_round prec emax s (Z.to_pos (Zpos p * 10 ^ e10)) 0
      else of_ratio s p (Z.to_pos (10 ^ (- e10)))
  | _ => S754_zero s
  end.

(** [float(s)] accepts underscores between digits only; they are removed
    before the literal is read ([prev] is the character before [s]). *)
Definition is_digit (c : ascii) : bool :=
  match digit c with Some _ => true | None => false end.

Fixpoint drop_underscores (prev : ascii) (s : string) : option string :=
  match s with
  | EmptyString => if Ascii.eqb prev "_" then None else Some EmptyString
  | String c r =>
      if Ascii.eqb c "_" then
        if is_digit prev then drop_underscores c r else None
      else if Ascii.eqb prev "_" && negb (is_digit c) then None
      else option_map (String c) (drop_underscores c r)
  end.

(** The longest prefix of digits: its value continuing [acc], the number of
    digits read, and the rest. *)
Fixpoint take_digits (acc : Z) (count : Z) (s : string) : Z * Z * string :=
  match s with
  | String c r =>
      match digit c with
      | Some d => take_digits (10 * acc + d) (count + 1) r
      | None => (acc, count, s)
      end
  | EmptyString => (acc, count, s)
  end.

Definition lower (c : ascii) : ascii :=
  let n := N_of_ascii c in
  if ((65 <=? n) && (n <=? 90))%N then ascii_of_N (n + 32) else c.

Fixpoint lowercase (s : string) : string :=
  match s with
  | String c r => String (lower c) (lowercase r)
  | EmptyString => EmptyString
  end.

(** The exponent part: empty, or [e] or [E], an optional sign and at least
    one digit, up to the end of the string. *)
Definition exponent (s : string) : option Z :=
  match s with
  | EmptyString => Some 0
  | String c r =>
      if Ascii.eqb (lower c) "e" then
        let '(neg, ds) := split_sign r in
        match take_digits 0 0 ds with
        | (n, count, EmptyString) =>
            if 0 <? count then Some (if neg then - n else n) else None
        | _ => None
        end
      else None
  end.

(** An unsigned literal, as [_Py_dg_strtod] and [_Py_parse_inf_or_nan]
    read it. *)
Definition unsigned_literal (neg : bool) (s : string) : option float :=
  let l := lowercase s in
  if String.eqb l "inf" || String.eqb l "infinity" then Some (S754_infinity neg)
  else if String.eqb l "nan" then Some S754_nan
  else
    let '(ip, ni, r) := take_digits 0 0 s in
    let '(m, nf, r') :=
      match r with
      | String "." f => take_digits ip 0 f
      | _ => (ip, 0, r)
      end in
    if 0 <? ni + nf then
      match exponent r' with
      | Some e => Some (of_decimal neg m (e - nf))
      | None => None
      end
    else None.

(** [float(s)]: [None] is [ValueError]. *)
Definition py_float (s : string) : option float :=
  match drop_underscores zero (PyStr.strip_with num_space s) with
  | Some t => let '(neg, body) := split_sign t in unsigned_literal neg body
  | None => None
  end.

(** *** Conversions and rounding *)

(** [float(n)] for an int operand of a float operation: [None] is
    [OverflowError] (int too large to convert to float). *)
Definition float_of_int (n : Z) : option float :=
  match of_Z n with
  | S754_infinity _ => None
  | x => Some x
  end.

(** The integer nearest to [n / d] for [0 < d], ties to the even one. *)
Definition round_half_even (n d : Z) : Z :=
  let q := n / d in
  match 2 * (n mod d) ?= d with
  | Lt => q
  | Eq => if Z.even q then q else q + 1
  | Gt => q + 1
  end.

(** The number of hundredths nearest to the exact value [m * 2 ^ e]. *)
Definition hundredths (m : positive) (e : Z) : Z :=
  if 0 <=? e then Zpos m * 2 ^ e * 100
  else round_half_even (Zpos m * 100) (2 ^ (- e)).

(** [round(x, 2)]: the exact value of [x] is rounded to two decimals
    (ties to even) and the decimal is converted back to the nearest float;
    zeros keep their sign, infinities and NaN round to themselves. *)
Definition py_round2 (x : float) : float :=
  match x with
  | S754_finite s m e =>
      match hundredths m e with
      | Zpos n => of_ratio s n 100
      | _ => S754_zero s
      end
  | _ => x
  end.

(** *** The built-in [sum] *)

(** [sum] adds left to right starting from the int [0]; since CPython 3.12
    it carries a Neumaier compensation term for floats.  Both variants are
    modelled; the statistics are stated for either. *)
Variant sum_algorithm := LeftToRight | Compensated.

Definition fzero : float := S754_zero false.

Definition is_finite (x : float) : bool :=
  match x with
  | S754_zero _ | S754_finite _ _ _ => true
  | _ => false
  end.

Definition is_nan (x : float) : bool :=
  match x with S754_nan => true | _ => false end.

(** One step of the compensated loop on the pair (running sum,
    compensation). *)
Definition neumaier_step (st : float * float) (x : float) : float * float :=
  let '(f, c) := st in
  let t := fadd f x in
  if fle (SFabs x) (SFabs f) then (t, fadd c (fadd (fsub f t) x))
  else (t, fadd c (fadd (fsub x t) f)).

Definition neumaier_result (st : float * float) : float :=
  let '(f, c) := st in
  if negb (SFeqb c fzero) && is_finite c then fadd f c else f.

Definition py_sum (alg : sum_algorithm) (xs : list float) : float :=
  match xs with
  | [] => fzero
  | x :: rest =>
      let first := fadd (of_Z 0) x in
      match alg with
      | LeftToRight => fold_left fadd rest first
      | Compensated => neumaier_result (fold_left neumaier_step rest (first, fzero))
      end
  end.

End PyNum.

(** ** Dates *)

Module PyDate.

Record date := { year : Z; month : Z; day : Z }.

Definition is_leap (y : Z) : bool :=
  (y mod 4 =? 0) && (negb (y mod 100 =? 0) || (y mod 400 =? 0)).

Definition days_in_month (y m : Z) : Z :=
  if m =? 2 then (if is_leap y then 29 else 28)
  else if (m =? 4) || (m =? 6) || (m =? 9) || (m =? 11) then 30
  else 31.

(** The check of the [date] constructor: years 1 to 9999. *)
Definition valid_date (y m d : Z) : bool :=
  (1 <=? y) && (y <=? 9999) && (1 <=? m) && (m <=? 12)
  && (1 <=? d) && (d <=? days_in_month y m).

(** [%m] is the group [1[0-2]|0[1-9]|[1-9]]; the dash of the format comes
    after it.  The month and what follows the dash. *)
Definition month_field (s : string) : option (Z * string) :=
  match s with
  | String a (String "-" r) =>
      match PyNum.digit a with
      | Some x => if 1 <=? x then Some (x, r) else None
      | None => None
      end
  | String a (String b (String "-" r)) =>
      match PyNum.digit a, PyNum.digit b with
      | Some x, Some y =>
          if (x =? 1) && (y <=? 2) then Some (10 + y, r)
          else if (x =? 0) && (1 <=? y) then Some (y, r)
          else None
      | _, _ => None
      end
  | _ => None
  end.

(** [%d] is the group [3[0-1]|[1-2]\d|0[1-9]|[1-9]| [1-9]]; it ends the
    format, and [strptime] rejects unconverted data after the first
    alternative that matches. *)
Definition day_field (s : string) : option Z :=
  match s with
  | String a EmptyString =>
      match PyNum.digit a with
      | Some x => if 1 <=? x then Some x else None
      | None => None
      end
  | String a (String b EmptyString) =>
      match PyNum.digit a, PyNum.digit b with
      | Some x, Some y =>
          if (x =? 3) && (y <=? 1) then Some (30 + y)
          else if (x =? 1) || (x =? 2) then Some (10 * x + y)
          else if (x =? 0) && (1 <=? y) then Some y
          else None
      | None, Some y =>
          if Ascii.eqb a " " && (1 <=? y) then Some y else None
      | _, _ => None
      end
  | _ => None
  end.

(** [datetime.strptime(s, "%Y-%m-%d").date()]: [None] is [ValueError]. *)
Definition strptime (s : string) : option date :=
  match s with
  | String y1 (String y2 (String y3 (String y4 (String "-" r)))) =>
      match PyNum.digit y1, PyNum.digit y2, PyNum.digit y3, PyNum.digit y4 with
      | Some a, Some b, Some c, Some d =>
          match month_field r with
          | Some (m, r') =>
              match day_field r' with
              | Some dd =>
                  let y := 1000 * a + 100 * b + 10 * c + d in
                  if valid_date y m dd
                  then Some {| year := y; month := m; day := dd |}
                  else None
              | None => None
              end
          | None => None
          end
      | _, _, _, _ => None
      end
  | _ => None
  end.

(** [a > b] on dates. *)
Definition after (a b : date) : bool :=
  (year b <? year a)
  || (year a =? year b)
     && ((month b <? month a)
         || (month a =? month b) && (day b <? day a)).

End PyDate.

(** ** RecordValidator: [parse_and_validate] *)

Import PyNum.

(** [DELIMITER] and [ALLOWED_CATEGORIES]. *)
Definition DELIMITER : ascii := ";"%char.
Definition ALLOWED_CATEGORIES : list string :=
  ["electronics"; "food"; "books"; "clothes"].

(** [category in ALLOWED_CATEGORIES] *)
Definition allowed (category : string) : bool :=
  existsb (String.eqb category) ALLOWED_CATEGORIES.

(** The dict [parse_and_validate] returns. *)
Module ValidRecord.
Record t := {
  id : Z;
  name : string;
  category : string;
  final_price : float;
  quantity : Z;
  total_value : float
}.
End ValidRecord.
Abbreviation record := ValidRecord.t.

(** The messages of [ValidationError], in the order the checks are written,
    and the message [process_file] records for a blank line. *)
Variant reason :=
  | WrongFieldCount       (* "Неверное количество полей" *)
  | IdNotPositive         (* "id должен быть положительным" *)
  | IdNotUnique           (* "id должен быть уникальным" *)
  | IdNotANumber          (* "id не является числом" *)
  | BadNameLength         (* "некорректная длина name" *)
  | UnknownCategory       (* "неизвестная категория" *)
  | PriceNotPositive      (* "price должен быть больше нуля" *)
  | PriceBadFormat        (* "price имеет неверный формат" *)
  | QuantityNegative      (* "quantity не может быть отрицательным" *)
  | QuantityNotAnInteger  (* "quantity не является целым числом" *)
  | DiscountOutOfRange    (* "discount вне диапазона 0–50" *)
  | DiscountBadFormat     (* "discount имеет неверный формат" *)
  | FoodDiscountTooLarge  (* "слишком большая скидка для food" *)
  | DateInFuture          (* "дата указана в будущем" *)
  | DateBadFormat         (* "неверный формат даты" *)
  | FinalPriceBelowOne    (* "итоговая цена меньше 1" *)
  | EmptyLine.            (* "пустая строка" *)

(** The exceptions other than [ValidationError] that reach the pipeline. *)
Variant exn :=
  | OverflowError         (* int too large to convert to float *)
  | FileNotFoundError
  | PermissionError
  | IsADirectoryError
  | UnicodeDecodeError    (* the bytes read are not UTF-8 *)
  | OSError.              (* any other failure of a read or a write *)

(** How a call ends: a value, a [ValidationError], or another exception. *)
Variant outcome (A : Type) :=
  | Valid (a : A)
  | Invalid (why : reason)
  | Crash (e : exn).
Arguments Valid {A} a.
Arguments Invalid {A} why.
Arguments Crash {A} e.

(** [price * (1 - discount / 100)] *)
Definition discounted (price discount : float) : float :=
  fmul price (fsub (of_Z 1) (fdiv discount (of_Z 100))).

(** Lines 40-98: the checks after the id has been accepted. *)
Definition validate_fields (today : PyDate.date) (record_id : Z)
    (name category raw_price raw_qty raw_discount raw_date : string)
  : outcome record :=
  let name := PyStr.strip name in
  if (PyStr.len name <? 3) || (50 <? PyStr.len name) then Invalid BadNameLength
  else if negb (allowed category) then Invalid UnknownCategory
  else
    match py_float raw_price with
    | None => Invalid PriceBadFormat
    | Some price =>
    if fle price (of_Z 0) then Invalid PriceNotPositive
    else
    match py_int raw_qty with
    | None => Invalid QuantityNotAnInteger
    | Some quantity =>
    if quantity <? 0 then Invalid QuantityNegative
    else
    match py_float raw_discount with
    | None => Invalid DiscountBadFormat
    | Some discount =>
    if flt discount (of_Z 0) || flt (of_Z 50) discount then Invalid DiscountOutOfRange
    else if String.eqb category "food" && flt (of_Z 20) discount
    then Invalid FoodDiscountTooLarge
    else
    match PyDate.strptime raw_date with
    | None => Invalid DateBadFormat
    | Some created_at =>
    if PyDate.after created_at today then Invalid DateInFuture
    else
    let final_price := discounted price discount in
    if flt final_price (of_Z 1) then Invalid FinalPriceBelowOne
    else
    match float_of_int quantity with
    | None => Crash OverflowError
    | Some q =>
        Valid {| ValidRecord.id := record_id;
                 ValidRecord.name := name;
                 ValidRecord.category := category;
                 ValidRecord.final_price := py_round2 final_price;
                 ValidRecord.quantity := quantity;
                 ValidRecord.total_value := py_round2 (fmul final_price q) |}
    end
    end
    end
    end
    end.

(** [parse_and_validate(line, line_number, used_ids)]: the outcome and the
    set [used_ids] as the call leaves it.  [today] is
    [datetime.today().date()]. *)
Definition parse_and_validate (today : PyDate.date)
    (line : string) (line_number : nat) (used_ids : gset Z)
  : outcome record * gset Z :=
  match PyStr.split DELIMITER (PyStr.strip line) with
  | [raw_id; name; category; raw_price; raw_qty; raw_discount; raw_date] =>
      match py_int raw_id with
      | None => (Invalid IdNotANumber, used_ids)
      | Some record_id =>
          if record_id <=? 0 then (Invalid IdNotPositive, used_ids)
          else if bool_decide (record_id ∈ used_ids)
          then (Invalid IdNotUnique, used_ids)
          else
            let used_ids := {[record_id]} ∪ used_ids in
            (validate_fields today record_id name category
               raw_price raw_qty raw_discount raw_date, used_ids)
      end
  | _ => (Invalid WrongFieldCount, used_ids)
  end.

(** ** FileProcessor: [process_file] *)

(** The locals of [process_file]. *)
Record loop_state := {
  valid_records : list record;
  errors : list (nat * reason);
  used_ids : gset Z
}.

(** The state at line 107. *)
Definition fresh : loop_state :=
  {| valid_records := []; errors := []; used_ids := ∅ |}.

(** A call that returns or lets an exception through. *)
Variant completion (A : Type) :=
  | Returned (a : A)
  | Raised (e : exn).
Arguments Returned {A} a.
Arguments Raised {A} e.

Section FileProcessor.

(** The validator the loop calls at line 117. *)
Variable validator : string -> nat -> gset Z -> outcome record * gset Z.

(** One iteration of the loop of lines 111-120. *)
Definition process_line (st : loop_state) (line_number : nat) (line : string)
  : completion loop_state :=
  if String.eqb (PyStr.strip line) "" then
    Returned {| valid_records := valid_records st;
                errors := errors st ++ [(line_number, EmptyLine)];
                used_ids := used_ids st |}
  else
    match validator line line_number (used_ids st) with
    | (Valid r, ids) =>
        Returned {| valid_records := valid_records st ++ [r];
                    errors := errors st;
                    used_ids := ids |}
    | (Invalid why, ids) =>
        Returned {| valid_records := valid_records st;
                    errors := errors st ++ [(line_number, why)];
                    used_ids := ids |}
    | (Crash e, _) => Raised e
    end.

(** The loop over [enumerate(file, start=line_number)]. *)
Fixpoint process_lines (lines : list string) (line_number : nat)
    (st : loop_state) : completion loop_state :=
  match lines with
  | [] => Returned st
  | line :: rest =>
      match process_line st line_number line with
      | Returned st' => process_lines rest (S line_number) st'
      | Raised e => Raised e
      end
  end.

End FileProcessor.

(** What [open(path, encoding="utf-8")] and the iteration of line 111
    give: the decoded lines of the file (each with its line end, if any),
    which the loop reads to the end; or the exception [open] raises; or
    the lines the iterator yields before it raises, when a read fails or
    the bytes are not UTF-8. *)
Variant source :=
  | Opened (lines : list string)
  | OpenFails (e : exn)
  | ReadFails (lines : list string) (e : exn).

(** What the program prints: the notice of [process_file] and the summary
    of [main]. *)
Variant printed :=
  | InputNotFound                                    (* "Файл input.txt не найден" *)
  | Summary (total valid invalid : nat) (total_value : float).

(** [process_file(path)] with the validator as a parameter: what it prints
    and how it ends.  The [try] of line 109 covers the [open], the reads of
    the iterator and the loop; its handler catches [FileNotFoundError]
    only. *)
Definition process_file_with
    (validator : string -> nat -> gset Z -> outcome record * gset Z)
    (src : source)
  : list printed * completion (list record * list (nat * reason)) :=
  let body :=
    match src with
    | Opened lines =>
        match process_lines validator lines 1 fresh with
        | Returned st => Returned (valid_records st, errors st)
        | Raised e => Raised e
        end
    | OpenFails e => Raised e
    | ReadFails lines e =>
        match process_lines validator lines 1 fresh with
        | Returned _ => Raised e
        | Raised e' => Raised e'
        end
    end in
  match body with
  | Raised FileNotFoundError => ([InputNotFound], Returned ([], []))
  | other => ([], other)
  end.

Definition process_file (today : PyDate.date) (src : source)
  : list printed * completion (list record * list (nat * reason)) :=
  process_file_with (parse_and_validate today) src.

(** ** StatisticsAggregator: [calculate_statistics] *)

Module Stats.
(** An entry of [by_category]. *)
Record entry := { count : Z; value : float }.

Record t := {
  total_value : float;
  avg_price : float;
  by_category : list (string * entry)
}.
End Stats.
Abbreviation statistics := Stats.t.

(** [cat = by_category[key]; cat["count"] += 1; cat["value"] += v] on the
    [defaultdict]: a missing key is created as [{"count": 0, "value": 0.0}]
    at the end of the dict, an existing one is updated in place. *)
Fixpoint bump (key : string) (v : float) (d : list (string * Stats.entry))
  : list (string * Stats.entry) :=
  match d with
  | [] => [(key, {| Stats.count := 0 + 1; Stats.value := fadd fzero v |})]
  | (k, c) :: rest =>
      if String.eqb k key
      then (k, {| Stats.count := Stats.count c + 1;
                  Stats.value := fadd (Stats.value c) v |}) :: rest
      else (k, c) :: bump key v rest
  end.

(** The loop of lines 144-147 from the dict [d]. *)
Definition group (records : list record) (d : list (string * Stats.entry))
  : list (string * Stats.entry) :=
  fold_left
    (fun d r => bump (ValidRecord.category r) (ValidRecord.total_value r) d)
    records d.

(** [calculate_statistics(records)]; [alg] is the variant of [sum] the
    interpreter has.  [len(records)] is far below the largest float, so its
    conversion for the division cannot overflow. *)
Definition calculate_statistics (alg : sum_algorithm) (records : list record)
  : statistics :=
  match records with
  | [] => {| Stats.total_value := fzero; Stats.avg_price := fzero;
             Stats.by_category := [] |}
  | _ =>
      {| Stats.total_value := py_sum alg (map ValidRecord.total_value records);
         Stats.avg_price :=
           fdiv (py_sum alg (map ValidRecord.final_price records))
                (of_Z (Z.of_nat (length records)));
         Stats.by_category := group records [] |}
  end.

(** ** ReportRenderer and Orchestrator *)

(** The values [generate_report] interpolates into the fixed text, in the
    order of the text; the two-decimal formatting of the floats is not
    modelled. *)
Module Report.
Record t := {
  total : nat;                                (* len(valid) + len(errors) *)
  valid : nat;
  invalid : nat;
  total_value : float;
  avg_price : float;
  categories : list (string * Z * float);
  error_lines : list (nat * reason)
}.
End Report.
Abbreviation report := Report.t.

Definition generate_report (valid : list record) (errors : list (nat * reason))
    (stats : statistics) : report :=
  {| Report.total := length valid + length errors;
     Report.valid := length valid;
     Report.invalid := length errors;
     Report.total_value := Stats.total_value stats;
     Report.avg_price := Stats.avg_price stats;
     Report.categories :=
       map (fun kv => (fst kv, Stats.count (snd kv), Stats.value (snd kv)))
           (Stats.by_category stats);
     Report.error_lines := errors |}.

(** What a run reads and writes: input.txt, report.txt and the console. *)
Record world := {
  input_txt : source;
  report_txt : option report;
  console : list printed
}.

(** The first two lines of [main]: [process_file] then
    [calculate_statistics]. *)
Definition pipeline (today : PyDate.date) (alg : sum_algorithm) (src : source)
  : list printed * completion (list record * list (nat * reason) * statistics) :=
  match process_file today src with
  | (out, Returned (valid, errors)) =>
      (out, Returned (valid, errors, calculate_statistics alg valid))
  | (out, Raised e) => (out, Raised e)
  end.

(** [main()] when report.txt can be opened and written: the world it
    leaves and how it ends.  [main_with] below takes the outcome of the
    write as an input. *)
Definition main (today : PyDate.date) (alg : sum_algorithm) (w : world)
  : world * completion unit :=
  match pipeline today alg (input_txt w) with
  | (out, Returned (valid, errors, stats)) =>
      ({| input_txt := input_txt w;
          report_txt := Some (generate_report valid errors stats);
          console := console w ++ out
                     ++ [Summary (length valid + length errors) (length valid)
                                 (length errors) (Stats.total_value stats)] |},
       Returned tt)
  | (out, Raised e) =>
      ({| input_txt := input_txt w;
          report_txt := report_txt w;
          console := console w ++ out |},
       Raised e)
  end.

(** ** Orchestrator: the write of the report *)

(** What lines 194-195 do to report.txt: the report is written; or [open]
    raises and the file is as it was; or [open] has emptied the file and
    the write, or the flush when the file is closed, raises. *)
Variant write_outcome :=
  | Written
  | OpenRefused (e : exn)
  | WriteFails (e : exn).

(** report.txt: no file or a report, or the remains of a write that
    failed. *)
Variant report_file :=
  | Holds (content : option report)
  | Damaged.

(** [main()] with the outcome of the write as an input: report.txt, the
    console and how the call ends.  Nothing is printed after the write when
    it raises. *)
Definition main_with (today : PyDate.date) (alg : sum_algorithm)
    (write : write_outcome) (src : source) (old_report : option report)
    (log : list printed)
  : report_file * list printed * completion unit :=
  match pipeline today alg src with
  | (out, Returned (valid, errors, stats)) =>
      match write with
      | Written =>
          (Holds (Some (generate_report valid errors stats)),
           log ++ out
           ++ [Summary (length valid + length errors) (length valid)
                       (length errors) (Stats.total_value stats)],
           Returned tt)
      | OpenRefused e => (Holds old_report, log ++ out, Raised e)
      | WriteFails e => (Damaged, log ++ out, Raised e)
      end
  | (out, Raised e) => (Holds old_report, log ++ out, Raised e)
  end.

(** ** FileProcessor: the objects of a call *)

(** The objects [process_file] creates and mutates: the two lists and the
    set. *)
Variant object :=
  | ListOfRecords (l : list record)
  | ListOfErrors (l : list (nat * reason))
  | SetOfIds (s : gset Z).

(** The store of the interpreter: the objects created so far, by address.
    A new object takes the next address; an object no name refers to any
    more stays where it is. *)
Abbreviation store := (list object).

(** [[]] and [set()]: a new object. *)
Definition alloc (h : store) (o : object) : nat * store := (length h, h ++ [o]).

(** The list or the set at an address. *)
Definition records_at (h : store) (a : nat) : list record :=
  match h !! a with Some (ListOfRecords l) => l | _ => [] end.

Definition errors_at (h : store) (a : nat) : list (nat * reason) :=
  match h !! a with Some (ListOfErrors l) => l | _ => [] end.

Definition ids_at (h : store) (a : nat) : gset Z :=
  match h !! a with Some (SetOfIds s) => s | _ => ∅ end.

(** The local names of [process_file]: each refers to an object. *)
Record names := {
  valid_records_ref : nat;
  errors_ref : nat;
  used_ids_ref : nat
}.

(** One iteration of the loop of lines 111-120 on the store:
    [errors.append], [used_ids.add] inside the validator, and
    [valid_records.append] change the object the name refers to. *)
Definition process_line_in (today : PyDate.date) (f : names) (h : store)
    (line_number : nat) (line : string) : store * completion unit :=
  if String.eqb (PyStr.strip line) "" then
    (<[errors_ref f :=
         ListOfErrors (errors_at h (errors_ref f) ++ [(line_number, EmptyLine)])]> h,
     Returned tt)
  else
    let '(o, ids) :=
      parse_and_validate today line line_number (ids_at h (used_ids_ref f)) in
    let h := <[used_ids_ref f := SetOfIds ids]> h in
    match o with
    | Valid r =>
        (<[valid_records_ref f :=
             ListOfRecords (records_at h (valid_records_ref f) ++ [r])]> h,
         Returned tt)
    | Invalid why =>
        (<[errors_ref f :=
             ListOfErrors (errors_at h (errors_ref f) ++ [(line_number, why)])]> h,
         Returned tt)
    | Crash e => (h, Raised e)
    end.

Fixpoint process_lines_in (today : PyDate.date) (f : names) (h : store)
    (lines : list string) (line_number : nat) : store * completion unit :=
  match lines with
  | [] => (h, Returned tt)
  | line :: rest =>
      match process_line_in today f h line_number line with
      | (h, Returned _) => process_lines_in today f h rest (S line_number)
      | (h, Raised e) => (h, Raised e)
      end
  end.

(** [process_file(path)] on the store [h] that earlier calls have left:
    the store it leaves, what it prints, and the two lists it returns, by
    address.  Lines 105-107 create three new objects; [return [], []] of
    line 123 creates two more. *)
Definition process_file_in (today : PyDate.date) (src : source) (h : store)
  : store * list printed * completion (nat * nat) :=
  let '(valid_records, h) := alloc h (ListOfRecords []) in
  let '(errors, h) := alloc h (ListOfErrors []) in
  let '(used_ids, h) := alloc h (SetOfIds ∅) in
  let f := {| valid_records_ref := valid_records; errors_ref := errors;
              used_ids_ref := used_ids |} in
  let '(h, body) :=
    match src with
    | Opened lines => process_lines_in today f h lines 1
    | OpenFails e => (h, Raised e)
    | ReadFails lines e =>
        match process_lines_in today f h lines 1 with
        | (h, Returned _) => (h, Raised e)
        | (h, Raised e') => (h, Raised e')
        end
    end in
  match body with
  | Returned _ => (h, [], Returned (valid_records, errors))
  | Raised FileNotFoundError =>
      let '(no_records, h) := alloc h (ListOfRecords []) in
      let '(no_errors, h) := alloc h (ListOfErrors []) in
      (h, [InputNotFound], Returned (no_records, no_errors))
  | Raised e => (h, [], Raised e)
  end.

(** The lists a call has returned, read in a store. *)
Definition returned_in (h : store) (c : completion (nat * nat))
  : completion (list record * list (nat * reason)) :=
  match c with
  | Returned (v, e) => Returned (records_at h v, errors_at h e)
  | Raised x => Raised x
  end.

(** The store keeps the objects of [h]. *)
Definition extends (h h' : store) : Prop :=
  forall a, (a < length h)%nat -> h' !! a = h !! a.

(** The names refer to three different objects of the store, each of its
    kind. *)
Definition well_named (f : names) (h : store) : Prop :=
  (exists l, h !! valid_records_ref f = Some (ListOfRecords l))
  /\ (exists l, h !! errors_ref f = Some (ListOfErrors l))
  /\ (exists s, h !! used_ids_ref f = Some (SetOfIds s)).

(** The state of the loop that the names show in the store. *)
Definition state_in (f : names) (h : store) : loop_state :=
  {| valid_records := records_at h (valid_records_ref f);
     errors := errors_at h (errors_ref f);
     used_ids := ids_at h (used_ids_ref f) |}.

(** The objects of the store other than those of the names. *)
Definition others (f : names) (a : nat) : Prop :=
  a <> valid_records_ref f /\ a <> errors_ref f /\ a <> used_ids_ref f.

(** ** ReportRenderer: the text of the report *)

(** The report is modelled as the bytes [main] writes to report.txt: a
    string literal below holds the UTF-8 encoding of the Cyrillic text of
    the source, and a string that comes from the input is encoded by
    [utf8]. *)

Module PyText.

(** The character of the decimal digit [d], from 0 to 9. *)
Definition digit_char (d : Z) : ascii := ascii_of_N (Z.to_N (48 + d)).

(** The decimal digits of [n], for [0 <= n], in front of [acc]; [fuel]
    bounds their number. *)
Fixpoint digits (fuel : nat) (n : Z) (acc : string) : string :=
  match fuel with
  | O => acc
  | S fuel' =>
      let acc' := String (digit_char (n mod 10)) acc in
      if n <? 10 then acc' else digits fuel' (n / 10) acc'
  end.

(** The decimal digits of [n], for [0 <= n]: it has at most as many as
    binary digits. *)
Definition decimal (n : Z) : string := digits (S (Z.to_nat (Z.log2 n))) n "".

(** The sign of a negative number. *)
Definition sign (neg : bool) : string := if neg then "-" else "".

(** [str(n)] and [f"{n}"] for an int.  The ints the report shows are
    lengths and counts, far below the limit on the digits of [str]. *)
Definition str (n : Z) : string :=
  if n <? 0 then String.append (sign true) (decimal (- n)) else decimal n.

(** [f"{x:.2f}"]: the exact value of [x] rounded to two decimals (ties to
    even), with all its integer digits; a zero keeps its sign, also when
    it comes from rounding. *)
Definition format_2f (x : float) : string :=
  match x with
  | S754_nan => "nan"
  | S754_infinity s => String.append (sign s) "inf"
  | S754_zero s => String.append (sign s) "0.00"
  | S754_finite s m e =>
      let h := hundredths m e in
      String.append (sign s)
        (String.append (decimal (h / 100))
           (String "."
              (String (digit_char (h mod 100 / 10))
                 (String (digit_char (h mod 10)) EmptyString))))
  end.

(** The UTF-8 encoding of a string: one byte below 128, two from 128 to
    255. *)
Definition utf8_char (c : ascii) : string :=
  let n := N_of_ascii c in
  if (n <? 128)%N then String c EmptyString
  else String (ascii_of_N (192 + n / 64))
         (String (ascii_of_N (128 + n mod 64)) EmptyString).

Fixpoint utf8 (s : string) : string :=
  match s with
  | String c r => String.append (utf8_char c) (utf8 r)
  | EmptyString => EmptyString
  end.

(** [sep.join(l)] *)
Fixpoint join (sep : string) (l : list string) : string :=
  match l with
  | [] => EmptyString
  | s :: rest =>
      match rest with
      | [] => s
      | _ => String.append s (String.append sep (join sep rest))
      end
  end.

(** [c * n] *)
Fixpoint times (c : ascii) (n : nat) : string :=
  match n with
  | O => EmptyString
  | S k => String c (times c k)
  end.

End PyText.

(** [str(e)] for the [ValidationError] of each check, and the message of
    a blank line; as all text of the report, in UTF-8. *)
Definition message (why : reason) : string :=
  match why with
  | WrongFieldCount => "Неверное количество полей"
  | IdNotPositive => "id должен быть положительным"
  | IdNotUnique => "id должен быть уникальным"
  | IdNotANumber => "id не является числом"
  | BadNameLength => "некорректная длина name"
  | UnknownCategory => "неизвестная категория"
  | PriceNotPositive => "price должен быть больше нуля"
  | PriceBadFormat => "price имеет неверный формат"
  | QuantityNegative => "quantity не может быть отрицательным"
  | QuantityNotAnInteger => "quantity не является целым числом"
  | DiscountOutOfRange => "discount вне диапазона 0–50"
  | DiscountBadFormat => "discount имеет неверный формат"
  | FoodDiscountTooLarge => "слишком большая скидка для food"
  | DateInFuture => "дата указана в будущем"
  | DateBadFormat => "неверный формат даты"
  | FinalPriceBelowOne => "итоговая цена меньше 1"
  | EmptyLine => "пустая строка"
  end.

(** The line of a category (line 171). *)
Definition category_line (c : string * Z * float) : string :=
  let '(category, count, value) := c in
  String.append "- "
    (String.append (PyText.utf8 category)
       (String.append ": "
          (String.append (PyText.str count)
             (String.append " шт., стоимость " (PyText.format_2f value))))).

(** The line of an error (line 180). *)
Definition error_line (e : nat * reason) : string :=
  String.append "Строка "
    (String.append (PyText.str (Z.of_nat (fst e)))
       (String.append ": " (message (snd e)))).

(** The list [lines] of [generate_report] (lines 156-180), from the values
    it interpolates. *)
Definition report_lines (rep : report) : list string :=
  [ "ОТЧЁТ ОБРАБОТКИ ДАННЫХ";
    PyText.times "=" 50;
    String.append "Всего записей: " (PyText.str (Z.of_nat (Report.total rep)));
    String.append "Корректных записей: " (PyText.str (Z.of_nat (Report.valid rep)));
    String.append "Некорректных записей: "
      (PyText.str (Z.of_nat (Report.invalid rep)));
    "";
    String.append "Суммарная стоимость товаров: "
      (PyText.format_2f (Report.total_value rep));
    String.append "Средняя финальная цена: "
      (PyText.format_2f (Report.avg_price rep));
    "";
    "СТАТИСТИКА ПО КАТЕГОРИЯМ:" ]
  ++ map category_line (Report.categories rep)
  ++ [""; "ОШИБКИ:"]
  ++ match Report.error_lines rep with
     | [] => ["Ошибок не обнаружено."]
     | errors => map error_line errors
     end.

(** The line feed. *)
Definition LF : ascii := "010"%char.

(** The text [generate_report] returns (line 182), as [main] writes it to
    report.txt. *)
Definition report_text (rep : report) : string :=
  PyText.join (String LF EmptyString) (report_lines rep).

(** * Vocabulary of the properties *)

(** ** Reading the input and the outputs *)

(** The fields of a line (line 22). *)
Definition fields (line : string) : list string :=
  PyStr.split DELIMITER (PyStr.strip line).

(** Every character of [s] satisfies [p]. *)
Fixpoint all_chars (p : ascii -> bool) (s : string) : bool :=
  match s with
  | String c r => p c && all_chars p r
  | EmptyString => true
  end.

(** The error entry [e] is the failure of line number [fst e] of the file
    whose first line has number [first]: the line is blank, or the
    validator raised that [ValidationError] on it. *)
Definition failure_of (today : PyDate.date) (first : nat) (lines : list string)
    (e : nat * reason) : Prop :=
  (first <= fst e)%nat
  /\ exists line,
    nth_error lines (fst e - first) = Some line
    /\ (PyStr.strip line = "" /\ snd e = EmptyLine
        \/ exists ids, fst (parse_and_validate today line (fst e) ids)
                       = Invalid (snd e)).

(** The record [r] is what the validator returned for line number [k]. *)
Definition record_of (today : PyDate.date) (first : nat) (lines : list string)
    (k : nat) (r : record) : Prop :=
  (first <= k)%nat
  /\ exists line ids,
    nth_error lines (k - first) = Some line
    /\ fst (parse_and_validate today line k ids) = Valid r.

(** The categories of a list in the order of their first occurrence. *)
Fixpoint first_seen (cats : list string) : list string :=
  match cats with
  | [] => []
  | c :: rest =>
      c :: List.filter (fun k => negb (String.eqb k c)) (first_seen rest)
  end.

(** [d[key]] on the association list, [None] when the key is absent. *)
Fixpoint lookup_category (key : string) (d : list (string * Stats.entry))
  : option Stats.entry :=
  match d with
  | [] => None
  | (k, c) :: rest => if String.eqb k key then Some c else lookup_category key rest
  end.

(** The records of one category, in their order. *)
Definition of_category (c : string) (records : list record) : list record :=
  List.filter (fun r => String.eqb (ValidRecord.category r) c) records.



(** [key in d] *)
Definition has_key (key : string) (d : list (string * Stats.entry)) : bool :=
  existsb (String.eqb key) (map fst d).

(** The entry the [defaultdict] creates for a missing key. *)
Definition new_entry : Stats.entry :=
  {| Stats.count := 0; Stats.value := fzero |}.

(** One update of an entry by a record. *)
Definition add_record (e : Stats.entry) (r : record) : Stats.entry :=
  {| Stats.count := Stats.count e + 1;
     Stats.value := fadd (Stats.value e) (ValidRecord.total_value r) |}.

(** The values of the entries of [by_category], in the order of the dict. *)
Definition category_values (s : statistics) : list float :=
  map (fun kv => Stats.value (snd kv)) (Stats.by_category s).

(** The report of a run that read no line. *)
Definition empty_report : report :=
  {| Report.total := 0; Report.valid := 0; Report.invalid := 0;
     Report.total_value := fzero; Report.avg_price := fzero;
     Report.categories := []; Report.error_lines := [] |}.

(** ** The ten rules of the validator, as the specification words them *)

Module Rules.

(** Field [i] of the line, counted from 0. *)
Definition field (i : nat) (line : string) : string := nth i (fields line) "".

(** (1) exactly seven fields *)
Definition field_count (line : string) : bool :=
  Nat.eqb (length (fields line)) 7.

(** (2) id parseable, positive and unique *)
Definition id_ok (line : string) (ids : gset Z) : bool :=
  match py_int (field 0 line) with
  | Some k => (0 <? k) && negb (bool_decide (k ∈ ids))
  | None => false
  end.

(** (3) trimmed name length in [3, 50] *)
Definition name_ok (line : string) : bool :=
  let n := PyStr.len (PyStr.strip (field 1 line)) in (3 <=? n) && (n <=? 50).

(** (4) category in the enumeration *)
Definition category_ok (line : string) : bool := allowed (field 2 line).

(** (5) price parseable and > 0 *)
Definition price_ok (line : string) : bool :=
  match py_float (field 3 line) with
  | Some p => flt (of_Z 0) p
  | None => false
  end.

(** (6) quantity a parseable integer and >= 0 *)
Definition quantity_ok (line : string) : bool :=
  match py_int (field 4 line) with
  | Some q => 0 <=? q
  | None => false
  end.

(** (7) discount parseable and in [0, 50] *)
Definition discount_ok (line : string) : bool :=
  match py_float (field 5 line) with
  | Some d => fle (of_Z 0) d && fle d (of_Z 50)
  | None => false
  end.

(** (8) food with discount > 20 rejected *)
Definition food_ok (line : string) : bool :=
  negb (String.eqb (field 2 line) "food"
        && match py_float (field 5 line) with
           | Some d => flt (of_Z 20) d
           | None => false
           end).

(** (9) date parseable as YYYY-MM-DD and not after today *)
Definition date_ok (today : PyDate.date) (line : string) : bool :=
  match PyDate.strptime (field 6 line) with
  | Some d => negb (PyDate.after d today)
  | None => false
  end.

(** (10) the final-price floor, on the product as the code compares it *)
Definition floor_ok (line : string) : bool :=
  match py_float (field 3 line), py_float (field 5 line) with
  | Some p, Some d => negb (flt (discounted p d) (of_Z 1))
  | _, _ => true
  end.

(** Rule number [rule], from 1 to 10. *)
Definition holds (today : PyDate.date) (line : string) (ids : gset Z)
    (rule : nat) : bool :=
  match rule with
  | 1 => field_count line
  | 2 => id_ok line ids
  | 3 => name_ok line
  | 4 => category_ok line
  | 5 => price_ok line
  | 6 => quantity_ok line
  | 7 => discount_ok line
  | 8 => food_ok line
  | 9 => date_ok today line
  | 10 => floor_ok line
  | _ => true
  end%nat.

(** The earliest rule that fails, if any. *)
Definition first_failing (today : PyDate.date) (line : string) (ids : gset Z)
  : option nat :=
  List.find (fun rule => negb (holds today line ids rule))
    [1; 2; 3; 4; 5; 6; 7; 8; 9; 10]%nat.

(** The rule a [ValidationError] message belongs to. *)
Definition rule_of (why : reason) : nat :=
  match why with
  | WrongFieldCount => 1
  | IdNotPositive | IdNotUnique | IdNotANumber => 2
  | BadNameLength => 3
  | UnknownCategory => 4
  | PriceNotPositive | PriceBadFormat => 5
  | QuantityNegative | QuantityNotAnInteger => 6
  | DiscountOutOfRange | DiscountBadFormat => 7
  | FoodDiscountTooLarge => 8
  | DateInFuture | DateBadFormat => 9
  | FinalPriceBelowOne => 10
  | EmptyLine => 0
  end%nat.

(** Neither the price nor the discount field reads as NaN. *)
Definition no_nan (line : string) : Prop :=
  py_float (field 3 line) <> Some S754_nan
  /\ py_float (field 5 line) <> Some S754_nan.

End Rules.

(** What a returned record says about its line: the fields parsed and
    passed every check, and the record is built from them. *)
Inductive accepted (today : PyDate.date) (line : string) (ids : gset Z)
  : record -> Prop :=
| Accepted (k : Z) (price : float) (q : Z) (discount : float)
    (created_at : PyDate.date) (qf : float) :
    length (fields line) = 7%nat ->
    py_int (Rules.field 0 line) = Some k ->
    0 < k ->
    k ∉ ids ->
    3 <= PyStr.len (PyStr.strip (Rules.field 1 line)) <= 50 ->
    allowed (Rules.field 2 line) = true ->
    py_float (Rules.field 3 line) = Some price ->
    fle price (of_Z 0) = false ->
    py_int (Rules.field 4 line) = Some q ->
    0 <= q ->
    py_float (Rules.field 5 line) = Some discount ->
    flt discount (of_Z 0) = false ->
    flt (of_Z 50) discount = false ->
    (String.eqb (Rules.field 2 line) "food" && flt (of_Z 20) discount) = false ->
    PyDate.strptime (Rules.field 6 line) = Some created_at ->
    PyDate.after created_at today = false ->
    flt (discounted price discount) (of_Z 1) = false ->
    float_of_int q = Some qf ->
    accepted today line ids
      {| ValidRecord.id := k;
         ValidRecord.name := PyStr.strip (Rules.field 1 line);
         ValidRecord.category := Rules.field 2 line;
         ValidRecord.final_price := py_round2 (discounted price discount);
         ValidRecord.quantity := q;
         ValidRecord.total_value := py_round2 (fmul (discounted price discount) qf) |}.

(** The record is built from an unrounded price [p] that is not below 1:
    [final_price] and [total_value] are both rounded from [p], and
    [final_price] is at least 1 unless [p] is NaN. *)
Definition record_invariant (r : record) : Prop :=
  0 <= ValidRecord.quantity r
  /\ In (ValidRecord.category r) ALLOWED_CATEGORIES
  /\ PyStr.strip (ValidRecord.name r) = ValidRecord.name r
  /\ 3 <= PyStr.len (ValidRecord.name r) <= 50
  /\ exists p qf,
       flt p (of_Z 1) = false
       /\ ValidRecord.final_price r = py_round2 p
       /\ float_of_int (ValidRecord.quantity r) = Some qf
       /\ ValidRecord.total_value r = py_round2 (fmul p qf)
       /\ (is_nan p = true \/ fle (of_Z 1) (ValidRecord.final_price r) = true).

(** ** Binary64: the canonical form *)

(** The exponent of the format for a number of magnitude [e]. *)
Definition fexp64 (e : Z) : Z := Z.max (e - 53) (-1074).

(** The mantissa [m] at exponent [e] is in the canonical form of the
    format. *)
Definition canonical (m e : Z) : Prop := fexp64 (Zdigits2 m + e) = e.

(** The exponent [e] is not above the exponent of the format for [m]: no
    precision is missing. *)
Definition fits (m e : Z) : Prop := e <= fexp64 (Zdigits2 m + e).

(** The value [m * 2 ^ e] is at least 1. *)
Definition ge_one (m e : Z) : Prop := 0 < m /\ 2 ^ (- e) <= m.

(** A float is canonical when it is not finite or its mantissa is. *)
Definition is_canonical (x : float) : Prop :=
  match x with
  | S754_finite _ m e => canonical (Zpos m) e
  | _ => True
  end.

(** ** Further vocabulary *)

(** The number of occurrences of [c] in [s]. *)
Fixpoint count_char (c : ascii) (s : string) : nat :=
  match s with
  | String a r => (if Ascii.eqb a c then 1 else 0) + count_char c r
  | EmptyString => 0
  end.

(** [a <= b] on dates. *)
Definition not_after (a b : PyDate.date) : bool := negb (PyDate.after a b).

(** Whether the validator got past the id check. *)
Definition id_accepted (o : outcome record) : bool :=
  match o with
  | Invalid (WrongFieldCount | IdNotANumber | IdNotPositive | IdNotUnique) => false
  | _ => true
  end.

(** The invariant of the loop on the ids: the records have distinct
    positive ids, all of them in [used_ids]. *)
Definition ids_invariant (st : loop_state) : Prop :=
  List.NoDup (map ValidRecord.id (valid_records st))
  /\ Forall (fun r => 0 < ValidRecord.id r /\ ValidRecord.id r ∈ used_ids st)
       (valid_records st).

(** The string starts with a decimal digit. *)
Definition starts_with_digit (s : string) : bool :=
  match s with
  | String c _ => is_digit c
  | EmptyString => false
  end.

(** The characters of a formatted number. *)
Definition numeric (c : ascii) : bool :=
  is_digit c || Ascii.eqb c "." || Ascii.eqb c "-".

(** The string has no line feed. *)
Definition one_line (s : string) : bool :=
  all_chars (fun c => negb (Ascii.eqb c LF)) s.

(** The error entry [e] of the file whose first line has number [first]
    carries the message of a blank line exactly when its line is blank. *)
Definition blank_exactly (first : nat) (lines : list string) (e : nat * reason)
  : Prop :=
  (first <= fst e)%nat
  /\ exists line,
       nth_error lines (fst e - first) = Some line
       /\ (snd e = EmptyLine <-> all_chars PyStr.isspace line = true).

(** ** The verdict of a line in a run *)

(** [used_ids] after the loop has read [lines], numbered from [n], starting
    from [ids]: a blank line leaves the set, any other line leaves what the
    validator leaves. *)
Fixpoint ids_after (today : PyDate.date) (lines : list string) (n : nat)
    (ids : gset Z) : gset Z :=
  match lines with
  | [] => ids
  | line :: rest =>
      ids_after today rest (S n)
        (if String.eqb (PyStr.strip line) "" then ids
         else snd (parse_and_validate today line n ids))
  end.

(** [used_ids] as line [k] of the file finds it in a run: what the lines
    1 to [k - 1] leave of the empty set. *)
Definition ids_before (today : PyDate.date) (lines : list string) (k : nat)
  : gset Z :=
  ids_after today (firstn (pred k) lines) 1 ∅.

(** What the run does with line [k] of the file: nothing when there is no
    such line, the error of a blank line, or the outcome of the validator
    on the line under the [used_ids] of the run. *)
Definition verdict (today : PyDate.date) (lines : list string) (k : nat)
  : option (outcome record) :=
  match k with
  | O => None
  | S i =>
      match nth_error lines i with
      | None => None
      | Some line =>
          if String.eqb (PyStr.strip line) "" then Some (Invalid EmptyLine)
          else Some (fst (parse_and_validate today line k
                            (ids_before today lines k)))
      end
  end.

(** The records of the run, read off the verdicts of the lines 1 to [n],
    and its error entries. *)
Definition records_of_verdicts (today : PyDate.date) (lines : list string)
    (n : nat) : list record :=
  flat_map (fun k => match verdict today lines k with
                     | Some (Valid r) => [r]
                     | _ => []
                     end) (seq 1 n).

Definition errors_of_verdicts (today : PyDate.date) (lines : list string)
    (n : nat) : list (nat * reason) :=
  flat_map (fun k => match verdict today lines k with
                     | Some (Invalid why) => [(k, why)]
                     | _ => []
                     end) (seq 1 n).

(** ** The exact value of a float *)

(** [x == y] on floats: false when either is NaN, true for [0.0 == -0.0]. *)
Definition py_eq (x y : float) : bool := SFeqb x y.





(** ** Sample inputs *)

(** A current date for the examples. *)
Definition day0 : PyDate.date :=
  {| PyDate.year := 2024; PyDate.month := 6; PyDate.day := 15 |}.

(** A line as the file iterator yields it, with its line feed. *)
Definition eol (s : string) : string :=
  String.append s (String "010" EmptyString).

(** [n] zeros. *)
Fixpoint zeros (n : nat) : string :=
  match n with
  | O => EmptyString
  | S k => String "0" (zeros k)
  end.

(** A well-formed record whose quantity is 10 ^ 309. *)
Definition huge_quantity_line : string :=
  String.append "2;Widget;books;1.5;1"
    (String.append (zeros 309) ";0;2020-01-01").

(** Six lines: valid, blank, valid, duplicate id, valid, malformed id. *)
Definition order_sample : list string :=
  [eol "4;Novel;books;12.50;3;0;2020-01-01";
   eol "";
   eol "9;Bread;food;2.00;10;5;2020-01-01";
   eol "4;Poems;books;8;1;0;2020-01-01";
   eol "2;Atlas;books;30;1;10;2020-01-01";
   "x;Radio;electronics;30;1;10;2020-01-01"].

(** Five valid lines: one record worth 1e16 and two worth 1 in books, two
    worth 1 in food. *)
Definition rounding_sample : list string :=
  [eol "1;Mainframe;books;1e16;1;0;2020-01-01";
   eol "2;Bread;food;1;1;0;2020-01-01";
   eol "3;Butter;food;1;1;0;2020-01-01";
   eol "4;Novel;books;1;1;0;2020-01-01";
   "5;Poems;books;1;1;0;2020-01-01"].


(** * Properties *)

(** ** The loop of [process_file] *)

Section Loop.

Variable validator : string -> nat -> gset Z -> outcome record * gset Z.

Lemma process_line_blank st n line :
  PyStr.strip line = "" ->
  process_line validator st n line =
    Returned {| valid_records := valid_records st;
                errors := errors st ++ [(n, EmptyLine)];
                used_ids := used_ids st |}.
Proof.
  intros Hblank. unfold process_line. now rewrite Hblank.
Qed.

(** A run over [pre ++ rest] that returns is a run over [pre] followed by
    a run over [rest]. *)
Lemma process_lines_app pre rest n st st' :
  process_lines validator (pre ++ rest) n st = Returned st' ->
  exists st1,
    process_lines validator pre n st = Returned st1 /\
    process_lines validator rest (n + length pre) st1 = Returned st'.
Proof.
  revert n st. induction pre as [|l pre IH]; intros n st H; simpl in *.
  - exists st. split; [reflexivity|]. now rewrite Nat.add_0_r.
  - destruct (process_line validator st n l) as [st0|e]; [|discriminate].
    destruct (IH _ _ H) as (st1 & H1 & H2).
    exists st1. split; [exact H1|].
    now replace (n + S (length pre))%nat with (S n + length pre)%nat by lia.
Qed.

(** Each iteration that returns appends one entry to exactly one of the
    two lists. *)
Lemma process_line_appends st n line st' :
  process_line validator st n line = Returned st' ->
  (exists r, valid_records st' = valid_records st ++ [r]
             /\ errors st' = errors st)
  \/ (exists why, valid_records st' = valid_records st
                  /\ errors st' = errors st ++ [(n, why)]).
Proof.
  unfold process_line.
  destruct (String.eqb (PyStr.strip line) "").
  - intros [= <-]. right. now exists EmptyLine.
  - destruct (validator line n (used_ids st)) as [[r|why|e] ids];
      intros [= <-]; simpl.
    + left. now exists r.
    + right. now exists why.
Qed.

Lemma process_lines_count lines n st st' :
  process_lines validator lines n st = Returned st' ->
  (length (valid_records st') + length (errors st')
   = length (valid_records st) + length (errors st) + length lines)%nat.
Proof.
  revert n st. induction lines as [|l lines IH]; intros n st H; simpl in *.
  - injection H as <-. lia.
  - destruct (process_line validator st n l) as [st0|e] eqn:E; [|discriminate].
    apply IH in H.
    destruct (process_line_appends _ _ _ _ E)
      as [(r & Hv & He)|(why & Hv & He)];
      rewrite Hv, He in H; rewrite ?length_app in H; simpl in *; lia.
Qed.

(** The lists only grow. *)
Lemma process_lines_extends lines n st st' :
  process_lines validator lines n st = Returned st' ->
  exists vs es,
    valid_records st' = valid_records st ++ vs /\
    errors st' = errors st ++ es.
Proof.
  revert n st. induction lines as [|l lines IH]; intros n st H; simpl in *.
  - injection H as <-. exists [], []. now rewrite !app_nil_r.
  - destruct (process_line validator st n l) as [st0|e] eqn:E; [|discriminate].
    destruct (IH _ _ H) as (vs & es & Hv & He).
    destruct (process_line_appends _ _ _ _ E)
      as [(r & Hv0 & He0)|(why & Hv0 & He0)];
      rewrite Hv0 in Hv; rewrite He0 in He.
    + exists (r :: vs), es. rewrite Hv, He. now rewrite <- app_assoc.
    + exists vs, ((n, why) :: es). rewrite Hv, He. now rewrite <- app_assoc.
Qed.

End Loop.

(** ** Blank lines *)

Lemma lstrip_with_empty sp s :
  PyStr.lstrip_with sp s = "" <-> all_chars sp s = true.
Proof.
  induction s as [|c r IH]; simpl; [tauto|].
  destruct (sp c); simpl; [exact IH|]. split; discriminate.
Qed.

Lemma lstrip_with_head sp s c r :
  PyStr.lstrip_with sp s = String c r -> sp c = false.
Proof.
  induction s as [|c0 r0 IH]; simpl; [discriminate|].
  destruct (sp c0) eqn:E; [exact IH|]. now intros [= <- <-].
Qed.

Lemma rstrip_with_empty sp s :
  PyStr.rstrip_with sp s = "" <-> all_chars sp s = true.
Proof.
  induction s as [|c r IH]; simpl; [tauto|].
  destruct (PyStr.rstrip_with sp r) eqn:E.
  - destruct (sp c); simpl; [|split; discriminate].
    split; intros _; [now apply IH|reflexivity].
  - split; [discriminate|]. intros H. apply andb_true_iff in H as [_ H].
    apply IH in H. discriminate.
Qed.

(** A line is blank for [process_file] exactly when it is empty or made of
    whitespace only. *)
Lemma strip_empty_iff s :
  PyStr.strip s = "" <-> all_chars PyStr.isspace s = true.
Proof.
  unfold PyStr.strip, PyStr.strip_with. rewrite rstrip_with_empty. split.
  - intros H. destruct (PyStr.lstrip_with PyStr.isspace s) as [|c r] eqn:E.
    + now apply lstrip_with_empty.
    + apply lstrip_with_head in E. simpl in H. now rewrite E in H.
  - intros H. apply lstrip_with_empty in H. now rewrite H.
Qed.

(** ** What the validator can raise and how it changes [used_ids] *)

Ltac split_match :=
  match goal with
  | |- context [match ?x with _ => _ end] => destruct x eqn:?
  | H : context [match ?x with _ => _ end] |- _ => destruct x eqn:?
  end.

Lemma validate_fields_crash today k a b c d e f x :
  validate_fields today k a b c d e f = Crash x -> x = OverflowError.
Proof.
  unfold validate_fields. repeat split_match; congruence.
Qed.

Lemma parse_and_validate_crash today line n ids x :
  fst (parse_and_validate today line n ids) = Crash x -> x = OverflowError.
Proof.
  unfold parse_and_validate.
  repeat split_match; simpl; try discriminate.
  apply validate_fields_crash.
Qed.

Lemma parse_and_validate_used_ids today line n ids :
  snd (parse_and_validate today line n ids) = ids
  \/ exists k, (k ∉ ids) /\ snd (parse_and_validate today line n ids) = {[k]} ∪ ids.
Proof.
  unfold parse_and_validate.
  repeat split_match; simpl; auto.
  right. eexists; split; [|reflexivity].
  match goal with H : bool_decide _ = false |- _ =>
    now apply bool_decide_eq_false in H end.
Qed.

Lemma process_line_used_ids today st n line st' :
  process_line (parse_and_validate today) st n line = Returned st' ->
  used_ids st ⊆ used_ids st'.
Proof.
  unfold process_line.
  destruct (String.eqb (PyStr.strip line) ""); [now intros [= <-]|].
  destruct (parse_and_validate_used_ids today line n (used_ids st))
    as [E|(k & _ & E)];
    destruct (parse_and_validate today line n (used_ids st)) as [[r|why|x] ids];
    simpl in E; subst ids; intros [= <-]; simpl; set_solver.
Qed.

(** [used_ids] never shrinks during a run. *)
Lemma process_lines_used_ids today lines n st st' :
  process_lines (parse_and_validate today) lines n st = Returned st' ->
  used_ids st ⊆ used_ids st'.
Proof.
  revert n st. induction lines as [|l lines IH]; intros n st H; simpl in *.
  - now injection H as <-.
  - destruct (process_line _ st n l) as [st0|x] eqn:E; [|discriminate].
    apply process_line_used_ids in E. apply IH in H. set_solver.
Qed.

Lemma process_lines_raise today lines n st x :
  process_lines (parse_and_validate today) lines n st = Raised x ->
  x = OverflowError.
Proof.
  revert n st. induction lines as [|l lines IH]; intros n st H; simpl in *.
  - discriminate.
  - destruct (process_line _ st n l) as [st0|x0] eqn:E; [now apply IH in H|].
    injection H as <-. unfold process_line in E.
    destruct (String.eqb (PyStr.strip l) ""); [discriminate|].
    destruct (parse_and_validate today l n (used_ids st)) as [[r|why|x0'] ids] eqn:P;
      try discriminate.
    injection E as <-.
    apply (parse_and_validate_crash today l n (used_ids st)). now rewrite P.
Qed.

(** A run of [process_file] on an opened file that returns is a run of the
    loop from the fresh state that returns. *)
Lemma process_file_returned today lines out valid errs :
  process_file today (Opened lines) = (out, Returned (valid, errs)) ->
  exists st,
    process_lines (parse_and_validate today) lines 1 fresh = Returned st
    /\ valid = valid_records st /\ errs = errors st /\ out = [].
Proof.
  unfold process_file, process_file_with.
  destruct (process_lines _ lines 1 fresh) as [st|x] eqn:E.
  - intros [= <- <- <-]. now exists st.
  - apply process_lines_raise in E. subst x. discriminate.
Qed.

(** ** C8: blank lines are recorded without validation *)

(** C8.  For a line that is empty or whitespace-only after [strip], the
    loop iteration appends [(line_number, EmptyLine)] to the errors and
    leaves the valid records and [used_ids] as they were, whatever the
    validator is: two different validators give the same iteration, so the
    validator is not consulted.  In a run of [process_file] that returns,
    the entry is in the returned error list at the line's number. *)
Theorem blank_line_is_error_without_validation
    (today : PyDate.date) (pre post : list string) (line : string)
    (Hblank : PyStr.strip line = "") :
  (forall validator st n,
      process_line validator st n line =
        Returned {| valid_records := valid_records st;
                    errors := errors st ++ [(n, EmptyLine)];
                    used_ids := used_ids st |})
  /\ (forall v1 v2 st n, process_line v1 st n line = process_line v2 st n line)
  /\ (forall out valid errs,
         process_file today (Opened (pre ++ line :: post))
           = (out, Returned (valid, errs)) ->
         In (S (length pre), EmptyLine) errs).
Proof.
  split; [|split].
  - intros. now apply process_line_blank.
  - intros. now rewrite !process_line_blank.
  - intros out valid errs H.
    apply process_file_returned in H as (st & H & _ & -> & _).
    apply process_lines_app in H as (st1 & _ & H). simpl in H.
    rewrite process_line_blank in H by assumption.
    apply process_lines_extends in H as (vs & es & _ & ->). simpl.
    apply in_or_app. left. apply in_or_app. right. now left.
Qed.

Lemma blank_line_is_error_without_validation_witness :
  PyStr.strip (eol "   ") = ""
  /\ process_file day0
       (Opened [eol "1;Widget;electronics;100.00;2;10;2020-01-01"; eol "   ";
                "1;Other;clothes;30;1;0;2020-01-01"])
     = ([], Returned
              ([{| ValidRecord.id := 1; ValidRecord.name := "Widget";
                   ValidRecord.category := "electronics";
                   ValidRecord.final_price := S754_finite false 6333186975989760 (-46);
                   ValidRecord.quantity := 2;
                   ValidRecord.total_value := S754_finite false 6333186975989760 (-45) |}],
               [(2%nat, EmptyLine); (3%nat, IdNotUnique)]))
  /\ In (2%nat, EmptyLine) [(2%nat, EmptyLine); (3%nat, IdNotUnique)].
Proof.
  split; [reflexivity|]. split; [vm_compute; reflexivity|].
  refine (proj2 (proj2 (blank_line_is_error_without_validation day0
            [eol "1;Widget;electronics;100.00;2;10;2020-01-01"]
            ["1;Other;clothes;30;1;0;2020-01-01"] (eol "   ") _)) [] _ _ _);
    vm_compute; reflexivity.
Defined.

(** ** C10: a quantity beyond the float range aborts the run *)

(** C10 at the failing input.  The second line passes every check, but
    [final_price * quantity] cannot convert the quantity to a float: the
    [OverflowError] is not a [ValidationError], it leaves the loop and
    [process_file], and the three lines end in neither list. *)
Theorem huge_quantity_aborts_run :
  fst (parse_and_validate day0 (eol huge_quantity_line) 2 {[1]}) = Crash OverflowError
  /\ process_file day0
       (Opened [eol "1;Widget;electronics;100.00;2;10;2020-01-01";
                eol huge_quantity_line;
                eol "3;AB;books;20;1;0;2020-01-01"])
     = ([], Raised OverflowError).
Proof.
  split; vm_compute; reflexivity.
Qed.


(** ** C5: a missing input file *)

(** C5 as stated fails for an input that exists but cannot be read:
    [open] raises [PermissionError], the handler of line 121 does not catch
    it, and [process_file] raises instead of returning two empty lists. *)
Lemma unreadable_input_raises :
  process_file day0 (OpenFails PermissionError) = ([], Raised PermissionError)
  /\ ~ (exists out, process_file day0 (OpenFails PermissionError)
                    = (out, Returned ([], []))).
Proof.
  split; [reflexivity|]. intros [out H]. discriminate H.
Qed.

(** C5, amended.  When the input file does not exist, [process_file] prints
    its notice and returns two empty lists, and [main] writes the empty
    report and returns.  The other failures of [open] leave
    [process_file]. *)
Theorem missing_input_gives_empty_report
    (today : PyDate.date) (alg : sum_algorithm)
    (old_report : option report) (log : list printed) :
  process_file today (OpenFails FileNotFoundError)
    = ([InputNotFound], Returned ([], []))
  /\ main today alg {| input_txt := OpenFails FileNotFoundError;
                       report_txt := old_report; console := log |}
     = ({| input_txt := OpenFails FileNotFoundError;
           report_txt := Some empty_report;
           console := log ++ [InputNotFound; Summary 0 0 0 fzero] |},
        Returned tt)
  /\ process_file today (OpenFails PermissionError) = ([], Raised PermissionError)
  /\ process_file today (OpenFails IsADirectoryError)
     = ([], Raised IsADirectoryError).
Proof.
  repeat split; reflexivity.
Qed.

(** ** C3: the id is consumed as soon as it is accepted *)

Ltac seven_fields H :=
  match type of H with
  | length ?l = 7%nat =>
      let E := fresh "Efields" in
      destruct l as [|? [|? [|? [|? [|? [|? [|? [|? ?]]]]]]]] eqn:E;
      try discriminate H
  end.

Lemma fields_not_blank line :
  length (fields line) = 7%nat -> String.eqb (PyStr.strip line) "" = false.
Proof.
  unfold fields. intros H.
  destruct (String.eqb_spec (PyStr.strip line) "") as [E|]; [|reflexivity].
  rewrite E in H. discriminate H.
Qed.

Lemma parse_and_validate_fresh_id today line n ids k :
  length (fields line) = 7%nat ->
  py_int (hd "" (fields line)) = Some k ->
  0 < k -> k ∉ ids ->
  snd (parse_and_validate today line n ids) = {[k]} ∪ ids.
Proof.
  unfold fields, parse_and_validate. intros H7 Hid Hpos Hnew.
  seven_fields H7. simpl in Hid. rewrite Hid.
  destruct (Z.leb_spec k 0); [lia|].
  now rewrite bool_decide_eq_false_2.
Qed.

Lemma parse_and_validate_used_id today line n ids k :
  length (fields line) = 7%nat ->
  py_int (hd "" (fields line)) = Some k ->
  0 < k -> k ∈ ids ->
  parse_and_validate today line n ids = (Invalid IdNotUnique, ids).
Proof.
  unfold fields, parse_and_validate. intros H7 Hid Hpos Hold.
  seven_fields H7. simpl in Hid. rewrite Hid.
  destruct (Z.leb_spec k 0); [lia|].
  now rewrite bool_decide_eq_true_2.
Qed.

(** C3.  If line [l1] has seven fields and its id field parses as a
    positive integer [k] not yet in [used_ids], the call adds [k] to
    [used_ids] at once, whatever the later fields are and however the call
    ends.  The id stays in the set for the rest of the run, so a later line
    [l2] with seven fields and the same id is rejected as a duplicate, also
    when [l1] produced no valid record. *)
Theorem id_is_consumed_at_once
    (today : PyDate.date) (l1 l2 : string) (mid : list string)
    (n : nat) (st st' : loop_state) (k : Z)
    (Hfields1 : length (fields l1) = 7%nat)
    (Hid1 : py_int (hd "" (fields l1)) = Some k)
    (Hpositive : 0 < k)
    (Hfresh : k ∉ used_ids st)
    (Hfields2 : length (fields l2) = 7%nat)
    (Hid2 : py_int (hd "" (fields l2)) = Some k)
    (Hrun : process_lines (parse_and_validate today) (l1 :: mid) n st
            = Returned st') :
  snd (parse_and_validate today l1 n (used_ids st)) = {[k]} ∪ used_ids st
  /\ k ∈ used_ids st'
  /\ process_line (parse_and_validate today) st' (n + S (length mid)) l2
     = Returned {| valid_records := valid_records st';
                   errors := errors st' ++ [((n + S (length mid))%nat, IdNotUnique)];
                   used_ids := used_ids st' |}.
Proof.
  pose proof (parse_and_validate_fresh_id today l1 n _ k
                Hfields1 Hid1 Hpositive Hfresh) as Hadd.
  assert (Hin : k ∈ used_ids st').
  { simpl in Hrun. unfold process_line in Hrun.
    rewrite (fields_not_blank _ Hfields1) in Hrun.
    destruct (parse_and_validate today l1 n (used_ids st)) as [[r|why|x] ids];
      simpl in Hadd; subst ids; try discriminate Hrun;
      apply process_lines_used_ids in Hrun; simpl in Hrun; set_solver. }
  split; [exact Hadd|]. split; [exact Hin|].
  unfold process_line. rewrite (fields_not_blank _ Hfields2).
  now rewrite (parse_and_validate_used_id today l2 _ _ k).
Qed.

Lemma id_is_consumed_at_once_witness :
  let l1 := eol "1;AB;books;20;1;0;2020-01-01" in
  let mid := [eol "7;Gadget;books;20;1;0;2020-01-01"] in
  let l2 := "1;Other;clothes;30;1;0;2020-01-01" in
  let st' :=
    {| valid_records :=
         [{| ValidRecord.id := 7; ValidRecord.name := "Gadget";
             ValidRecord.category := "books";
             ValidRecord.final_price := S754_finite false 5629499534213120 (-48);
             ValidRecord.quantity := 1;
             ValidRecord.total_value := S754_finite false 5629499534213120 (-48) |}];
       errors := [(1%nat, BadNameLength)];
       used_ids := {[7]} ∪ ({[1]} ∪ ∅) |} in
  fst (parse_and_validate day0 l1 1 ∅) = Invalid BadNameLength
  /\ snd (parse_and_validate day0 l1 1 (used_ids fresh)) = {[1]} ∪ used_ids fresh
  /\ 1 ∈ used_ids st'
  /\ process_line (parse_and_validate day0) st' (1 + S (length mid)) l2
     = Returned {| valid_records := valid_records st';
                   errors := errors st' ++ [((1 + S (length mid))%nat, IdNotUnique)];
                   used_ids := used_ids st' |}.
Proof.
  intros l1 mid l2 st'. split; [vm_compute; reflexivity|].
  apply (id_is_consumed_at_once day0 l1 l2 mid 1 fresh st' 1).
  - vm_compute; reflexivity.
  - vm_compute; reflexivity.
  - lia.
  - simpl. set_solver.
  - vm_compute; reflexivity.
  - vm_compute; reflexivity.
  - vm_compute; reflexivity.
Defined.

(** ** C7: the outputs keep the order of the input *)

Lemma failure_of_cons today n l lines e :
  (S n <= fst e)%nat ->
  failure_of today (S n) lines e -> failure_of today n (l :: lines) e.
Proof.
  intros Hle (_ & line & Hnth & H). split; [lia|]. exists line. split; [|exact H].
  replace (fst e - n)%nat with (S (fst e - S n)) by lia. exact Hnth.
Qed.

Lemma record_of_cons today n l lines k r :
  (S n <= k)%nat ->
  record_of today (S n) lines k r -> record_of today n (l :: lines) k r.
Proof.
  intros Hle (_ & line & ids & Hnth & H). split; [lia|].
  exists line, ids. split; [|exact H].
  replace (k - n)%nat with (S (k - S n)) by lia. exact Hnth.
Qed.

(** The loop invariant: what a run from line number [n] appends is sorted
    by line number and comes from the lines it read. *)
Lemma process_lines_ordered today lines n st st' :
  process_lines (parse_and_validate today) lines n st = Returned st' ->
  exists ns vs es,
    valid_records st' = valid_records st ++ vs
    /\ errors st' = errors st ++ es
    /\ StronglySorted lt ns
    /\ Forall (le n) ns
    /\ Forall2 (record_of today n lines) ns vs
    /\ StronglySorted lt (map fst es)
    /\ Forall (fun e => (n <= fst e)%nat) es
    /\ Forall (failure_of today n lines) es.
Proof.
  revert n st. induction lines as [|l lines IH]; intros n st H; simpl in H.
  - injection H as <-. exists [], [], []. rewrite !app_nil_r.
    repeat split; constructor.
  - destruct (process_line _ st n l) as [st0|x] eqn:E; [|discriminate].
    destruct (IH _ _ H) as (ns & vs & es & Hv & He & Sns & Lns & Rns & Ses & Les & Fes).
    assert (Lns' : Forall (le n) ns) by (eapply List.Forall_impl; [|exact Lns]; simpl; lia).
    assert (Les' : Forall (fun e => (n <= fst e)%nat) es)
      by (eapply List.Forall_impl; [|exact Les]; simpl; lia).
    assert (Rns' : Forall2 (record_of today n (l :: lines)) ns vs).
    { clear - Rns Lns. induction Rns; constructor.
      - inversion Lns; subst. now apply record_of_cons.
      - inversion Lns; subst. auto. }
    assert (Fes' : Forall (failure_of today n (l :: lines)) es).
    { clear - Fes Les. induction Fes; constructor.
      - inversion Les; subst. now apply failure_of_cons.
      - inversion Les; subst. auto. }
    assert (Hlt_ns : Forall (lt n) ns)
      by (eapply List.Forall_impl; [|exact Lns]; intros a Ha; simpl in *; lia).
    assert (Hlt_es : Forall (lt n) (map fst es)).
    { apply List.Forall_map. eapply List.Forall_impl; [|exact Les].
      intros a Ha; simpl in *; lia. }
    unfold process_line in E.
    destruct (String.eqb_spec (PyStr.strip l) "") as [Hblank|Hnb].
    + injection E as <-. simpl in Hv, He.
      exists ns, vs, ((n, EmptyLine) :: es).
      rewrite Hv, He, <- app_assoc. simpl.
      split; [reflexivity|]. split; [reflexivity|].
      split; [exact Sns|]. split; [exact Lns'|]. split; [exact Rns'|].
      split; [now constructor|].
      split; [constructor; [simpl; lia|exact Les']|].
      constructor; [|exact Fes'].
      split; [simpl; lia|].
      exists l. simpl. rewrite Nat.sub_diag. split; [reflexivity|]. now left.
    + destruct (parse_and_validate today l n (used_ids st)) as [[r|why|x] ids] eqn:P;
        [| |discriminate]; injection E as <-; simpl in Hv, He.
      * exists (n :: ns), (r :: vs), es.
        rewrite Hv, He, <- app_assoc. simpl.
        split; [reflexivity|]. split; [reflexivity|].
        split; [now constructor|].
        split; [constructor; [lia|exact Lns']|].
        split; [|now repeat split].
        constructor; [|exact Rns'].
        split; [lia|].
        exists l, (used_ids st). rewrite Nat.sub_diag, P. now split.
      * exists ns, vs, ((n, why) :: es).
        rewrite Hv, He, <- app_assoc. simpl.
        split; [reflexivity|]. split; [reflexivity|].
        split; [exact Sns|]. split; [exact Lns'|]. split; [exact Rns'|].
        split; [now constructor|].
        split; [constructor; [simpl; lia|exact Les']|].
        constructor; [|exact Fes'].
        split; [simpl; lia|].
        exists l. simpl. rewrite Nat.sub_diag. split; [reflexivity|].
        right. exists (used_ids st). now rewrite P.
Qed.

(** ** The dict [by_category] *)

Lemma keys_bump key v d :
  map fst (bump key v d)
  = if has_key key d then map fst d else map fst d ++ [key].
Proof.
  unfold has_key. induction d as [|[k c] rest IH]; simpl; [reflexivity|].
  rewrite (String.eqb_sym key k).
  destruct (String.eqb k key); simpl; [reflexivity|].
  rewrite IH. now destruct (existsb (String.eqb key) (map fst rest)).
Qed.

Lemma filter_filter_absent (ks : list string) c (l : list string) :
  existsb (String.eqb c) ks = true ->
  List.filter (fun k => negb (existsb (String.eqb k) ks))
    (List.filter (fun k => negb (String.eqb k c)) l)
  = List.filter (fun k => negb (existsb (String.eqb k) ks)) l.
Proof.
  intros Hin. induction l as [|x l IH]; simpl; [reflexivity|].
  destruct (String.eqb_spec x c) as [->|Hne]; simpl.
  - now rewrite Hin.
  - now rewrite IH.
Qed.

Lemma filter_filter_fresh (ks : list string) c (l : list string) :
  List.filter (fun k => negb (existsb (String.eqb k) (ks ++ [c]))) l
  = List.filter (fun k => negb (existsb (String.eqb k) ks))
      (List.filter (fun k => negb (String.eqb k c)) l).
Proof.
  induction l as [|x l IH]; simpl; [reflexivity|].
  rewrite existsb_app. simpl. rewrite orb_false_r.
  destruct (String.eqb x c); simpl.
  - rewrite orb_true_r. exact IH.
  - rewrite orb_false_r.
    destruct (existsb (String.eqb x) ks); simpl; [exact IH|now rewrite IH].
Qed.

(** The keys of the dict after the loop: the keys it had, then the new
    categories in the order the records introduce them. *)
Lemma keys_group records d :
  map fst (group records d)
  = map fst d
    ++ List.filter (fun k => negb (existsb (String.eqb k) (map fst d)))
         (first_seen (map ValidRecord.category records)).
Proof.
  revert d. induction records as [|r rest IH]; intros d; simpl.
  - now rewrite app_nil_r.
  - unfold group in *. simpl. rewrite IH, keys_bump. unfold has_key.
    destruct (existsb (String.eqb (ValidRecord.category r)) (map fst d)) eqn:E.
    + simpl. now rewrite filter_filter_absent.
    + simpl. rewrite <- app_assoc. simpl. now rewrite filter_filter_fresh.
Qed.

Lemma filter_all (l : list string) :
  List.filter (fun k => negb (existsb (String.eqb k) [])) l = l.
Proof.
  induction l as [|x l IH]; [reflexivity|].
  change (x :: List.filter (fun k => negb (existsb (String.eqb k) [])) l = x :: l).
  now rewrite IH.
Qed.

Lemma keys_of_statistics alg records :
  map fst (Stats.by_category (calculate_statistics alg records))
  = first_seen (map ValidRecord.category records).
Proof.
  destruct records as [|r rest]; [reflexivity|].
  unfold calculate_statistics. cbn [Stats.by_category].
  rewrite keys_group. simpl map at 1. now rewrite filter_all.
Qed.

Lemma lookup_bump c r d :
  lookup_category c (bump (ValidRecord.category r) (ValidRecord.total_value r) d)
  = if String.eqb (ValidRecord.category r) c
    then Some (add_record (default new_entry (lookup_category c d)) r)
    else lookup_category c d.
Proof.
  induction d as [|[k e] rest IH]; simpl.
  - now destruct (String.eqb (ValidRecord.category r) c).
  - destruct (String.eqb_spec k (ValidRecord.category r)) as [->|Hne]; simpl.
    + now destruct (String.eqb (ValidRecord.category r) c).
    + destruct (String.eqb_spec k c) as [->|Hne'].
      * destruct (String.eqb_spec (ValidRecord.category r) c); [congruence|reflexivity].
      * exact IH.
Qed.

Lemma lookup_group c records d :
  lookup_category c (group records d)
  = match of_category c records with
    | [] => lookup_category c d
    | rs => Some (fold_left add_record rs (default new_entry (lookup_category c d)))
    end.
Proof.
  revert d. induction records as [|r rest IH]; intros d; [reflexivity|].
  unfold group in *. simpl. rewrite IH, lookup_bump.
  destruct (String.eqb (ValidRecord.category r) c); simpl.
  - now destruct (of_category c rest).
  - reflexivity.
Qed.

Lemma fold_add_record rs e :
  fold_left add_record rs e
  = {| Stats.count := Stats.count e + Z.of_nat (length rs);
       Stats.value := fold_left fadd (map ValidRecord.total_value rs) (Stats.value e) |}.
Proof.
  revert e. induction rs as [|r rs IH]; intros e; simpl length; simpl.
  - destruct e. simpl. f_equal. lia.
  - rewrite IH. simpl. f_equal. lia.
Qed.

(** The entry of a category: absent when no record has it, else the
    number of its records and their values added in order. *)
Lemma lookup_statistics alg records c :
  lookup_category c (Stats.by_category (calculate_statistics alg records))
  = match of_category c records with
    | [] => None
    | rs => Some {| Stats.count := Z.of_nat (length rs);
                    Stats.value :=
                      fold_left fadd (map ValidRecord.total_value rs) fzero |}
    end.
Proof.
  destruct records as [|r rest]; [reflexivity|].
  unfold calculate_statistics. cbn [Stats.by_category].
  rewrite lookup_group. cbn [lookup_category default].
  destruct (of_category c (r :: rest)) as [|r0 rs]; [reflexivity|].
  now rewrite fold_add_record.
Qed.

Lemma lookup_category_In k e d :
  List.NoDup (map fst d) -> In (k, e) d -> lookup_category k d = Some e.
Proof.
  induction d as [|[k0 e0] d IH]; intros Hnd Hin; [destruct Hin|].
  cbn [map fst] in Hnd. inversion Hnd as [|? ? Hnot Hnd']; subst.
  cbn [lookup_category]. destruct Hin as [[= -> ->]|Hin].
  - now rewrite String.eqb_refl.
  - destruct (String.eqb_spec k0 k) as [->|_]; [|now apply IH].
    exfalso. apply Hnot. apply in_map_iff. now exists (k, e).
Qed.





Lemma first_seen_In c cats : In c (first_seen cats) <-> In c cats.
Proof.
  induction cats as [|k rest IH]; cbn [first_seen In]; [tauto|].
  rewrite filter_In, IH, negb_true_iff, String.eqb_neq.
  destruct (String.eqb_spec c k) as [->|Hne]; intuition congruence.
Qed.

Lemma first_seen_NoDup cats : List.NoDup (first_seen cats).
Proof.
  induction cats as [|k rest IH]; cbn [first_seen]; constructor.
  - rewrite filter_In, negb_true_iff, String.eqb_neq. tauto.
  - now apply List.NoDup_filter.
Qed.







(** ** Float comparisons *)

Lemma SFcompare_antisym x y :
  SFcompare y x = option_map CompOpp (SFcompare x y).
Proof.
  destruct x as [sx|sx| |sx mx ex], y as [sy|sy| |sy my ey]; simpl;
    try (destruct sx); try (destruct sy); try reflexivity.
  all: rewrite (Z.compare_antisym ex ey);
    destruct (ex ?= ey); simpl; try reflexivity;
    rewrite ?CompOpp_involutive, ?Pos.compare_cont_antisym; reflexivity.
Qed.

Lemma SFcompare_not_nan x y :
  is_nan x = false -> is_nan y = false -> exists c, SFcompare x y = Some c.
Proof.
  destruct x, y; simpl; try discriminate; intros _ _; eauto.
Qed.

(** On numbers, [x <= y] is the negation of [y < x]. *)
Lemma fle_negb_flt x y :
  is_nan x = false -> is_nan y = false -> fle x y = negb (flt y x).
Proof.
  intros Hx Hy. unfold fle, flt, SFleb, SFltb.
  rewrite (SFcompare_antisym x y).
  destruct (SFcompare_not_nan x y Hx Hy) as [c ->]. now destruct c.
Qed.

Lemma flt_negb_fle x y :
  is_nan x = false -> is_nan y = false -> flt x y = negb (fle y x).
Proof.
  intros Hx Hy. rewrite (fle_negb_flt y x Hy Hx). now rewrite negb_involutive.
Qed.

(** NaN compares false with everything and propagates through the
    discounted price. *)
Lemma flt_nan_l y : flt S754_nan y = false.
Proof. reflexivity. Qed.

Lemma discounted_nan_price d : discounted S754_nan d = S754_nan.
Proof.
  unfold discounted, fmul, SFmul.
  now destruct (fsub (of_Z 1) (fdiv d (of_Z 100))).
Qed.

Lemma discounted_nan_discount p : discounted p S754_nan = S754_nan.
Proof. unfold discounted. now destruct p. Qed.

(** ** The validator against the rules *)

Lemma not_nan_is_nan (x : float) : x <> S754_nan -> is_nan x = false.
Proof. destruct x; simpl; congruence. Qed.

(** The end of a branch of the validator: both sides compute. *)
Ltac leaf :=
  cbn;
  first [ eexists; split; reflexivity
        | left; eexists; reflexivity
        | right; reflexivity ].

(** Fail-fast order.  On a line whose price and discount do not read as
    NaN, the validator raises exactly when some rule fails, and the message
    belongs to the earliest rule that fails. *)
Lemma fail_fast_order today line n ids :
  Rules.no_nan line ->
  match Rules.first_failing today line ids with
  | Some rule =>
      exists why, fst (parse_and_validate today line n ids) = Invalid why
                  /\ Rules.rule_of why = rule
  | None =>
      (exists r, fst (parse_and_validate today line n ids) = Valid r)
      \/ fst (parse_and_validate today line n ids) = Crash OverflowError
  end.
Proof.
  unfold Rules.no_nan, Rules.first_failing, Rules.holds, Rules.field_count,
    Rules.id_ok, Rules.name_ok, Rules.category_ok, Rules.price_ok,
    Rules.quantity_ok, Rules.discount_ok, Rules.food_ok, Rules.date_ok,
    Rules.floor_ok, Rules.field, parse_and_validate, fields.
  destruct (PyStr.split DELIMITER (PyStr.strip line))
    as [|f0 [|f1 [|f2 [|f3 [|f4 [|f5 [|f6 [|f7 more]]]]]]]];
    intros [Hp Hd]; try (leaf; fail).
  cbn [nth length Nat.eqb negb List.find] in *.
  destruct (py_int f0) as [k|]; [|leaf].
  destruct (Z.leb_spec k 0), (Z.ltb_spec 0 k); try lia; [leaf|].
  destruct (bool_decide (k ∈ ids)); [leaf|].
  unfold validate_fields.
  rewrite !(Z.ltb_antisym).
  destruct (3 <=? PyStr.len (PyStr.strip f1)); [|leaf].
  destruct (PyStr.len (PyStr.strip f1) <=? 50); [|leaf].
  destruct (allowed f2); [|leaf].
  destruct (py_float f3) as [p|]; [|leaf].
  assert (Np : is_nan p = false) by (apply not_nan_is_nan; congruence).
  rewrite (flt_negb_fle (of_Z 0) p eq_refl Np).
  destruct (fle p (of_Z 0)); [leaf|].
  destruct (py_int f4) as [q|]; [|leaf].
  rewrite Z.ltb_antisym.
  destruct (0 <=? q); [|leaf].
  destruct (py_float f5) as [d|]; [|leaf].
  assert (Nd : is_nan d = false) by (apply not_nan_is_nan; congruence).
  rewrite (fle_negb_flt (of_Z 0) d eq_refl Nd), (fle_negb_flt d (of_Z 50) Nd eq_refl).
  destruct (flt d (of_Z 0)); [leaf|].
  destruct (flt (of_Z 50) d); [leaf|].
  destruct (String.eqb f2 "food"), (flt (of_Z 20) d); try (leaf; fail).
  all: destruct (PyDate.strptime f6) as [dt|]; [|leaf].
  all: destruct (PyDate.after dt today); [leaf|].
  all: destruct (flt (discounted p d) (of_Z 1)); [leaf|].
  all: destruct (float_of_int q); leaf.
Qed.

Lemma parse_and_validate_valid today line n ids r :
  fst (parse_and_validate today line n ids) = Valid r ->
  accepted today line ids r.
Proof.
  unfold parse_and_validate.
  destruct (PyStr.split DELIMITER (PyStr.strip line))
    as [|f0 [|f1 [|f2 [|f3 [|f4 [|f5 [|f6 [|f7 more]]]]]]]] eqn:E;
    try discriminate.
  cbn [fst].
  destruct (py_int f0) as [k|] eqn:Ek; [|discriminate].
  destruct (Z.leb_spec k 0); [discriminate|].
  destruct (bool_decide (k ∈ ids)) eqn:Eids; [discriminate|].
  apply bool_decide_eq_false in Eids.
  unfold validate_fields. cbn [fst].
  destruct (Z.ltb_spec (PyStr.len (PyStr.strip f1)) 3); [discriminate|].
  destruct (Z.ltb_spec 50 (PyStr.len (PyStr.strip f1))); [discriminate|].
  cbn [orb].
  destruct (allowed f2) eqn:Ecat; [|discriminate]. cbn [negb].
  destruct (py_float f3) as [p|] eqn:Ep; [|discriminate].
  destruct (fle p (of_Z 0)) eqn:Epos; [discriminate|].
  destruct (py_int f4) as [q|] eqn:Eq; [|discriminate].
  destruct (Z.ltb_spec q 0); [discriminate|].
  destruct (py_float f5) as [d|] eqn:Ed; [|discriminate].
  destruct (flt d (of_Z 0)) eqn:Elow; [discriminate|].
  destruct (flt (of_Z 50) d) eqn:Ehigh; [discriminate|].
  cbn [orb].
  destruct (String.eqb f2 "food" && flt (of_Z 20) d) eqn:Efood; [discriminate|].
  destruct (PyDate.strptime f6) as [dt|] eqn:Edt; [|discriminate].
  destruct (PyDate.after dt today) eqn:Eafter; [discriminate|].
  destruct (flt (discounted p d) (of_Z 1)) eqn:Efloor; [discriminate|].
  destruct (float_of_int q) as [qf|] eqn:Eqf; [|discriminate].
  intros [= <-].
  assert (F : forall i, Rules.field i line = nth i [f0; f1; f2; f3; f4; f5; f6] "")
    by (intros i; unfold Rules.field, fields; now rewrite E).
  pose proof (Accepted today line ids k p q d dt qf) as A.
  rewrite !F in A. unfold fields in A. rewrite E in A. cbn [nth length] in A.
  apply A; try assumption; try reflexivity; lia.
Qed.

Lemma reported_reason_is_first_failing_rule today line n ids why :
  Rules.no_nan line ->
  fst (parse_and_validate today line n ids) = Invalid why ->
  Rules.first_failing today line ids = Some (Rules.rule_of why).
Proof.
  intros Hnan H. pose proof (fail_fast_order today line n ids Hnan) as F.
  destruct (Rules.first_failing today line ids) as [rule|].
  - destruct F as (why' & H' & <-). congruence.
  - destruct F as [[r H']|H']; congruence.
Qed.

(** ** C4: a NaN price or discount escapes its rule *)

(** C4 at the failing input.  In the line below the price field reads as
    NaN, which is not greater than 0, so rule 5 is the earliest rule that
    fails; but [price <= 0] is false for NaN, the check of line 52 lets it
    pass, and the validator reports the malformed date of rule 9.  With a
    well-formed date the same line is returned as a valid record. *)
Theorem nan_price_reports_later_rule :
  let line := "8;Widget;books;nan;1;0;01.02.2020" in
  fst (parse_and_validate day0 line 1 ∅) = Invalid DateBadFormat
  /\ Rules.rule_of DateBadFormat = 9%nat
  /\ Rules.first_failing day0 line ∅ = Some 5%nat
  /\ py_float (Rules.field 3 line) = Some S754_nan
  /\ exists r, fst (parse_and_validate day0 "8;Widget;books;nan;1;0;2020-02-01" 1 ∅)
               = Valid r.
Proof.
  repeat split; try (vm_compute; reflexivity).
  eexists. vm_compute. reflexivity.
Qed.

(** ** C2: the floor is checked on the unrounded product *)

Lemma floor_fails_no_nan line : Rules.floor_ok line = false -> Rules.no_nan line.
Proof.
  unfold Rules.floor_ok, Rules.no_nan.
  destruct (py_float (Rules.field 3 line)) as [p|]; [|discriminate].
  destruct (py_float (Rules.field 5 line)) as [d|]; [|discriminate].
  intros H. apply negb_false_iff in H. split; intros [= ->].
  - now rewrite discounted_nan_price in H.
  - now rewrite discounted_nan_discount in H.
Qed.

Lemma floor_reason_floor_fails today line n ids :
  fst (parse_and_validate today line n ids) = Invalid FinalPriceBelowOne ->
  Rules.floor_ok line = false.
Proof.
  unfold Rules.floor_ok, Rules.field, fields, parse_and_validate.
  destruct (PyStr.split DELIMITER (PyStr.strip line))
    as [|f0 [|f1 [|f2 [|f3 [|f4 [|f5 [|f6 [|f7 more]]]]]]]];
    try discriminate.
  cbn [nth fst]. unfold validate_fields.
  repeat split_match; cbn [fst]; try discriminate; reflexivity.
Qed.

Lemma first_failing_is_floor today line ids :
  Rules.first_failing today line ids = Some 10%nat
  <-> forallb (Rules.holds today line ids) [1; 2; 3; 4; 5; 6; 7; 8; 9]%nat = true
      /\ Rules.floor_ok line = false.
Proof.
  unfold Rules.first_failing. cbn [List.find forallb].
  change (Rules.holds today line ids 10) with (Rules.floor_ok line).
  destruct (Rules.holds today line ids 1), (Rules.holds today line ids 2),
    (Rules.holds today line ids 3), (Rules.holds today line ids 4),
    (Rules.holds today line ids 5), (Rules.holds today line ids 6),
    (Rules.holds today line ids 7), (Rules.holds today line ids 8),
    (Rules.holds today line ids 9), (Rules.floor_ok line);
    cbn; split; try discriminate; try tauto; intros [? ?]; discriminate.
Qed.

(** C2 as stated fails: with price 0.999 and no discount the product is
    0.999, the line is rejected for the final-price floor, and yet the
    product rounded to two decimals is 1.0, which is not below 1. *)
Lemma floor_is_not_checked_on_rounded_price :
  let line := "5;Widget;books;0.999;1;0;2020-01-01" in
  exists p d,
    py_float (Rules.field 3 line) = Some p
    /\ py_float (Rules.field 5 line) = Some d
    /\ fst (parse_and_validate day0 line 1 ∅) = Invalid FinalPriceBelowOne
    /\ py_round2 (discounted p d) = of_Z 1
    /\ flt (py_round2 (discounted p d)) (of_Z 1) = false.
Proof.
  do 2 eexists. repeat split; vm_compute; reflexivity.
Qed.

(** C2, amended.  The validator fails with the final-price-floor reason
    exactly when rules 1 to 9 hold and the product
    [price * (1 - discount / 100)] itself, not yet rounded, is below 1.
    The rounding to two decimals is applied only afterwards, to the
    [final_price] stored in a returned record. *)
Theorem floor_is_checked_on_unrounded_product
    (today : PyDate.date) (line : string) (n : nat) (ids : gset Z) :
  (fst (parse_and_validate today line n ids) = Invalid FinalPriceBelowOne
   <-> forallb (Rules.holds today line ids) [1; 2; 3; 4; 5; 6; 7; 8; 9]%nat = true
       /\ Rules.floor_ok line = false)
  /\ match fst (parse_and_validate today line n ids) with
     | Valid r =>
         match py_float (Rules.field 3 line), py_float (Rules.field 5 line) with
         | Some p, Some d =>
             flt (discounted p d) (of_Z 1) = false
             /\ ValidRecord.final_price r = py_round2 (discounted p d)
         | _, _ => False
         end
     | _ => True
     end.
Proof.
  split.
  - rewrite <- first_failing_is_floor. split.
    + intros H.
      pose proof (floor_fails_no_nan _ (floor_reason_floor_fails _ _ _ _ H)) as Hnan.
      exact (reported_reason_is_first_failing_rule today line n ids _ Hnan H).
    + intros H.
      assert (Hnan : Rules.no_nan line)
        by (apply floor_fails_no_nan; now apply (first_failing_is_floor today line ids)).
      pose proof (fail_fast_order today line n ids Hnan) as F.
      rewrite H in F. destruct F as (why & Hwhy & Hrule).
      destruct why; try discriminate Hrule. exact Hwhy.
  - destruct (fst (parse_and_validate today line n ids)) as [r| |] eqn:E; trivial.
    apply parse_and_validate_valid in E.
    destruct E as [k price q discount dt qf _ _ _ _ _ _ Hp _ _ _ Hd _ _ _ _ _ Hfloor _].
    rewrite Hp, Hd. now split.
Qed.

(** ** Binary64: canonical results *)

(** The proofs below are about the integers [SpecFloat] computes with; they
    are what relates the comparison the validator makes on the unrounded
    price to the comparison of the rounded price a record stores. *)

Lemma fexp_fexp64 e : fexp prec emax e = fexp64 e.
Proof. reflexivity. Qed.

Lemma fexp64_mono a b : a <= b -> fexp64 a <= fexp64 b.
Proof. unfold fexp64. lia. Qed.

(** *** The number of binary digits *)

Lemma digits2_pos_size p : digits2_pos p = Pos.size p.
Proof. induction p; simpl; congruence. Qed.

Lemma Zdigits2_bounds m :
  0 < m -> 1 <= Zdigits2 m /\ 2 ^ (Zdigits2 m - 1) <= m < 2 ^ Zdigits2 m.
Proof.
  destruct m as [|p|p]; try lia. intros _. simpl Zdigits2.
  rewrite digits2_pos_size.
  pose proof (Pos.size_gt p) as Hgt. pose proof (Pos.size_le p) as Hle.
  apply Pos2Z.pos_lt_pos in Hgt. apply Pos2Z.pos_le_pos in Hle.
  rewrite Pos2Z.inj_pow in Hgt, Hle. change (Z.pos p~0) with (2 * Z.pos p) in Hle.
  split; [lia|]. split; [|exact Hgt].
  replace (Z.pos (Pos.size p)) with (Z.succ (Z.pos (Pos.size p) - 1)) in Hle by lia.
  rewrite Z.pow_succ_r in Hle by lia. lia.
Qed.

Lemma Zdigits2_0 : Zdigits2 0 = 0.
Proof. reflexivity. Qed.

Lemma Zdigits2_nonneg m : 0 <= m -> 0 <= Zdigits2 m.
Proof.
  intros H. destruct (Z.eq_dec m 0) as [->|]; [simpl; lia|].
  pose proof (Zdigits2_bounds m). lia.
Qed.

Lemma pow2_lt_inv a b : 0 <= b -> 2 ^ a < 2 ^ b -> a < b.
Proof.
  intros Hb H. destruct (Z_lt_le_dec a b) as [|Hle]; [assumption|].
  apply (Z.pow_le_mono_r 2) in Hle; lia.
Qed.

Lemma Zdigits2_unique m k :
  2 ^ (k - 1) <= m < 2 ^ k -> 0 < m -> Zdigits2 m = k.
Proof.
  intros [Hlo Hhi] Hm. destruct (Zdigits2_bounds m Hm) as (Hd & Hdlo & Hdhi).
  assert (1 <= k).
  { destruct (Z_lt_le_dec k 1) as [Hk|]; [|assumption].
    assert (2 ^ k <= 2 ^ 0) by (destruct (Z_lt_le_dec k 0);
      [rewrite Z.pow_neg_r by lia; simpl; lia|apply Z.pow_le_mono_r; lia]).
    simpl in *. lia. }
  assert (Zdigits2 m - 1 < k) by (apply pow2_lt_inv; lia).
  assert (k - 1 < Zdigits2 m) by (apply pow2_lt_inv; lia).
  lia.
Qed.

Lemma Zdigits2_ge m k : 0 <= k -> 2 ^ k <= m -> k + 1 <= Zdigits2 m.
Proof.
  intros Hk H. assert (Hm : 0 < m) by (pose proof (Z.pow_pos_nonneg 2 k); lia).
  destruct (Zdigits2_bounds m Hm) as (Hd & _ & Hhi).
  assert (k < Zdigits2 m) by (apply pow2_lt_inv; lia). lia.
Qed.

Lemma Zdigits2_mono a b : 0 <= a <= b -> Zdigits2 a <= Zdigits2 b.
Proof.
  intros [Ha Hab]. destruct (Z.eq_dec a 0) as [->|Hne].
  - simpl. now apply Zdigits2_nonneg.
  - destruct (Zdigits2_bounds a) as (Hd & Hlo & _); [lia|].
    pose proof (Zdigits2_ge b (Zdigits2 a - 1)). lia.
Qed.

(** The digits of a quotient by a power of two. *)
Lemma Zdigits2_shift m n :
  0 < m -> 0 <= n < Zdigits2 m -> Zdigits2 (m / 2 ^ n) = Zdigits2 m - n.
Proof.
  intros Hm Hn. destruct (Zdigits2_bounds m Hm) as (Hd & Hlo & Hhi).
  assert (Hp : 0 < 2 ^ n) by (apply Z.pow_pos_nonneg; lia).
  assert (Hlo' : 2 ^ (Zdigits2 m - n - 1) <= m / 2 ^ n).
  { apply Z.div_le_lower_bound; [assumption|].
    rewrite <- Z.pow_add_r by lia.
    now replace (n + (Zdigits2 m - n - 1)) with (Zdigits2 m - 1) by lia. }
  assert (Hhi' : m / 2 ^ n < 2 ^ (Zdigits2 m - n)).
  { apply Z.div_lt_upper_bound; [assumption|].
    rewrite <- Z.pow_add_r by lia.
    now replace (n + (Zdigits2 m - n)) with (Zdigits2 m) by lia. }
  apply Zdigits2_unique; [lia|].
  pose proof (Z.pow_pos_nonneg 2 (Zdigits2 m - n - 1)). lia.
Qed.

Lemma shift_out m n : 0 <= m -> Zdigits2 m <= n -> m / 2 ^ n = 0.
Proof.
  intros Hm Hn. destruct (Z.eq_dec m 0) as [->|Hne].
  - apply Z.div_0_l. pose proof (Z.pow_pos_nonneg 2 n).
    pose proof (Zdigits2_nonneg 0). simpl in *. lia.
  - destruct (Zdigits2_bounds m) as (Hd & _ & Hhi); [lia|].
    apply Z.div_small. split; [assumption|].
    pose proof (Z.pow_le_mono_r 2 (Zdigits2 m) n). lia.
Qed.

(** *** Shifting a mantissa to the exponent of the format *)

Lemma shr_1_m mrs : 0 <= shr_m mrs -> shr_m (shr_1 mrs) = shr_m mrs / 2.
Proof.
  destruct mrs as [m r s]. cbn [shr_m]. intros Hm.
  destruct m as [|[p|p|]|p]; cbn [shr_1 shr_m]; try lia; try reflexivity.
  - change (Z.pos p~1) with (2 * Z.pos p + 1).
    apply Z.div_unique with (r := 1); lia.
  - change (Z.pos p~0) with (2 * Z.pos p).
    apply Z.div_unique with (r := 0); lia.
Qed.

Lemma iter_shr_1_m p mrs :
  0 <= shr_m mrs -> shr_m (SpecFloat.iter_pos shr_1 p mrs) = shr_m mrs / 2 ^ Zpos p.
Proof.
  revert mrs. induction p as [p IH|p IH|]; intros mrs Hm; cbn [SpecFloat.iter_pos].
  - assert (H1 : 0 <= shr_m (shr_1 mrs))
      by (rewrite shr_1_m by assumption; apply Z.div_pos; lia).
    assert (Hp : 0 < 2 ^ Zpos p) by (apply Z.pow_pos_nonneg; lia).
    assert (H2 : 0 <= shr_m (SpecFloat.iter_pos shr_1 p (shr_1 mrs)))
      by (rewrite IH by assumption; apply Z.div_pos; lia).
    rewrite IH, IH, shr_1_m by assumption.
    rewrite !Z.div_div by lia. f_equal.
    rewrite (Pos2Z.inj_xI p).
    replace (2 * Z.pos p + 1) with (1 + Z.pos p + Z.pos p) by lia.
    rewrite !Z.pow_add_r by lia. change (2 ^ 1) with 2. lia.
  - assert (Hp : 0 < 2 ^ Zpos p) by (apply Z.pow_pos_nonneg; lia).
    assert (H2 : 0 <= shr_m (SpecFloat.iter_pos shr_1 p mrs))
      by (rewrite IH by assumption; apply Z.div_pos; lia).
    rewrite IH, IH by assumption.
    rewrite !Z.div_div by lia. f_equal.
    rewrite (Pos2Z.inj_xO p).
    replace (2 * Z.pos p) with (Z.pos p + Z.pos p) by lia.
    now rewrite Z.pow_add_r by lia.
  - rewrite shr_1_m by assumption. reflexivity.
Qed.

(** [shr_fexp] divides the mantissa by the power of two that brings the
    exponent up to the exponent of the format, when it is below it. *)
Lemma shr_fexp_spec m e l :
  0 <= m ->
  let n := Z.max 0 (fexp64 (Zdigits2 m + e) - e) in
  shr_m (fst (shr_fexp prec emax m e l)) = m / 2 ^ n
  /\ snd (shr_fexp prec emax m e l) = e + n.
Proof.
  intros Hm n. unfold shr_fexp, shr. rewrite fexp_fexp64.
  assert (Hrec : shr_m (shr_record_of_loc m l) = m) by (destruct l as [|[]]; reflexivity).
  subst n. destruct (fexp64 (Zdigits2 m + e) - e) as [|p|p] eqn:E; simpl fst; simpl snd.
  - rewrite Hrec. simpl. rewrite Z.div_1_r. split; lia.
  - rewrite iter_shr_1_m by (rewrite Hrec; assumption). rewrite Hrec.
    replace (Z.max 0 (Z.pos p)) with (Z.pos p) by lia. split; reflexivity.
  - rewrite Hrec. replace (Z.max 0 (Z.neg p)) with 0 by lia.
    simpl. rewrite Z.div_1_r. split; lia.
Qed.

(** *** Rounding to the format *)

Lemma shift_canonical m e :
  0 <= m -> fits m e ->
  let n := Z.max 0 (fexp64 (Zdigits2 m + e) - e) in
  (m / 2 ^ n = 0 /\ e + n = -1074)
  \/ (0 < m / 2 ^ n /\ canonical (m / 2 ^ n) (e + n)).
Proof.
  intros Hm Hfit n. unfold fits, canonical in *.
  assert (Hn : n = fexp64 (Zdigits2 m + e) - e) by lia.
  destruct (Z.eq_dec m 0) as [->|Hne].
  - left. simpl Zdigits2 in *. split; [apply Z.div_0_l|].
    + pose proof (Z.pow_pos_nonneg 2 n). lia.
    + unfold fexp64 in *. lia.
  - destruct (Zdigits2_bounds m) as (Hd & _); [lia|].
    destruct (Z_lt_le_dec n (Zdigits2 m)) as [Hlt|Hge].
    + right. pose proof (Zdigits2_shift m n) as Hs.
      rewrite Hs by lia.
      split.
      * assert (0 <= m / 2 ^ n) by (apply Z.div_pos; [lia|apply Z.pow_pos_nonneg; lia]).
        destruct (Z.eq_dec (m / 2 ^ n) 0) as [E|]; [|lia].
        rewrite E in Hs. simpl in Hs. lia.
      * replace (Zdigits2 m - n + (e + n)) with (Zdigits2 m + e) by lia. lia.
    + left. split; [apply shift_out; lia|]. unfold fexp64 in *. lia.
Qed.

Lemma shift_ge_one m e :
  ge_one m e ->
  let n := Z.max 0 (fexp64 (Zdigits2 m + e) - e) in
  ge_one (m / 2 ^ n) (e + n).
Proof.
  intros [Hm Hv] n. unfold ge_one.
  destruct (Zdigits2_bounds m Hm) as (Hd & Hlo & Hhi).
  assert (Hde : 1 <= Zdigits2 m + e).
  { destruct (Z_lt_le_dec 0 e); [lia|].
    assert (- e < Zdigits2 m) by (apply pow2_lt_inv; lia). lia. }
  assert (Hn : 0 <= n <= Zdigits2 m - 1) by (unfold fexp64 in n; lia).
  assert (Hpn : 0 < 2 ^ n) by (apply Z.pow_pos_nonneg; lia).
  assert (H2n : 2 ^ n <= m).
  { pose proof (Z.pow_le_mono_r 2 n (Zdigits2 m - 1)). lia. }
  split.
  - assert (1 <= m / 2 ^ n) by (apply Z.div_le_lower_bound; lia). lia.
  - destruct (Z_lt_le_dec (- (e + n)) 0) as [Hneg|Hpos].
    + rewrite Z.pow_neg_r by assumption. apply Z.div_pos; lia.
    + apply Z.div_le_lower_bound; [assumption|].
      rewrite <- Z.pow_add_r by lia.
      now replace (n + - (e + n)) with (- e) by lia.
Qed.

Lemma round_nearest_even_bounds m l :
  m <= round_nearest_even m l <= m + 1.
Proof.
  unfold round_nearest_even. destruct l as [|[]]; try lia.
  destruct (Z.even m); lia.
Qed.

(** The two shifts and the rounding of [binary_round_aux], on integers. *)
Lemma binary_round_aux_cases sx mx ex lx :
  0 <= mx ->
  exists m1,
    let n1 := Z.max 0 (fexp64 (Zdigits2 mx + ex) - ex) in
    let n2 := Z.max 0 (fexp64 (Zdigits2 m1 + (ex + n1)) - (ex + n1)) in
    mx / 2 ^ n1 <= m1 <= mx / 2 ^ n1 + 1
    /\ binary_round_aux prec emax sx mx ex lx
       = match m1 / 2 ^ n2 with
         | Z0 => S754_zero sx
         | Zpos m => if ex + n1 + n2 <=? 971 then S754_finite sx m (ex + n1 + n2)
                     else S754_infinity sx
         | Zneg _ => S754_nan
         end.
Proof.
  intros Hm. unfold binary_round_aux.
  destruct (shr_fexp_spec mx ex lx Hm) as [Hm1 He1].
  destruct (shr_fexp prec emax mx ex lx) as [mrs' e']. simpl in Hm1, He1.
  set (m1 := round_nearest_even (shr_m mrs') (loc_of_shr_record mrs')).
  assert (Hb : shr_m mrs' <= m1 <= shr_m mrs' + 1) by apply round_nearest_even_bounds.
  assert (H0 : 0 <= shr_m mrs').
  { rewrite Hm1. apply Z.div_pos; [lia|apply Z.pow_pos_nonneg; lia]. }
  destruct (shr_fexp_spec m1 e' loc_Exact) as [Hm2 He2]; [lia|].
  destruct (shr_fexp prec emax m1 e' loc_Exact) as [mrs'' e'']. simpl in Hm2, He2.
  exists m1. cbv zeta. rewrite <- Hm1, <- He1. split; [exact Hb|].
  rewrite Hm2, He2. reflexivity.
Qed.

(** A rounded result is canonical when the mantissa it starts from is not
    short of precision. *)
Lemma binary_round_aux_canonical sx mx ex lx :
  0 <= mx -> fits mx ex ->
  is_canonical (binary_round_aux prec emax sx mx ex lx).
Proof.
  intros Hm Hfit.
  destruct (binary_round_aux_cases sx mx ex lx Hm) as (m1 & Hb & ->).
  cbv zeta in Hb.
  set (n1 := Z.max 0 (fexp64 (Zdigits2 mx + ex) - ex)) in *.
  assert (H0 : 0 <= mx / 2 ^ n1)
    by (apply Z.div_pos; [lia|apply Z.pow_pos_nonneg; lia]).
  assert (Hfit1 : fits m1 (ex + n1)).
  { unfold fits.
    destruct (shift_canonical mx ex Hm Hfit) as [[_ He]|[_ Hc]]; fold n1 in He || fold n1 in Hc.
    - unfold fexp64. lia.
    - unfold canonical in Hc. rewrite <- Hc at 1.
      apply fexp64_mono. pose proof (Zdigits2_mono (mx / 2 ^ n1) m1). lia. }
  destruct (shift_canonical m1 (ex + n1)) as [[-> _]|[Hpos Hc]]; [lia|exact Hfit1|exact I|].
  destruct (m1 / 2 ^ _) as [|m|m] eqn:E; try lia.
  destruct (_ <=? 971); [|exact I]. exact Hc.
Qed.

Lemma binary_round_aux_ge_one sx mx ex lx :
  ge_one mx ex ->
  match binary_round_aux prec emax sx mx ex lx with
  | S754_finite s m e => s = sx /\ ge_one (Zpos m) e
  | S754_infinity s => s = sx
  | _ => False
  end.
Proof.
  intros Hge. assert (Hm : 0 <= mx) by (destruct Hge; lia).
  destruct (binary_round_aux_cases sx mx ex lx Hm) as (m1 & Hb & ->).
  cbv zeta in Hb.
  pose proof (shift_ge_one mx ex Hge) as H1. cbv zeta in H1.
  set (n1 := Z.max 0 (fexp64 (Zdigits2 mx + ex) - ex)) in *.
  assert (H1' : ge_one m1 (ex + n1)) by (unfold ge_one in *; lia).
  pose proof (shift_ge_one m1 (ex + n1) H1') as H2. cbv zeta in H2.
  destruct (m1 / 2 ^ _) as [|m|m] eqn:E; try (destruct H2; lia).
  destruct (_ <=? 971); [|reflexivity]. split; [reflexivity|exact H2].
Qed.

Lemma of_Z_1 : of_Z 1 = S754_finite false 4503599627370496 (-52).
Proof. vm_compute. reflexivity. Qed.

(** A canonical positive float of value at least 1 compares [>= 1]. *)
Lemma fle_one_canonical m e :
  canonical (Zpos m) e -> ge_one (Zpos m) e ->
  fle (of_Z 1) (S754_finite false m e) = true.
Proof.
  unfold canonical, ge_one. intros Hc [_ Hv].
  destruct (Zdigits2_bounds (Zpos m)) as (Hd & Hlo & Hhi); [lia|].
  assert (He : -52 <= e).
  { destruct (Z_lt_le_dec 0 e); [lia|].
    assert (- e < Zdigits2 (Zpos m)) by (apply pow2_lt_inv; lia).
    unfold fexp64 in Hc. lia. }
  rewrite of_Z_1. unfold fle, SFleb, SFcompare.
  destruct (Z.compare_spec (-52) e) as [<-|Hlt|Hgt]; [|reflexivity|lia].
  change (2 ^ (- (-52))) with 4503599627370496 in Hv.
  rewrite Pos.compare_cont_spec. simpl Pos.switch_Eq.
  destruct (Pos.compare_spec 4503599627370496 m) as [E|E|E]; try reflexivity.
  apply Pos2Z.pos_lt_pos in E. lia.
Qed.

(** *** The operations of the validator give canonical floats *)

Lemma fmul_canonical x y :
  is_canonical x -> is_canonical y -> is_canonical (fmul x y).
Proof.
  destruct x as [sx|sx| |sx mx ex], y as [sy|sy| |sy my ey]; try exact (fun _ _ => I).
  unfold is_canonical at 1 2, canonical. intros Hx Hy. unfold fmul, SFmul.
  apply binary_round_aux_canonical; [lia|]. unfold fits.
  destruct (Zdigits2_bounds (Zpos mx)) as (Hdx & Hlx & _); [lia|].
  destruct (Zdigits2_bounds (Zpos my)) as (Hdy & Hly & _); [lia|].
  assert (Hd : Zdigits2 (Zpos mx) + Zdigits2 (Zpos my) - 1
               <= Zdigits2 (Zpos (mx * my))).
  { assert (H : 2 ^ (Zdigits2 (Zpos mx) - 1 + (Zdigits2 (Zpos my) - 1))
                <= Zpos (mx * my)).
    { rewrite Z.pow_add_r, Pos2Z.inj_mul by lia.
      apply Z.mul_le_mono_nonneg; lia. }
    apply Zdigits2_ge in H; lia. }
  unfold fexp64 in *. lia.
Qed.

Lemma iter_xO m d : Zpos (Pos.iter xO m d) = Zpos m * 2 ^ Zpos d.
Proof.
  induction d as [|d IH] using Pos.peano_ind.
  - simpl Pos.iter. change (Zpos m~0) with (2 * Zpos m). change (2 ^ 1) with 2. lia.
  - rewrite Pos.iter_succ, Pos2Z.inj_succ, Z.pow_succ_r by lia.
    change (Zpos (Pos.iter xO m d)~0) with (2 * Zpos (Pos.iter xO m d)). lia.
Qed.

Lemma Zdigits2_mul_pow2 m d :
  0 < m -> 0 <= d -> Zdigits2 (m * 2 ^ d) = Zdigits2 m + d.
Proof.
  intros Hm Hd. destruct (Zdigits2_bounds m Hm) as (H1 & Hlo & Hhi).
  assert (Hp : 0 < 2 ^ d) by (apply Z.pow_pos_nonneg; lia).
  apply Zdigits2_unique; [|lia].
  replace (Zdigits2 m + d - 1) with (Zdigits2 m - 1 + d) by lia.
  rewrite !Z.pow_add_r by lia. split.
  - apply Z.mul_le_mono_nonneg_r; lia.
  - apply Z.mul_lt_mono_pos_r; lia.
Qed.

Lemma binary_round_canonical s m e :
  is_canonical (binary_round prec emax s m e).
Proof.
  unfold binary_round, shl_align. rewrite fexp_fexp64.
  change (Zpos (digits2_pos m)) with (Zdigits2 (Zpos m)).
  destruct (fexp64 (Zdigits2 (Zpos m) + e) - e) as [|d|d] eqn:E;
    apply binary_round_aux_canonical; try lia; unfold fits.
  - lia.
  - lia.
  - rewrite iter_xO, Zdigits2_mul_pow2 by lia.
    replace (Zdigits2 (Zpos m) + Zpos d + fexp64 (Zdigits2 (Zpos m) + e))
      with (Zdigits2 (Zpos m) + e) by lia.
    lia.
Qed.

Lemma of_Z_canonical n : is_canonical (of_Z n).
Proof.
  unfold of_Z, binary_normalize. destruct n; [exact I| |]; apply binary_round_canonical.
Qed.

(** The quotient and the exponent [SFdiv] rounds, for two integers. *)
Lemma div_core_integers n d :
  let e := Z.min (fexp64 (Zdigits2 (Zpos n) - Zdigits2 (Zpos d))) 0 in
  exists l,
    SFdiv_core_binary prec emax (Zpos n) 0 (Zpos d) 0
    = (Zpos n * 2 ^ (- e) / Zpos d, e, l).
Proof.
  intros e. unfold SFdiv_core_binary.
  rewrite !Z.add_0_r, Z.sub_diag, fexp_fexp64. fold e.
  replace (0 - e) with (- e) by lia.
  assert (He : e <= 0) by (subst e; lia).
  assert (Hm : match - e with
               | Z0 => Zpos n
               | Zpos _ => Z.shiftl (Zpos n) (- e)
               | Zneg _ => 0
               end = Zpos n * 2 ^ (- e)).
  { destruct (- e) as [|p|p] eqn:E; try lia.
    now rewrite Z.shiftl_mul_pow2 by lia. }
  rewrite Hm.
  destruct (Z.div_eucl (Zpos n * 2 ^ (- e)) (Zpos d)) as [q r] eqn:Ediv.
  assert (Hq : q = Zpos n * 2 ^ (- e) / Zpos d) by (unfold Z.div; now rewrite Ediv).
  rewrite <- Hq. eexists. reflexivity.
Qed.

Lemma of_ratio_rounds s n d :
  let e := Z.min (fexp64 (Zdigits2 (Zpos n) - Zdigits2 (Zpos d))) 0 in
  exists l,
    of_ratio s n d
    = binary_round_aux prec emax s (Zpos n * 2 ^ (- e) / Zpos d) e l.
Proof.
  intros e. destruct (div_core_integers n d) as [l Hl]. fold e in Hl.
  exists l. unfold of_ratio, fdiv, SFdiv. rewrite Hl.
  now destruct s.
Qed.

Lemma of_ratio_canonical s n d : is_canonical (of_ratio s n d).
Proof.
  destruct (of_ratio_rounds s n d) as [l ->].
  set (e := Z.min (fexp64 (Zdigits2 (Zpos n) - Zdigits2 (Zpos d))) 0).
  assert (He : e <= 0) by (subst e; lia).
  assert (Hp : 0 < 2 ^ (- e)) by (apply Z.pow_pos_nonneg; lia).
  set (q := Zpos n * 2 ^ (- e) / Zpos d).
  assert (Hq : 0 <= q) by (apply Z.div_pos; lia).
  apply binary_round_aux_canonical; [exact Hq|]. unfold fits.
  destruct (Zdigits2_bounds (Zpos n)) as (Hdn & Hln & _); [lia|].
  destruct (Zdigits2_bounds (Zpos d)) as (Hdd & _ & Hhd); [lia|].
  assert (Hd : Zdigits2 (Zpos n) - Zdigits2 (Zpos d) <= Zdigits2 q + e).
  { destruct (Z_lt_le_dec (Zdigits2 (Zpos n) - e - Zdigits2 (Zpos d) - 1) 0) as [Hs|Hs].
    - pose proof (Zdigits2_nonneg q Hq). lia.
    - pose proof (Zdigits2_ge q (Zdigits2 (Zpos n) - e - Zdigits2 (Zpos d) - 1) Hs) as H.
      assert (2 ^ (Zdigits2 (Zpos n) - e - Zdigits2 (Zpos d) - 1) <= q); [|lia].
      apply Z.div_le_lower_bound; [lia|].
      apply Z.le_trans with (2 ^ Zdigits2 (Zpos d)
                             * 2 ^ (Zdigits2 (Zpos n) - e - Zdigits2 (Zpos d) - 1)).
      + apply Z.mul_le_mono_nonneg_r; [|lia].
        apply Z.pow_nonneg; lia.
      + rewrite <- Z.pow_add_r by lia.
        replace (Zdigits2 (Zpos d) + (Zdigits2 (Zpos n) - e - Zdigits2 (Zpos d) - 1))
          with (Zdigits2 (Zpos n) - 1 + - e) by lia.
        rewrite Z.pow_add_r by lia.
        apply Z.mul_le_mono_nonneg_r; lia. }
  apply Z.le_trans with (fexp64 (Zdigits2 (Zpos n) - Zdigits2 (Zpos d))); [subst e; lia|].
  now apply fexp64_mono.
Qed.

Lemma of_ratio_ge_one n d :
  (d <= n)%positive ->
  match of_ratio false n d with
  | S754_finite s m e => s = false /\ ge_one (Zpos m) e
  | S754_infinity s => s = false
  | _ => False
  end.
Proof.
  intros Hdn. destruct (of_ratio_rounds false n d) as [l ->].
  set (e := Z.min (fexp64 (Zdigits2 (Zpos n) - Zdigits2 (Zpos d))) 0).
  assert (He : e <= 0) by (subst e; lia).
  assert (Hp : 0 < 2 ^ (- e)) by (apply Z.pow_pos_nonneg; lia).
  apply binary_round_aux_ge_one. unfold ge_one.
  assert (2 ^ (- e) <= Zpos n * 2 ^ (- e) / Zpos d); [|lia].
  apply Z.div_le_lower_bound; [lia|].
  apply Z.mul_le_mono_nonneg_r; lia.
Qed.

Lemma of_decimal_canonical s m e10 : is_canonical (of_decimal s m e10).
Proof.
  unfold of_decimal. destruct m; try exact I.
  destruct (0 <=? e10); [apply binary_round_canonical|apply of_ratio_canonical].
Qed.

Lemma unsigned_literal_canonical neg s x :
  unsigned_literal neg s = Some x -> is_canonical x.
Proof.
  unfold unsigned_literal.
  destruct (_ || _); [now intros [= <-]|].
  destruct (String.eqb _ _); [now intros [= <-]|].
  destruct (take_digits 0 0 s) as [[ip ni] r].
  destruct (match r with String "." f => take_digits ip 0 f | _ => (ip, 0, r) end)
    as [[m nf] r'].
  destruct (0 <? ni + nf); [|discriminate].
  destruct (exponent r'); [|discriminate].
  intros [= <-]. apply of_decimal_canonical.
Qed.

(** Every float [float()] returns is canonical. *)
Lemma py_float_canonical s x : py_float s = Some x -> is_canonical x.
Proof.
  unfold py_float.
  destruct (drop_underscores _ _) as [t|]; [|discriminate].
  destruct (split_sign t) as [neg body]. apply unsigned_literal_canonical.
Qed.

Lemma binary_normalize_canonical m e :
  is_canonical (binary_normalize prec emax m e false).
Proof.
  unfold binary_normalize. destruct m; [exact I| |]; apply binary_round_canonical.
Qed.

Lemma one_minus_canonical y : is_canonical (fsub (of_Z 1) y).
Proof.
  rewrite of_Z_1. unfold fsub, SFsub.
  destruct y as [sy|sy| |sy my ey]; try exact I.
  - reflexivity.
  - apply binary_normalize_canonical.
Qed.

Lemma discounted_canonical price discount :
  is_canonical price -> is_canonical (discounted price discount).
Proof.
  intros H. unfold discounted. apply fmul_canonical; [exact H|].
  apply one_minus_canonical.
Qed.

(** *** Rounding to two decimals keeps a price at or above 1 *)

(** A canonical float that is a number and not below 1 is plus infinity or
    a positive float of value at least 1. *)
Lemma not_below_one p :
  is_canonical p -> flt p (of_Z 1) = false -> is_nan p = false ->
  p = S754_infinity false
  \/ exists m e, p = S754_finite false m e /\ ge_one (Zpos m) e.
Proof.
  rewrite of_Z_1. unfold flt, SFltb, SFcompare.
  destruct p as [s|[|]| |[|] m e]; simpl is_canonical; try discriminate; auto.
  unfold canonical. intros Hc Hlt _. right. exists m, e. split; [reflexivity|].
  destruct (Zdigits2_bounds (Zpos m)) as (Hd & Hlo & Hhi); [lia|].
  unfold ge_one. split; [lia|].
  destruct (Z.compare_spec e (-52)) as [->|Hl|Hg]; [|discriminate|].
  - rewrite Pos.compare_cont_spec in Hlt. simpl Pos.switch_Eq in Hlt.
    change (2 ^ (- (-52))) with 4503599627370496.
    destruct (Pos.compare_spec m 4503599627370496) as [->|E|E]; try discriminate;
      lia.
  - assert (Hd53 : Zdigits2 (Zpos m) = 53) by (unfold fexp64 in Hc; lia).
    rewrite Hd53 in Hlo. change (2 ^ (53 - 1)) with 4503599627370496 in Hlo.
    destruct (Z_lt_le_dec (- e) 0) as [Hneg|Hpos].
    + rewrite Z.pow_neg_r by assumption. lia.
    + pose proof (Z.pow_le_mono_r 2 (- e) 52). 
      change (2 ^ 52) with 4503599627370496 in *. lia.
Qed.

Lemma round_half_even_lower n d : n / d <= round_half_even n d.
Proof.
  unfold round_half_even. destruct (_ ?= _); [destruct (Z.even _)| |]; lia.
Qed.

Lemma hundredths_ge_one m e : ge_one (Zpos m) e -> 100 <= hundredths m e.
Proof.
  unfold ge_one, hundredths. intros [_ Hv].
  destruct (Z.leb_spec 0 e) as [He|He].
  - assert (0 < 2 ^ e) by (apply Z.pow_pos_nonneg; lia). nia.
  - assert (0 < 2 ^ (- e)) by (apply Z.pow_pos_nonneg; lia).
    apply Z.le_trans with (Zpos m * 100 / 2 ^ (- e)); [|apply round_half_even_lower].
    apply Z.div_le_lower_bound; lia.
Qed.

(** If the unrounded price is a number and is not below 1, the price
    rounded to two decimals is at least 1. *)
Lemma py_round2_ge_one p :
  is_canonical p -> flt p (of_Z 1) = false -> is_nan p = false ->
  fle (of_Z 1) (py_round2 p) = true.
Proof.
  intros Hc Hlt Hnan.
  destruct (not_below_one p Hc Hlt Hnan) as [->|(m & e & -> & Hge)].
  - rewrite of_Z_1. reflexivity.
  - unfold py_round2. pose proof (hundredths_ge_one m e Hge) as Hh.
    destruct (hundredths m e) as [|n|n]; try lia.
    pose proof (of_ratio_canonical false n 100) as Hcan.
    pose proof (of_ratio_ge_one n 100) as Hone.
    destruct (of_ratio false n 100) as [s|s| |s m2 e2].
    + destruct Hone. lia.
    + rewrite Hone by lia. rewrite of_Z_1. reflexivity.
    + destruct Hone. lia.
    + destruct Hone as [-> Hge2]; [lia|]. now apply fle_one_canonical.
Qed.

(** ** C1: what holds of every returned record *)

Lemma rstrip_with_idempotent sp s :
  PyStr.rstrip_with sp (PyStr.rstrip_with sp s) = PyStr.rstrip_with sp s.
Proof.
  induction s as [|c r IH]; [reflexivity|]. simpl.
  destruct (PyStr.rstrip_with sp r) as [|a b] eqn:E.
  - destruct (sp c) eqn:Ec; simpl; [reflexivity|now rewrite Ec].
  - simpl in IH |- *. now rewrite IH.
Qed.

Lemma rstrip_with_keeps_head sp c r :
  sp c = false -> exists r', PyStr.rstrip_with sp (String c r) = String c r'.
Proof.
  intros Hc. simpl. destruct (PyStr.rstrip_with sp r).
  - rewrite Hc. now exists "".
  - now eexists.
Qed.

(** A stripped string has nothing left to strip. *)
Lemma strip_idempotent s : PyStr.strip (PyStr.strip s) = PyStr.strip s.
Proof.
  unfold PyStr.strip, PyStr.strip_with.
  destruct (PyStr.lstrip_with PyStr.isspace s) as [|c r] eqn:E; [reflexivity|].
  apply lstrip_with_head in E.
  destruct (rstrip_with_keeps_head PyStr.isspace c r E) as [r' Hr].
  rewrite Hr. simpl PyStr.lstrip_with. rewrite E, <- Hr.
  apply rstrip_with_idempotent.
Qed.

Lemma allowed_In c : allowed c = true -> In c ALLOWED_CATEGORIES.
Proof.
  unfold allowed. intros H. apply existsb_exists in H as (x & Hx & E).
  apply String.eqb_eq in E. now subst.
Qed.

Lemma accepted_invariant today line ids r :
  accepted today line ids r ->
  record_invariant r
  /\ exists price discount,
       py_float (Rules.field 3 line) = Some price
       /\ py_float (Rules.field 5 line) = Some discount
       /\ ValidRecord.final_price r = py_round2 (discounted price discount).
Proof.
  intros [k price q discount dt qf _ _ _ _ Hname Hcat Hp _ _ Hq Hd _ _ _ _ _ Hfloor Hqf].
  split; [|now exists price, discount].
  unfold record_invariant. cbn [ValidRecord.quantity ValidRecord.category
    ValidRecord.name ValidRecord.final_price ValidRecord.total_value].
  split; [exact Hq|]. split; [now apply allowed_In|].
  split; [apply strip_idempotent|]. split; [exact Hname|].
  exists (discounted price discount), qf. repeat split; auto.
  destruct (is_nan (discounted price discount)) eqn:Hnan; [now left|right].
  apply py_round2_ge_one; auto.
  apply discounted_canonical. eapply py_float_canonical; eassumption.
Qed.




(** The same holds of every record [process_file] returns. *)
Lemma process_file_records_invariant today lines out valid errs :
  process_file today (Opened lines) = (out, Returned (valid, errs)) ->
  Forall record_invariant valid.
Proof.
  intros H. apply process_file_returned in H as (st & H & -> & _).
  apply process_lines_ordered in H as (ns & vs & es & Hv & _ & _ & _ & Rns & _).
  simpl in Hv. subst vs. clear - Rns.
  induction Rns as [|k r ns vs (_ & line & ids & _ & Hr) _ IH]; constructor; [|exact IH].
  apply parse_and_validate_valid in Hr. now apply accepted_invariant in Hr.
Qed.

(** The case the invariant leaves out: a NaN price passes the checks of
    lines 52 and 88 and is stored as the final price. *)
Example nan_price_is_stored :
  exists r,
    fst (parse_and_validate day0 "7;Widget;books;nan;1;0;2020-01-01" 1 ∅) = Valid r
    /\ ValidRecord.final_price r = S754_nan
    /\ fle (of_Z 1) (ValidRecord.final_price r) = false.
Proof.
  eexists. split; [vm_compute; reflexivity|]. split; reflexivity.
Qed.

(** ** C6: the statistics *)

(** *** Binary64: the error of an addition *)












(** *** The error of a sum *)
















(** *** The values of the entries against the total *)






(** Exact equality of the two sums fails on finite values too: on the five
    valid records of [rounding_sample] the books entry is 1e16 (adding 1 to
    1e16 rounds back to 1e16) and the food entry is 2, which sum to
    1e16 + 2, while [total_value] is 1e16 when [sum] adds left to right and
    1e16 + 4 when it compensates.  The distance is within a tolerance that
    grows with the amounts, as the bound on the statistics below has it. *)
Lemma category_values_do_not_sum_to_total :
  exists valid,
    process_file day0 (Opened rounding_sample) = ([], Returned (valid, []))
    /\ forall alg alg',
         SFeqb (py_sum alg' (category_values (calculate_statistics alg valid)))
               (Stats.total_value (calculate_statistics alg valid))
         = false.
Proof.
  eexists. split; [vm_compute; reflexivity|].
  intros [|] [|]; vm_compute; reflexivity.
Qed.




(** ** C9: runs share no state *)

Lemma records_at_insert_ne h a b o :
  a <> b -> records_at (<[b := o]> h) a = records_at h a.
Proof. intros H. unfold records_at. now rewrite list_lookup_insert_ne by congruence. Qed.

Lemma errors_at_insert_ne h a b o :
  a <> b -> errors_at (<[b := o]> h) a = errors_at h a.
Proof. intros H. unfold errors_at. now rewrite list_lookup_insert_ne by congruence. Qed.

Lemma ids_at_insert_ne h a b o :
  a <> b -> ids_at (<[b := o]> h) a = ids_at h a.
Proof. intros H. unfold ids_at. now rewrite list_lookup_insert_ne by congruence. Qed.

Lemma records_at_insert h a l :
  (a < length h)%nat -> records_at (<[a := ListOfRecords l]> h) a = l.
Proof. intros H. unfold records_at. now rewrite list_lookup_insert_eq. Qed.

Lemma errors_at_insert h a l :
  (a < length h)%nat -> errors_at (<[a := ListOfErrors l]> h) a = l.
Proof. intros H. unfold errors_at. now rewrite list_lookup_insert_eq. Qed.

Lemma ids_at_insert h a s :
  (a < length h)%nat -> ids_at (<[a := SetOfIds s]> h) a = s.
Proof. intros H. unfold ids_at. now rewrite list_lookup_insert_eq. Qed.

(** Names that are well named refer to three different addresses of the
    store. *)
Lemma well_named_distinct f h :
  well_named f h ->
  (valid_records_ref f < length h)%nat
  /\ (errors_ref f < length h)%nat
  /\ (used_ids_ref f < length h)%nat
  /\ valid_records_ref f <> errors_ref f
  /\ valid_records_ref f <> used_ids_ref f
  /\ errors_ref f <> used_ids_ref f.
Proof.
  intros ((l1 & H1) & (l2 & H2) & (s & H3)).
  repeat split; try (eapply lookup_lt_Some; eassumption); congruence.
Qed.

(** Changing the object of a name for one of the same kind keeps the names
    well named. *)
Lemma well_named_insert f h a o :
  well_named f h ->
  match o with
  | ListOfRecords _ => a = valid_records_ref f
  | ListOfErrors _ => a = errors_ref f
  | SetOfIds _ => a = used_ids_ref f
  end ->
  well_named f (<[a := o]> h).
Proof.
  intros Hw Ha. destruct (well_named_distinct f h Hw) as (L1 & L2 & L3 & D1 & D2 & D3).
  destruct Hw as ((l1 & H1) & (l2 & H2) & (s & H3)).
  destruct o; subst a; repeat split;
    try (eexists; rewrite list_lookup_insert_eq by assumption; reflexivity);
    try (eexists; rewrite list_lookup_insert_ne by congruence; eassumption).
Qed.

(** One iteration on the store is one iteration on the state the names
    show; it changes no other object. *)
Lemma process_line_in_spec today f h n line :
  well_named f h ->
  length (fst (process_line_in today f h n line)) = length h
  /\ well_named f (fst (process_line_in today f h n line))
  /\ (forall a, others f a -> fst (process_line_in today f h n line) !! a = h !! a)
  /\ match process_line (parse_and_validate today) (state_in f h) n line with
     | Returned st =>
         snd (process_line_in today f h n line) = Returned tt
         /\ state_in f (fst (process_line_in today f h n line)) = st
     | Raised e => snd (process_line_in today f h n line) = Raised e
     end.
Proof.
  intros Hw.
  destruct (well_named_distinct f h Hw) as (L1 & L2 & L3 & D1 & D2 & D3).
  unfold process_line_in, process_line. cbn [state_in used_ids valid_records errors].
  destruct (String.eqb (PyStr.strip line) ""); cbn [fst snd].
  - split; [apply length_insert|]. split; [now apply well_named_insert|].
    split; [intros a (_ & Ha & _); now rewrite list_lookup_insert_ne by congruence|].
    split; [reflexivity|]. unfold state_in.
    rewrite records_at_insert_ne, errors_at_insert, ids_at_insert_ne
      by (assumption || congruence).
    reflexivity.
  - destruct (parse_and_validate today line n (ids_at h (used_ids_ref f)))
      as [[r|why|x] ids]; cbn [fst snd].
    + rewrite !length_insert. split; [reflexivity|].
      split; [apply well_named_insert; [now apply well_named_insert|reflexivity]|].
      split; [intros a (Ha1 & _ & Ha3); now rewrite !list_lookup_insert_ne by congruence|].
      split; [reflexivity|]. unfold state_in.
      rewrite records_at_insert by (now rewrite length_insert).
      rewrite !errors_at_insert_ne, ids_at_insert_ne, ids_at_insert,
        records_at_insert_ne by (assumption || congruence).
      reflexivity.
    + rewrite !length_insert. split; [reflexivity|].
      split; [apply well_named_insert; [now apply well_named_insert|reflexivity]|].
      split; [intros a (_ & Ha2 & Ha3); now rewrite !list_lookup_insert_ne by congruence|].
      split; [reflexivity|]. unfold state_in.
      rewrite errors_at_insert by (now rewrite length_insert).
      rewrite !records_at_insert_ne, ids_at_insert_ne, ids_at_insert,
        errors_at_insert_ne by (assumption || congruence).
      reflexivity.
    + rewrite length_insert. split; [reflexivity|].
      split; [now apply well_named_insert|].
      split; [intros a (_ & _ & Ha3); now rewrite list_lookup_insert_ne by congruence|].
      reflexivity.
Qed.

(** The loop on the store is the loop on the state the names show. *)
Lemma process_lines_in_spec today f lines h n :
  well_named f h ->
  length (fst (process_lines_in today f h lines n)) = length h
  /\ (forall a, others f a -> fst (process_lines_in today f h lines n) !! a = h !! a)
  /\ match process_lines (parse_and_validate today) lines n (state_in f h) with
     | Returned st =>
         snd (process_lines_in today f h lines n) = Returned tt
         /\ state_in f (fst (process_lines_in today f h lines n)) = st
     | Raised e => snd (process_lines_in today f h lines n) = Raised e
     end.
Proof.
  revert h n. induction lines as [|l lines IH]; intros h n Hw;
    cbn [process_lines_in process_lines].
  - now repeat split.
  - destruct (process_line_in_spec today f h n l Hw) as (Hlen & Hw1 & Hoth & Hstep).
    destruct (process_line_in today f h n l) as [h1 [[]|x]]; cbn [fst snd] in *.
    + destruct (process_line _ (state_in f h) n l) as [st1|x]; [|discriminate Hstep].
      destruct Hstep as [_ <-].
      destruct (IH h1 (S n) Hw1) as (Hlen' & Hoth' & Hrest).
      split; [congruence|]. split; [|exact Hrest].
      intros a Ha. rewrite Hoth' by exact Ha. now apply Hoth.
    + destruct (process_line _ (state_in f h) n l) as [st1|x0]; [destruct Hstep; discriminate|].
      injection Hstep as <-. split; [exact Hlen|]. split; [exact Hoth|reflexivity].
Qed.

(** The store after lines 105-107 and the names of the three new objects. *)
Lemma fresh_objects h :
  let f := {| valid_records_ref := length h;
              errors_ref := length (h ++ [ListOfRecords []]);
              used_ids_ref := length ((h ++ [ListOfRecords []]) ++ [ListOfErrors []]) |} in
  let h3 := ((h ++ [ListOfRecords []]) ++ [ListOfErrors []]) ++ [SetOfIds ∅] in
  well_named f h3
  /\ state_in f h3 = fresh
  /\ length h3 = (length h + 3)%nat
  /\ (forall a, (a < length h)%nat -> others f a /\ h3 !! a = h !! a).
Proof.
  cbv zeta. rewrite !length_app. cbn [length].
  assert (L1 : ((h ++ [ListOfRecords []]) ++ [ListOfErrors []]) ++ [SetOfIds ∅]
               = h ++ [ListOfRecords []; ListOfErrors []; SetOfIds ∅])
    by now rewrite <- !app_assoc.
  rewrite L1.
  assert (R0 : (h ++ [ListOfRecords []; ListOfErrors []; SetOfIds ∅]) !! length h
               = Some (ListOfRecords []))
    by (rewrite lookup_app_r, Nat.sub_diag by lia; reflexivity).
  assert (R1 : (h ++ [ListOfRecords []; ListOfErrors []; SetOfIds ∅])
                 !! (length h + 1)%nat = Some (ListOfErrors [])).
  { rewrite lookup_app_r by lia.
    replace (length h + 1 - length h)%nat with 1%nat by lia. reflexivity. }
  assert (R2 : (h ++ [ListOfRecords []; ListOfErrors []; SetOfIds ∅])
                 !! (length h + 1 + 1)%nat = Some (SetOfIds ∅)).
  { rewrite lookup_app_r by lia.
    replace (length h + 1 + 1 - length h)%nat with 2%nat by lia. reflexivity. }
  split; [|split; [|split]].
  - unfold well_named. cbn [valid_records_ref errors_ref used_ids_ref].
    repeat split; eexists; eassumption.
  - unfold state_in, records_at, errors_at, ids_at.
    cbn [valid_records_ref errors_ref used_ids_ref]. now rewrite R0, R1, R2.
  - lia.
  - intros a Ha. split.
    + unfold others. cbn [valid_records_ref errors_ref used_ids_ref]. lia.
    + now apply lookup_app_l.
Qed.

(** A call on the store returns what [process_file] returns, in new
    objects, and leaves every object of the store as it found it. *)
Lemma process_file_in_spec today src h :
  extends h (fst (fst (process_file_in today src h)))
  /\ process_file today src
     = (snd (fst (process_file_in today src h)),
        returned_in (fst (fst (process_file_in today src h)))
          (snd (process_file_in today src h)))
  /\ match snd (process_file_in today src h) with
     | Returned (v, e) =>
         (length h <= v < length (fst (fst (process_file_in today src h))))%nat
         /\ (length h <= e < length (fst (fst (process_file_in today src h))))%nat
     | Raised _ => True
     end.
Proof.
  destruct (fresh_objects h) as (Hw & Hst & Hlen & Hold). cbv zeta in *.
  unfold process_file_in, alloc, process_file, process_file_with.
  set (f := {| valid_records_ref := length h;
               errors_ref := length (h ++ [ListOfRecords []]);
               used_ids_ref := length ((h ++ [ListOfRecords []]) ++ [ListOfErrors []]) |}) in *.
  set (h3 := ((h ++ [ListOfRecords []]) ++ [ListOfErrors []]) ++ [SetOfIds ∅]) in *.
  assert (Hrefs : (length h <= valid_records_ref f < length h3)%nat
                  /\ (length h <= errors_ref f < length h3)%nat).
  { unfold f. cbn [valid_records_ref errors_ref]. rewrite Hlen, !length_app.
    cbn [length]. lia. }
  assert (Hloop : forall lines,
             length (fst (process_lines_in today f h3 lines 1)) = length h3
             /\ extends h (fst (process_lines_in today f h3 lines 1))
             /\ match process_lines (parse_and_validate today) lines 1 fresh with
                | Returned st =>
                    snd (process_lines_in today f h3 lines 1) = Returned tt
                    /\ state_in f (fst (process_lines_in today f h3 lines 1)) = st
                | Raised e => snd (process_lines_in today f h3 lines 1) = Raised e
                end).
  { intros lines.
    destruct (process_lines_in_spec today f lines h3 1 Hw) as (Hl & Hoth & Hres).
    rewrite Hst in Hres. split; [exact Hl|]. split; [|exact Hres].
    intros a Ha. destruct (Hold a Ha) as [Ho Heq]. now rewrite Hoth. }
  assert (Hext3 : extends h h3) by (intros a Ha; now apply Hold).
  assert (Hmore : forall h' : store,
             extends h h' -> (length h <= length h')%nat ->
             extends h ((h' ++ [ListOfRecords []]) ++ [ListOfErrors []])
             /\ records_at ((h' ++ [ListOfRecords []]) ++ [ListOfErrors []]) (length h') = []
             /\ errors_at ((h' ++ [ListOfRecords []]) ++ [ListOfErrors []])
                  (length (h' ++ [ListOfRecords []])) = []
             /\ (length h <= length h'
                 < length ((h' ++ [ListOfRecords []]) ++ [ListOfErrors []]))%nat
             /\ (length h <= length (h' ++ [ListOfRecords []])
                 < length ((h' ++ [ListOfRecords []]) ++ [ListOfErrors []]))%nat).
  { intros h' He Hl. rewrite !length_app. cbn [length]. split; [|split; [|split]].
    - intros a Ha. rewrite !lookup_app_l by (rewrite ?length_app; lia). now apply He.
    - unfold records_at. rewrite <- app_assoc, lookup_app_r, Nat.sub_diag by lia.
      reflexivity.
    - unfold errors_at. rewrite lookup_app_r by (rewrite length_app; cbn [length]; lia).
      rewrite length_app. cbn [length]. now rewrite Nat.sub_diag.
    - lia. }
  destruct src as [lines|x|lines x].
  - destruct (Hloop lines) as (Hl & He & Hres).
    destruct (process_lines_in today f h3 lines 1) as [h' c]. cbn [fst snd] in *.
    destruct (process_lines _ lines 1 fresh) as [st|x].
    + destruct Hres as [-> <-]. cbn [fst snd returned_in state_in valid_records errors].
      split; [exact He|]. split; [reflexivity|]. now rewrite Hl.
    + subst c. pose proof (Hmore h' He ltac:(lia)) as (M1 & M2 & M3 & M4 & M5).
      destruct x; cbn [fst snd returned_in]; try now repeat split.
      split; [exact M1|]. split; [now rewrite M2, M3|]. now split.
  - pose proof (Hmore h3 Hext3 ltac:(lia)) as (M1 & M2 & M3 & M4 & M5).
    destruct x; cbn [fst snd returned_in]; try now repeat split.
    split; [exact M1|]. split; [now rewrite M2, M3|]. now split.
  - destruct (Hloop lines) as (Hl & He & Hres).
    destruct (process_lines_in today f h3 lines 1) as [h' c]. cbn [fst snd] in *.
    pose proof (Hmore h' He ltac:(lia)) as (M1 & M2 & M3 & M4 & M5).
    destruct (process_lines _ lines 1 fresh) as [st|x0].
    + destruct Hres as [-> _].
      destruct x; cbn [fst snd returned_in]; try now repeat split.
      split; [exact M1|]. split; [now rewrite M2, M3|]. now split.
    + subst c.
      destruct x0; cbn [fst snd returned_in]; try now repeat split.
      split; [exact M1|]. split; [now rewrite M2, M3|]. now split.
Qed.

(** C9.  Two calls of [process_file] on the same input and date, the
    second on the store the first has left, whatever objects earlier calls
    have left in the store before.  Each call creates its lists and its set
    anew (lines 105-107), so both calls print the same and end the same
    way: with lists of the same records and the same errors, hence with the
    same statistics, or with the same exception.  What they return is what
    the loop gives from the empty lists and the empty set, the result of
    [process_file] and of [pipeline] in the state-passing model.  The lists
    of the second call are other objects than those of the first, and the
    second call changes no object that was in the store before it, the lists
    the first call returned among them. *)
Theorem runs_share_no_state
    (today : PyDate.date) (alg : sum_algorithm) (src : source) (h0 : store) :
  let run1 := process_file_in today src h0 in
  let h1 := fst (fst run1) in
  let run2 := process_file_in today src h1 in
  let h2 := fst (fst run2) in
  let statistics c :=
    match c with
    | Returned (valid, errors) =>
        Returned (valid, errors, calculate_statistics alg valid)
    | Raised e => Raised e
    end in
  snd (fst run2) = snd (fst run1)
  /\ returned_in h2 (snd run2) = returned_in h1 (snd run1)
  /\ statistics (returned_in h2 (snd run2)) = statistics (returned_in h1 (snd run1))
  /\ process_file today src = (snd (fst run1), returned_in h1 (snd run1))
  /\ pipeline today alg src
     = (snd (fst run1), statistics (returned_in h1 (snd run1)))
  /\ returned_in h2 (snd run1) = returned_in h1 (snd run1)
  /\ extends h0 h1
  /\ extends h1 h2
  /\ match snd run1, snd run2 with
     | Returned (v1, e1), Returned (v2, e2) =>
         v1 <> v2 /\ v1 <> e2 /\ e1 <> v2 /\ e1 <> e2
     | Raised _, Raised _ => True
     | _, _ => False
     end.
Proof.
  cbv zeta.
  destruct (process_file_in_spec today src h0) as (E1 & P1 & A1).
  destruct (process_file_in today src h0) as [[h1 out1] c1]. cbn [fst snd] in *.
  destruct (process_file_in_spec today src h1) as (E2 & P2 & A2).
  destruct (process_file_in today src h1) as [[h2 out2] c2]. cbn [fst snd] in *.
  rewrite P1 in P2. injection P2 as Hout Hret.
  split; [now symmetry|]. split; [now symmetry|]. split; [now rewrite Hret|].
  split; [exact P1|]. split; [unfold pipeline; rewrite P1;
    now destruct (returned_in h1 c1) as [[v e]|x]|].
  split.
  { destruct c1 as [[v1 e1]|x1]; [|reflexivity]. cbn [returned_in].
    unfold records_at, errors_at. now rewrite !E2 by lia. }
  split; [exact E1|]. split; [exact E2|].
  destruct c1 as [[v1 e1]|x1], c2 as [[v2 e2]|x2]; try discriminate Hret;
    [lia|exact I].
Qed.

(** * Further properties of the pipeline *)

(** ** The validator and [used_ids] *)

Lemma validate_fields_not_early today k a b c d e f :
  id_accepted (validate_fields today k a b c d e f) = true.
Proof.
  unfold validate_fields. repeat split_match; reflexivity.
Qed.


(** ** Whitespace around a line *)

Lemma all_chars_app p s w :
  all_chars p (String.append s w) = all_chars p s && all_chars p w.
Proof.
  induction s as [|c r IH]; simpl; [reflexivity|]. now rewrite IH, andb_assoc.
Qed.

Lemma lstrip_with_app_l sp w s :
  all_chars sp w = true ->
  PyStr.lstrip_with sp (String.append w s) = PyStr.lstrip_with sp s.
Proof.
  induction w as [|c r IH]; simpl; [reflexivity|].
  intros H. apply andb_true_iff in H as [Hc Hr]. rewrite Hc. now apply IH.
Qed.

Lemma lstrip_with_app_r sp s w c r :
  PyStr.lstrip_with sp s = String c r ->
  PyStr.lstrip_with sp (String.append s w) = String.append (String c r) w.
Proof.
  induction s as [|a s' IH]; simpl; [discriminate|].
  destruct (sp a); [exact IH|]. now intros [= <- <-].
Qed.

Lemma rstrip_with_app_r sp s w :
  all_chars sp w = true ->
  PyStr.rstrip_with sp (String.append s w) = PyStr.rstrip_with sp s.
Proof.
  intros Hw. induction s as [|c r IH]; simpl.
  - now apply rstrip_with_empty.
  - now rewrite IH.
Qed.

(** [strip] removes whitespace added on either side. *)
Lemma strip_padding w1 s w2 :
  all_chars PyStr.isspace w1 = true -> all_chars PyStr.isspace w2 = true ->
  PyStr.strip (String.append w1 (String.append s w2)) = PyStr.strip s.
Proof.
  intros H1 H2. unfold PyStr.strip, PyStr.strip_with.
  rewrite lstrip_with_app_l by exact H1.
  destruct (PyStr.lstrip_with PyStr.isspace s) as [|c r] eqn:E.
  - apply lstrip_with_empty in E.
    assert (Hall : all_chars PyStr.isspace (String.append s w2) = true)
      by (now rewrite all_chars_app, E, H2).
    apply lstrip_with_empty in Hall. now rewrite Hall.
  - rewrite (lstrip_with_app_r _ _ w2 _ _ E). now apply rstrip_with_app_r.
Qed.

(** X2.  Whitespace before and after a line, such as the line feed the
    file iterator leaves at its end, changes nothing for the validator:
    the outcome and the resulting [used_ids] are those of the bare line. *)
Theorem validator_ignores_surrounding_whitespace
    (today : PyDate.date) (w1 line w2 : string) (n : nat) (ids : gset Z)
    (Hleading : all_chars PyStr.isspace w1 = true)
    (Htrailing : all_chars PyStr.isspace w2 = true) :
  parse_and_validate today (String.append w1 (String.append line w2)) n ids
  = parse_and_validate today line n ids.
Proof.
  unfold parse_and_validate. now rewrite strip_padding.
Qed.

Lemma validator_ignores_surrounding_whitespace_witness :
  parse_and_validate day0
    (String.append "  " (String.append "3;AB;books;20;1;0;2020-01-01"
                                      (eol " "))) 1 ∅
  = parse_and_validate day0 "3;AB;books;20;1;0;2020-01-01" 1 ∅.
Proof.
  apply validator_ignores_surrounding_whitespace; reflexivity.
Defined.

(** ** The field count *)

Lemma split_length sep s :
  length (PyStr.split sep s) = S (count_char sep s).
Proof.
  induction s as [|c r IH]; simpl; [reflexivity|].
  destruct (Ascii.eqb c sep); simpl; [now rewrite IH|].
  destruct (PyStr.split sep r); simpl in *; [discriminate|exact IH].
Qed.

(** X3.  The validator reports a wrong field count exactly when the
    stripped line does not contain six semicolons; empty fields count, so
    [;;;;;;] has seven fields and fails on its id instead. *)
Theorem wrong_field_count_iff_not_six_delimiters
    (today : PyDate.date) (line : string) (n : nat) (ids : gset Z) :
  fst (parse_and_validate today line n ids) = Invalid WrongFieldCount
  <-> count_char DELIMITER (PyStr.strip line) <> 6%nat.
Proof.
  pose proof (split_length DELIMITER (PyStr.strip line)) as Hlen.
  unfold parse_and_validate.
  destruct (PyStr.split DELIMITER (PyStr.strip line))
    as [|f0 [|f1 [|f2 [|f3 [|f4 [|f5 [|f6 [|f7 more]]]]]]]];
    simpl in Hlen; cbn [fst]; try (split; [intros _; lia|reflexivity]).
  split; [|intros H; lia]. intros H. exfalso.
  destruct (py_int f0) as [k|]; [|discriminate H].
  destruct (k <=? 0); [discriminate H|].
  destruct (bool_decide (k ∈ ids)); [discriminate H|].
  cbn [fst] in H.
  pose proof (validate_fields_not_early today k f1 f2 f3 f4 f5 f6) as He.
  rewrite H in He. discriminate He.
Qed.

(** ** The order of the checks and the current date *)

(** X4.  On a line whose price and discount fields do not read as NaN, the
    checks are reported in the order of the ten rules: a [ValidationError]
    carries a message of the first rule that fails, and when no rule fails
    the validator returns a record or lets the [OverflowError] of the
    quantity through. *)
Theorem checks_run_in_rule_order
    (today : PyDate.date) (line : string) (n : nat) (ids : gset Z)
    (Hnan : Rules.no_nan line) :
  match fst (parse_and_validate today line n ids) with
  | Invalid why => Rules.first_failing today line ids = Some (Rules.rule_of why)
  | Valid _ | Crash _ => Rules.first_failing today line ids = None
  end.
Proof.
  pose proof (fail_fast_order today line n ids Hnan) as F.
  destruct (Rules.first_failing today line ids) as [rule|].
  - destruct F as (why & -> & <-). reflexivity.
  - destruct F as [[r ->]| ->]; reflexivity.
Qed.

Lemma checks_run_in_rule_order_witness :
  let line := "0;AB;toys;-1;x;70;tomorrow" in
  Rules.no_nan line
  /\ fst (parse_and_validate day0 line 1 ∅) = Invalid IdNotPositive
  /\ Rules.first_failing day0 line ∅ = Some 2%nat.
Proof.
  assert (Hnan : Rules.no_nan "0;AB;toys;-1;x;70;tomorrow")
    by (split; vm_compute; discriminate).
  split; [exact Hnan|]. split; [vm_compute; reflexivity|].
  exact (checks_run_in_rule_order day0 _ 1 ∅ Hnan).
Defined.

Lemma after_spec a b :
  PyDate.after a b = true
  <-> PyDate.year b < PyDate.year a
      \/ PyDate.year a = PyDate.year b
         /\ (PyDate.month b < PyDate.month a
             \/ PyDate.month a = PyDate.month b /\ PyDate.day b < PyDate.day a).
Proof.
  unfold PyDate.after.
  now rewrite !orb_true_iff, !andb_true_iff, !orb_true_iff, !andb_true_iff,
    !Z.ltb_lt, !Z.eqb_eq.
Qed.

Lemma after_trans_false a b c :
  PyDate.after a b = false -> PyDate.after b c = false -> PyDate.after a c = false.
Proof.
  rewrite <- !not_true_iff_false, !after_spec. lia.
Qed.

Lemma validate_fields_later_day today today' k a b c d e f :
  not_after today today' = true ->
  validate_fields today k a b c d e f <> Invalid DateInFuture ->
  validate_fields today' k a b c d e f = validate_fields today k a b c d e f.
Proof.
  unfold not_after, validate_fields. intros Hle H.
  apply negb_true_iff in Hle.
  repeat match goal with
  | |- context [if ?b then _ else _] =>
      lazymatch b with
      | PyDate.after _ today' => fail
      | _ => destruct b eqn:?
      end
  | |- context [match ?b with Some _ => _ | None => _ end] => destruct b eqn:?
  end; try reflexivity; try congruence;
  match goal with
  | E : PyDate.after _ _ = false |- context [PyDate.after ?x ?t] =>
      rewrite (after_trans_false _ _ _ E Hle)
  end; reflexivity.
Qed.

(** X5.  The current date matters to the date check only: a line whose
    outcome on some day is not the error of a date in the future has the
    same outcome, and leaves the same [used_ids], on every later day. *)
Theorem verdict_is_stable_on_later_days
    (today today' : PyDate.date) (line : string) (n : nat) (ids : gset Z)
    (Hlater : not_after today today' = true)
    (Hpast : fst (parse_and_validate today line n ids) <> Invalid DateInFuture) :
  parse_and_validate today' line n ids = parse_and_validate today line n ids.
Proof.
  revert Hpast. unfold parse_and_validate.
  destruct (PyStr.split DELIMITER (PyStr.strip line))
    as [|f0 [|f1 [|f2 [|f3 [|f4 [|f5 [|f6 [|f7 more]]]]]]]]; try reflexivity.
  destruct (py_int f0) as [k|]; [|reflexivity].
  destruct (k <=? 0); [reflexivity|].
  destruct (bool_decide (k ∈ ids)); [reflexivity|].
  cbn [fst]. intros H. f_equal. now apply validate_fields_later_day.
Qed.

Lemma verdict_is_stable_on_later_days_witness :
  let later := {| PyDate.year := 2031; PyDate.month := 1; PyDate.day := 2 |} in
  let line := "3;Atlas;books;20;1;0;2024-06-15" in
  not_after day0 later = true
  /\ fst (parse_and_validate day0 line 1 ∅) <> Invalid DateInFuture
  /\ parse_and_validate later line 1 ∅ = parse_and_validate day0 line 1 ∅.
Proof.
  assert (H1 : not_after day0
            {| PyDate.year := 2031; PyDate.month := 1; PyDate.day := 2 |} = true)
    by reflexivity.
  assert (H2 : fst (parse_and_validate day0 "3;Atlas;books;20;1;0;2024-06-15" 1 ∅)
               <> Invalid DateInFuture)
    by (vm_compute; discriminate).
  split; [exact H1|]. split; [exact H2|].
  exact (verdict_is_stable_on_later_days _ _ _ 1 ∅ H1 H2).
Defined.

(** ** The ids of the records of a run *)

Lemma validate_fields_id today k a b c d e f r :
  validate_fields today k a b c d e f = Valid r -> ValidRecord.id r = k.
Proof.
  unfold validate_fields. repeat split_match; try discriminate.
  now intros [= <-].
Qed.

(** A line that gives a record had a positive id that was not in
    [used_ids], and the call added it. *)
Lemma valid_consumes_id today line n ids r :
  fst (parse_and_validate today line n ids) = Valid r ->
  0 < ValidRecord.id r
  /\ (ValidRecord.id r ∉ ids)
  /\ snd (parse_and_validate today line n ids) = {[ValidRecord.id r]} ∪ ids.
Proof.
  unfold parse_and_validate.
  destruct (PyStr.split DELIMITER (PyStr.strip line))
    as [|f0 [|f1 [|f2 [|f3 [|f4 [|f5 [|f6 [|f7 more]]]]]]]]; try discriminate.
  destruct (py_int f0) as [k|]; [|discriminate].
  destruct (Z.leb_spec k 0); [discriminate|].
  destruct (bool_decide (k ∈ ids)) eqn:E; [discriminate|].
  apply bool_decide_eq_false in E. cbn [fst snd]. intros Hr.
  apply validate_fields_id in Hr. subst k. auto.
Qed.

Lemma process_line_ids_invariant today st n line st' :
  process_line (parse_and_validate today) st n line = Returned st' ->
  ids_invariant st -> ids_invariant st'.
Proof.
  unfold process_line, ids_invariant.
  destruct (String.eqb (PyStr.strip line) ""); [now intros [= <-]|].
  pose proof (valid_consumes_id today line n (used_ids st)) as Hv.
  pose proof (parse_and_validate_used_ids today line n (used_ids st)) as Hi.
  destruct (parse_and_validate today line n (used_ids st)) as [[r|why|x] ids];
    [| |discriminate]; intros [= <-] [Hnd Hall]; cbn [valid_records used_ids fst snd] in *.
  - destruct (Hv r eq_refl) as (Hpos & Hfresh & ->).
    assert (Hnot : ~ In (ValidRecord.id r) (map ValidRecord.id (valid_records st))).
    { intros Hin. apply in_map_iff in Hin as (r0 & E & Hin).
      rewrite List.Forall_forall in Hall. apply Hall in Hin. rewrite E in Hin.
      tauto. }
    split.
    + rewrite map_app. cbn [map].
      apply (Permutation_NoDup (l := ValidRecord.id r :: map ValidRecord.id (valid_records st))).
      * apply Permutation_cons_append.
      * now constructor.
    + apply List.Forall_app. split.
      * eapply List.Forall_impl; [|exact Hall]. cbv beta. intros r0 [? ?].
        split; [assumption|]. apply elem_of_union. now right.
      * constructor; [|constructor]. split; [assumption|].
        apply elem_of_union. left. now apply elem_of_singleton.
  - split; [exact Hnd|].
    eapply List.Forall_impl; [|exact Hall]. cbv beta. intros r0 [? ?].
    split; [assumption|].
    destruct Hi as [->|(k & _ & ->)]; [assumption|].
    apply elem_of_union. now right.
Qed.

Lemma process_lines_ids_invariant today lines n st st' :
  process_lines (parse_and_validate today) lines n st = Returned st' ->
  ids_invariant st -> ids_invariant st'.
Proof.
  revert n st. induction lines as [|l lines IH]; intros n st H Hinv; simpl in H.
  - now injection H as <-.
  - destruct (process_line _ st n l) as [st0|x] eqn:E; [|discriminate].
    eapply IH; [exact H|]. eapply process_line_ids_invariant; eassumption.
Qed.

(** X6.  In a run of [process_file] that returns, the valid records have
    pairwise distinct ids, all positive. *)
Theorem records_have_distinct_positive_ids
    (today : PyDate.date) (lines : list string) (out : list printed)
    (valid : list record) (errs : list (nat * reason))
    (Hrun : process_file today (Opened lines) = (out, Returned (valid, errs))) :
  List.NoDup (map ValidRecord.id valid)
  /\ Forall (fun r => 0 < ValidRecord.id r) valid.
Proof.
  apply process_file_returned in Hrun as (st & Hst & -> & _ & _).
  apply process_lines_ids_invariant in Hst as [Hnd Hall].
  - split; [exact Hnd|]. eapply List.Forall_impl; [|exact Hall]. cbv beta. tauto.
  - split; constructor.
Qed.

Lemma records_have_distinct_positive_ids_witness :
  exists valid errs,
    process_file day0 (Opened order_sample) = ([], Returned (valid, errs))
    /\ map ValidRecord.id valid = [4; 9; 2]
    /\ List.NoDup (map ValidRecord.id valid)
    /\ Forall (fun r => 0 < ValidRecord.id r) valid.
Proof.
  destruct (process_file day0 (Opened order_sample)) as [out [[valid errs]|x]] eqn:E;
    [|vm_compute in E; discriminate E].
  exists valid, errs.
  pose proof (records_have_distinct_positive_ids _ _ _ _ _ E) as [H1 H2].
  vm_compute in E. injection E as <- <- <-.
  split; [reflexivity|]. split; [reflexivity|]. split; [exact H1|exact H2].
Defined.

(** ** Every line is accounted for once *)

Lemma ids_after_app today pre post n ids :
  ids_after today (pre ++ post) n ids
  = ids_after today post (n + length pre) (ids_after today pre n ids).
Proof.
  revert n ids. induction pre as [|l pre IH]; intros n ids; cbn [ids_after app length].
  - now rewrite Nat.add_0_r.
  - rewrite IH. f_equal. lia.
Qed.

(** The loop leaves in [used_ids] what [ids_after] computes. *)
Lemma process_lines_ids_after today lines n st st' :
  process_lines (parse_and_validate today) lines n st = Returned st' ->
  used_ids st' = ids_after today lines n (used_ids st).
Proof.
  revert n st. induction lines as [|l lines IH]; intros n st H; cbn [process_lines] in H.
  - now injection H as <-.
  - destruct (process_line _ st n l) as [st0|x] eqn:E; [|discriminate].
    rewrite (IH _ _ H). cbn [ids_after]. f_equal.
    unfold process_line in E.
    destruct (String.eqb (PyStr.strip l) ""); [now injection E as <-|].
    destruct (parse_and_validate today l n (used_ids st)) as [[r|why|x] ids];
      [| |discriminate]; now injection E as <-.
Qed.

(** The verdict of a line does not depend on the lines after it. *)
Lemma verdict_app today pre post k :
  (k <= length pre)%nat ->
  verdict today (pre ++ post) k = verdict today pre k.
Proof.
  intros Hk. unfold verdict, ids_before. destruct k as [|i]; [reflexivity|].
  cbn [pred]. rewrite nth_error_app1 by lia.
  rewrite firstn_app.
  replace (i - length pre)%nat with 0%nat by lia.
  cbn [firstn]. now rewrite app_nil_r.
Qed.

(** The verdict of the line after [pre]. *)
Lemma verdict_last today pre l post :
  verdict today (pre ++ l :: post) (S (length pre))
  = if String.eqb (PyStr.strip l) "" then Some (Invalid EmptyLine)
    else Some (fst (parse_and_validate today l (S (length pre))
                      (ids_after today pre 1 ∅))).
Proof.
  unfold verdict, ids_before. cbn [pred].
  rewrite nth_error_app2, Nat.sub_diag by lia. cbn [nth_error].
  rewrite firstn_app, Nat.sub_diag, firstn_all. cbn [firstn].
  now rewrite app_nil_r.
Qed.

Lemma sorted_snoc (l : list nat) x :
  StronglySorted lt l -> (forall y, In y l -> (y < x)%nat) ->
  StronglySorted lt (l ++ [x]).
Proof.
  induction 1 as [|a l Hs IH Ha]; intros Hx; cbn [app].
  - repeat constructor.
  - constructor.
    + apply IH. intros y Hy. apply Hx. now right.
    + apply List.Forall_app. split; [exact Ha|].
      constructor; [|constructor]. apply Hx. now left.
Qed.

Lemma process_lines_verdicts today lines st :
  process_lines (parse_and_validate today) lines 1 fresh = Returned st ->
  exists ns,
    Forall2 (fun k r => verdict today lines k = Some (Valid r)) ns (valid_records st)
    /\ Forall (fun e => verdict today lines (fst e) = Some (Invalid (snd e)))
         (errors st)
    /\ Permutation (ns ++ map fst (errors st)) (seq 1 (length lines))
    /\ StronglySorted lt ns
    /\ StronglySorted lt (map fst (errors st)).
Proof.
  revert st. induction lines as [|l pre IH] using rev_ind; intros st H.
  - injection H as <-. exists []. repeat split; constructor.
  - apply process_lines_app in H as (st1 & H1 & H2).
    destruct (IH _ H1) as (ns & Hv & He & Hp & Sns & Ses).
    assert (Hlt : forall k, In k (ns ++ map fst (errors st1)) -> (k < S (length pre))%nat).
    { intros k Hk. apply (Permutation_in _ Hp) in Hk. apply in_seq in Hk. lia. }
    pose proof (process_lines_ids_after _ _ _ _ _ H1) as Hids.
    cbn [fresh used_ids] in Hids.
    assert (Hin : forall k, In k (ns ++ map fst (errors st1)) -> (k <= length pre)%nat).
    { intros k Hk. apply (Permutation_in _ Hp) in Hk. apply in_seq in Hk. lia. }
    assert (Hv' : Forall2 (fun k r => verdict today (pre ++ [l]) k = Some (Valid r))
                    ns (valid_records st1)).
    { assert (Hns : forall k, In k ns -> (k <= length pre)%nat)
        by (intros k Hk; apply Hin, in_or_app; now left).
      clear - Hv Hns. induction Hv; constructor.
      - rewrite verdict_app; [assumption|]. apply Hns. now left.
      - apply IHHv. intros k Hk. apply Hns. now right. }
    assert (He' : Forall (fun e => verdict today (pre ++ [l]) (fst e)
                                   = Some (Invalid (snd e))) (errors st1)).
    { rewrite List.Forall_forall in *. intros e Hin_e.
      rewrite verdict_app; [now apply He|].
      apply Hin, in_or_app. right. now apply in_map. }
    pose proof (verdict_last today pre l []) as Hlast.
    rewrite length_app. cbn [length]. rewrite Nat.add_1_r.
    assert (Hseq : seq 1 (S (length pre)) = seq 1 (length pre) ++ [S (length pre)]).
    { now rewrite seq_S. }
    rewrite Hseq. cbn [process_lines] in H2.
    replace (1 + length pre)%nat with (S (length pre)) in H2 by lia.
    destruct (process_line _ st1 (S (length pre)) l) as [st2|x] eqn:E; [|discriminate].
    injection H2 as <-. unfold process_line in E.
    destruct (String.eqb (PyStr.strip l) "").
    + injection E as <-. cbn [valid_records errors].
      exists ns. split; [exact Hv'|]. split; [|split; [|split]].
      * apply List.Forall_app. split; [exact He'|]. now repeat constructor.
      * rewrite map_app, app_assoc. cbn [map fst].
        now apply Permutation_app_tail.
      * exact Sns.
      * rewrite map_app. cbn [map fst]. apply sorted_snoc; [exact Ses|].
        intros y Hy. apply Hlt, in_or_app. now right.
    + rewrite <- Hids in Hlast.
      destruct (parse_and_validate today l (S (length pre)) (used_ids st1))
        as [[r|why|x] ids]; [| |discriminate]; injection E as <-;
        cbn [valid_records errors fst] in *.
      * exists (ns ++ [S (length pre)]). split; [|split; [|split; [|split]]].
        -- apply Forall2_app; [exact Hv'|]. now repeat constructor.
        -- exact He'.
        -- rewrite <- app_assoc. etransitivity.
           ++ apply Permutation_app_head. apply Permutation_app_comm.
           ++ rewrite app_assoc. now apply Permutation_app_tail.
        -- apply sorted_snoc; [exact Sns|].
           intros y Hy. apply Hlt, in_or_app. now left.
        -- exact Ses.
      * exists ns. split; [exact Hv'|]. split; [|split; [|split]].
        -- apply List.Forall_app. split; [exact He'|]. now repeat constructor.
        -- rewrite map_app, app_assoc. cbn [map fst].
           now apply Permutation_app_tail.
        -- exact Sns.
        -- rewrite map_app. cbn [map fst]. apply sorted_snoc; [exact Ses|].
           intros y Hy. apply Hlt, in_or_app. now right.
Qed.

Lemma flat_map_seq_ext {A} (f g : nat -> list A) a n :
  (forall k, (a <= k < a + n)%nat -> f k = g k) ->
  flat_map f (seq a n) = flat_map g (seq a n).
Proof.
  revert a. induction n as [|n IH]; intros a H; [reflexivity|].
  cbn [seq flat_map]. rewrite H by lia. f_equal. apply IH. intros k Hk. apply H. lia.
Qed.

Lemma records_of_verdicts_app today pre post n :
  (n <= length pre)%nat ->
  records_of_verdicts today (pre ++ post) n = records_of_verdicts today pre n.
Proof.
  intros Hn. apply flat_map_seq_ext. intros k Hk. rewrite verdict_app by lia.
  reflexivity.
Qed.

Lemma errors_of_verdicts_app today pre post n :
  (n <= length pre)%nat ->
  errors_of_verdicts today (pre ++ post) n = errors_of_verdicts today pre n.
Proof.
  intros Hn. apply flat_map_seq_ext. intros k Hk. rewrite verdict_app by lia.
  reflexivity.
Qed.

(** The two lists of a run that returns are those of the verdicts. *)
Lemma process_lines_equations today lines st :
  process_lines (parse_and_validate today) lines 1 fresh = Returned st ->
  valid_records st = records_of_verdicts today lines (length lines)
  /\ errors st = errors_of_verdicts today lines (length lines).
Proof.
  revert st. induction lines as [|l pre IH] using rev_ind; intros st H.
  - injection H as <-. now split.
  - apply process_lines_app in H as (st1 & H1 & H2).
    destruct (IH _ H1) as (Hv & He).
    pose proof (process_lines_ids_after _ _ _ _ _ H1) as Hids.
    cbn [fresh used_ids] in Hids.
    pose proof (verdict_last today pre l []) as Hlast.
    rewrite length_app. cbn [length]. rewrite Nat.add_1_r.
    unfold records_of_verdicts, errors_of_verdicts.
    rewrite seq_S, !flat_map_app. cbn [flat_map]. rewrite !app_nil_r.
    fold (records_of_verdicts today (pre ++ [l]) (length pre)).
    fold (errors_of_verdicts today (pre ++ [l]) (length pre)).
    rewrite records_of_verdicts_app, errors_of_verdicts_app, <- Hv, <- He by lia.
    replace (1 + length pre)%nat with (S (length pre)) by lia. rewrite Hlast.
    cbn [process_lines] in H2.
    replace (1 + length pre)%nat with (S (length pre)) in H2 by lia.
    destruct (process_line _ st1 (S (length pre)) l) as [st2|x] eqn:E; [|discriminate].
    injection H2 as <-. unfold process_line in E.
    destruct (String.eqb (PyStr.strip l) "").
    + injection E as <-. cbn [valid_records errors]. now rewrite app_nil_r.
    + rewrite <- Hids.
      destruct (parse_and_validate today l (S (length pre)) (used_ids st1))
        as [[r|why|x] ids]; [| |discriminate]; injection E as <-;
        cbn [valid_records errors fst]; now rewrite ?app_nil_r.
Qed.

(** X7.  A run of [process_file] that returns accounts for every line
    exactly once, by the verdict the line has in that run.  The verdict of
    line [k] is the error of a blank line, or what the validator returns on
    the line under the [used_ids] that the lines 1 to [k - 1] of the same
    run leave.  The line numbers of the records, in increasing order,
    together with those of the error entries, in increasing order too, are
    a rearrangement of 1, ..., N for a file of N lines; each record is the
    record of the verdict of its line and each error entry carries the
    reason of the verdict of its line.  The two lists are those read off
    the verdicts of the lines 1 to N in order. *)
Theorem every_line_is_reported_once
    (today : PyDate.date) (lines : list string) (out : list printed)
    (valid : list record) (errs : list (nat * reason))
    (Hrun : process_file today (Opened lines) = (out, Returned (valid, errs))) :
  valid = records_of_verdicts today lines (length lines)
  /\ errs = errors_of_verdicts today lines (length lines)
  /\ exists ns,
       Forall2 (fun k r => verdict today lines k = Some (Valid r)) ns valid
       /\ Forall (fun e => verdict today lines (fst e) = Some (Invalid (snd e)))
            errs
       /\ Permutation (ns ++ map fst errs) (seq 1 (length lines))
       /\ StronglySorted lt ns
       /\ StronglySorted lt (map fst errs).
Proof.
  apply process_file_returned in Hrun as (st & Hst & -> & -> & _).
  destruct (process_lines_equations today lines st Hst) as [Hv He].
  split; [exact Hv|]. split; [exact He|].
  exact (process_lines_verdicts today lines st Hst).
Qed.

Lemma every_line_is_reported_once_witness :
  exists valid errs ns,
    process_file day0 (Opened order_sample) = ([], Returned (valid, errs))
    /\ errs = [(2, EmptyLine); (4, IdNotUnique); (6, IdNotANumber)]%nat
    /\ verdict day0 order_sample 4 = Some (Invalid IdNotUnique)
    /\ Forall2 (fun k r => verdict day0 order_sample k = Some (Valid r)) ns valid
    /\ Permutation (ns ++ map fst errs) (seq 1 (length order_sample)).
Proof.
  destruct (process_file day0 (Opened order_sample)) as [out [[valid errs]|x]] eqn:E;
    [|vm_compute in E; discriminate E].
  destruct (every_line_is_reported_once _ _ _ _ _ E)
    as (_ & _ & ns & H1 & _ & H3 & _).
  exists valid, errs, ns.
  vm_compute in E. injection E as <- <- <-.
  split; [reflexivity|]. split; [reflexivity|]. split; [vm_compute; reflexivity|].
  split; [exact H1|exact H3].
Defined.

(** ** Appending lines to the input *)

(** X8.  Lines appended to a file do not change how the earlier lines
    fare: when the run on [l1 ++ l2] returns, the run on [l1] returns too,
    the records and the errors of the longer run begin with those of the
    shorter one, and what comes after them is reported at line numbers
    beyond [l1]. *)
Theorem earlier_lines_do_not_depend_on_later_ones
    (today : PyDate.date) (l1 l2 : list string) (out : list printed)
    (valid : list record) (errs : list (nat * reason))
    (Hrun : process_file today (Opened (l1 ++ l2)) = (out, Returned (valid, errs))) :
  exists v1 e1 v2 e2,
    process_file today (Opened l1) = ([], Returned (v1, e1))
    /\ valid = v1 ++ v2
    /\ errs = e1 ++ e2
    /\ (length v1 + length e1 = length l1)%nat
    /\ Forall (fun e => (length l1 < fst e)%nat) e2.
Proof.
  apply process_file_returned in Hrun as (st & Hst & -> & -> & _).
  apply process_lines_app in Hst as (st1 & H1 & H2).
  pose proof (process_lines_count _ _ _ _ _ H1) as Hc.
  apply process_lines_ordered in H2
    as (ns & vs & es & Hv & He & _ & _ & _ & _ & Les & _).
  exists (valid_records st1), (errors st1), vs, es.
  unfold process_file, process_file_with. rewrite H1.
  split; [reflexivity|]. split; [exact Hv|]. split; [exact He|].
  split; [exact Hc|].
  eapply List.Forall_impl; [|exact Les]. cbv beta. lia.
Qed.

Lemma earlier_lines_do_not_depend_on_later_ones_witness :
  exists v1 e1 v2 e2,
    process_file day0 (Opened (firstn 3 order_sample)) = ([], Returned (v1, e1))
    /\ map ValidRecord.id (v1 ++ v2) = [4; 9; 2]
    /\ map fst (e1 ++ e2) = [2; 4; 6]%nat
    /\ map fst e1 = [2]%nat.
Proof.
  destruct (process_file day0 (Opened (firstn 3 order_sample ++ skipn 3 order_sample)))
    as [out [[valid errs]|x]] eqn:E; [|vm_compute in E; discriminate E].
  destruct (earlier_lines_do_not_depend_on_later_ones _ _ _ _ _ _ E)
    as (v1 & e1 & v2 & e2 & H1 & Hv & He & _ & _).
  exists v1, e1, v2, e2. rewrite <- Hv, <- He.
  vm_compute in E. injection E as <- <- <-.
  vm_compute in H1. injection H1 as <- <-.
  repeat split; reflexivity.
Defined.

(** ** The only exception of the loop *)

Lemma Zdigits2_succ m : 0 <= m -> Zdigits2 (m + 1) <= Zdigits2 m + 1.
Proof.
  intros Hm. destruct (Z.eq_dec m 0) as [->|Hne]; [vm_compute; discriminate|].
  destruct (Zdigits2_bounds m) as (Hd & _ & Hhi); [lia|].
  assert (E : Zdigits2 (2 ^ Zdigits2 m) = Zdigits2 m + 1).
  { apply Zdigits2_unique.
    - replace (Zdigits2 m + 1 - 1) with (Zdigits2 m) by lia.
      split; [lia|]. apply Z.pow_lt_mono_r; lia.
    - apply Z.pow_pos_nonneg; lia. }
  rewrite <- E. apply Zdigits2_mono. lia.
Qed.

(** Rounding a mantissa of magnitude at most [2 ^ 1023] does not overflow. *)
Lemma binary_round_aux_finite sx mx ex lx :
  0 < mx -> fits mx ex -> Zdigits2 mx + ex <= 1023 ->
  is_finite (binary_round_aux prec emax sx mx ex lx) = true.
Proof.
  intros Hm Hfit Hmag.
  destruct (binary_round_aux_cases sx mx ex lx) as (m1 & Hb & ->); [lia|].
  cbv zeta in Hb.
  pose proof (shift_canonical mx ex (Z.lt_le_incl _ _ Hm) Hfit) as Hs. cbv zeta in Hs.
  set (n1 := Z.max 0 (fexp64 (Zdigits2 mx + ex) - ex)) in *.
  set (e1 := ex + n1) in *.
  assert (Hm1 : 0 <= m1).
  { assert (0 <= mx / 2 ^ n1)
      by (apply Z.div_pos; [lia|apply Z.pow_pos_nonneg; lia]). lia. }
  assert (He : fexp64 (Zdigits2 m1 + e1) - e1 <= 1 /\ e1 <= 970).
  { destruct Hs as [[Hz He]|[Hpos Hc]].
    - assert (Hd : Zdigits2 m1 <= 1).
      { rewrite Hz in Hb. pose proof (Zdigits2_mono m1 1). 
        change (Zdigits2 1) with 1 in *. lia. }
      unfold fexp64. lia.
    - assert (Hn : n1 < Zdigits2 mx).
      { destruct (Z_lt_le_dec n1 (Zdigits2 mx)) as [|Hge]; [assumption|].
        rewrite (shift_out mx n1) in Hpos; lia. }
      assert (Hd : Zdigits2 (mx / 2 ^ n1) = Zdigits2 mx - n1)
        by (apply Zdigits2_shift; lia).
      unfold canonical in Hc. rewrite Hd in Hc.
      assert (Hd1 : Zdigits2 m1 <= Zdigits2 mx - n1 + 1).
      { rewrite <- Hd. etransitivity; [|apply Zdigits2_succ; lia].
        apply Zdigits2_mono. lia. }
      unfold fexp64 in *. lia. }
  destruct (m1 / 2 ^ _) as [|m|m] eqn:E.
  - reflexivity.
  - destruct (Z.leb_spec (e1 + Z.max 0 (fexp64 (Zdigits2 m1 + e1) - e1)) 971);
      [reflexivity|lia].
  - assert (H : 0 <= Z.neg m)
      by (rewrite <- E; apply Z.div_pos; [lia|apply Z.pow_pos_nonneg; lia]).
    lia.
Qed.

(** [float(q)] is defined for every int from 0 to below [2 ^ 1023]. *)
Lemma float_of_int_defined q :
  0 <= q < 2 ^ 1023 -> float_of_int q <> None.
Proof.
  intros [H0 H1].
  assert (Hf : is_finite (of_Z q) = true).
  { unfold of_Z, binary_normalize. destruct q as [|m|m]; [reflexivity| |lia].
    assert (Hd : Zdigits2 (Zpos m) <= 1023).
    { destruct (Zdigits2_bounds (Zpos m)) as (_ & Hlo & _); [lia|].
      assert (Zdigits2 (Zpos m) - 1 < 1023) by (apply pow2_lt_inv; lia). lia. }
    unfold binary_round, shl_align. rewrite fexp_fexp64.
    change (Zpos (digits2_pos m)) with (Zdigits2 (Zpos m)).
    destruct (fexp64 (Zdigits2 (Zpos m) + 0) - 0) as [|d|d] eqn:E;
      apply binary_round_aux_finite; try lia; unfold fits.
    - lia.
    - lia.
    - rewrite iter_xO, Zdigits2_mul_pow2 by lia.
      replace (Zdigits2 (Zpos m) + Zpos d + fexp64 (Zdigits2 (Zpos m) + 0))
        with (Zdigits2 (Zpos m) + 0) by lia.
      lia.
    - rewrite iter_xO, Zdigits2_mul_pow2 by lia.
      pose proof (Pos2Z.opp_pos d). lia. }
  unfold float_of_int. destruct (of_Z q); try discriminate.
Qed.

Lemma validate_fields_overflow today k a b c d e f x :
  validate_fields today k a b c d e f = Crash x ->
  exists q, py_int d = Some q /\ 2 ^ 1023 <= q.
Proof.
  unfold validate_fields.
  repeat match goal with
  | |- context [match ?x with _ => _ end] =>
      lazymatch x with
      | float_of_int _ => fail
      | _ => destruct x eqn:?
      end
  end; try discriminate.
  match goal with
  | Hq : py_int d = Some ?q, Hpos : (?q <? 0) = false |- _ =>
      destruct (float_of_int q) eqn:F; [discriminate|]; intros _; exists q;
      split; [reflexivity|];
      destruct (Z_lt_le_dec q (2 ^ 1023)) as [Hlt|]; [|assumption];
      exfalso; apply (float_of_int_defined q); [|exact F];
      apply Z.ltb_ge in Hpos; split; assumption
  end.
Qed.

(** A line on which the validator raises something else than a
    [ValidationError] has seven fields and a quantity of at least 2^1023. *)
Lemma parse_and_validate_overflow today line n ids x :
  fst (parse_and_validate today line n ids) = Crash x ->
  exists q, py_int (Rules.field 4 line) = Some q /\ 2 ^ 1023 <= q.
Proof.
  unfold parse_and_validate, Rules.field, fields.
  destruct (PyStr.split DELIMITER (PyStr.strip line))
    as [|f0 [|f1 [|f2 [|f3 [|f4 [|f5 [|f6 [|f7 more]]]]]]]]; try discriminate.
  destruct (py_int f0) as [k|]; [|discriminate].
  destruct (k <=? 0); [discriminate|].
  destruct (bool_decide (k ∈ ids)); [discriminate|].
  cbn [fst nth]. apply validate_fields_overflow.
Qed.

Lemma process_lines_raise_quantity today lines n st x :
  process_lines (parse_and_validate today) lines n st = Raised x ->
  exists line q,
    In line lines /\ py_int (Rules.field 4 line) = Some q /\ 2 ^ 1023 <= q.
Proof.
  revert n st. induction lines as [|l lines IH]; intros n st H; cbn [process_lines] in H.
  - discriminate.
  - destruct (process_line _ st n l) as [st0|x0] eqn:E.
    + destruct (IH _ _ H) as (line & q & Hin & Hq).
      exists line, q. split; [now right|exact Hq].
    + unfold process_line in E.
      destruct (String.eqb (PyStr.strip l) ""); [discriminate|].
      destruct (parse_and_validate today l n (used_ids st)) as [[r|why|x0'] ids] eqn:P;
        try discriminate.
      destruct (parse_and_validate_overflow today l n (used_ids st) x0') as (q & Hq);
        [now rewrite P|].
      exists l, q. split; [now left|exact Hq].
Qed.

(** X9.  On a file that opens and is read to its end, [process_file] prints
    nothing and either returns or raises [OverflowError]; it raises only if
    some line has a quantity field that parses as an integer of at least
    [2 ^ 1023].  When a read fails with [e] after the lines [lines] (the
    bytes that follow are not UTF-8, say), the call raises [OverflowError]
    under the same condition on the lines read; otherwise it ends as the
    handler of line 121 has it: for [FileNotFoundError] it prints the
    notice and returns two empty lists, and any other [e] leaves the call,
    with nothing printed. *)
Theorem only_a_huge_quantity_aborts_the_run
    (today : PyDate.date) (lines : list string) :
  ((exists valid errs,
       process_file today (Opened lines) = ([], Returned (valid, errs)))
   \/ (process_file today (Opened lines) = ([], Raised OverflowError)
       /\ exists line q,
            In line lines
            /\ py_int (Rules.field 4 line) = Some q
            /\ 2 ^ 1023 <= q))
  /\ forall e,
       (process_file today (ReadFails lines e) = ([], Raised OverflowError)
        /\ exists line q,
             In line lines
             /\ py_int (Rules.field 4 line) = Some q
             /\ 2 ^ 1023 <= q)
       \/ process_file today (ReadFails lines e)
          = match e with
            | FileNotFoundError => ([InputNotFound], Returned ([], []))
            | _ => ([], Raised e)
            end.
Proof.
  unfold process_file, process_file_with.
  destruct (process_lines _ lines 1 fresh) as [st|x] eqn:E.
  - split; [left; now exists (valid_records st), (errors st)|].
    intros e. right. now destruct e.
  - pose proof (process_lines_raise _ _ _ _ _ E) as ->.
    pose proof (process_lines_raise_quantity _ _ _ _ _ E) as Hq.
    split; [right; now split|]. intros e. left. now split.
Qed.

(** ** The entries of [by_category] *)

(** A run of the pipeline that returns: the statistics are those of the
    valid records, and these satisfy the invariant of the validator. *)
Lemma pipeline_returned today alg src out valid errs stats :
  pipeline today alg src = (out, Returned (valid, errs, stats)) ->
  stats = calculate_statistics alg valid /\ Forall record_invariant valid.
Proof.
  unfold pipeline.
  destruct (process_file today src) as [out0 [[v e]|x]] eqn:E; [|discriminate].
  intros [= <- <- <- <-]. split; [reflexivity|].
  destruct src as [lines|x|lines x].
  - exact (process_file_records_invariant _ _ _ _ _ E).
  - destruct x; try discriminate E. injection E as <- <- <-. constructor.
  - unfold process_file, process_file_with in E.
    destruct (process_lines _ lines 1 fresh) as [st|x0] eqn:P.
    + destruct x; try discriminate E. injection E as <- <- <-. constructor.
    + apply process_lines_raise in P. subst x0. discriminate E.
Qed.

Lemma statistics_categories_allowed alg valid :
  Forall record_invariant valid ->
  Forall (fun c => In c ALLOWED_CATEGORIES)
    (map fst (Stats.by_category (calculate_statistics alg valid))).
Proof.
  intros Hinv. rewrite keys_of_statistics. apply List.Forall_forall.
  intros k Hin. apply (proj1 (first_seen_In _ _)) in Hin.
  apply in_map_iff in Hin as (r & <- & Hr).
  rewrite List.Forall_forall in Hinv. apply Hinv in Hr. apply Hr.
Qed.

(** X10.  In a run of the pipeline that returns, the keys of
    [by_category] are pairwise distinct and are allowed categories, so
    there are at most four entries; each entry counts the valid records of
    its category, and counts at least one. *)
Theorem categories_of_a_run
    (today : PyDate.date) (alg : sum_algorithm) (src : source)
    (out : list printed) (valid : list record) (errs : list (nat * reason))
    (stats : statistics)
    (Hrun : pipeline today alg src = (out, Returned (valid, errs, stats))) :
  List.NoDup (map fst (Stats.by_category stats))
  /\ Forall (fun kv => In (fst kv) ALLOWED_CATEGORIES
                       /\ 1 <= Stats.count (snd kv)
                       /\ Stats.count (snd kv)
                          = Z.of_nat (length (of_category (fst kv) valid)))
       (Stats.by_category stats)
  /\ (length (Stats.by_category stats) <= 4)%nat.
Proof.
  apply pipeline_returned in Hrun as [-> Hinv].
  pose proof (statistics_categories_allowed alg valid Hinv) as Hall.
  rewrite List.Forall_forall in Hall.
  assert (Hnd : List.NoDup (map fst (Stats.by_category (calculate_statistics alg valid))))
    by (rewrite keys_of_statistics; apply first_seen_NoDup).
  split; [exact Hnd|]. split.
  - apply List.Forall_forall. intros [k e0] Hin. cbn [fst snd].
    split; [apply Hall, in_map_iff; now exists (k, e0)|].
    pose proof (lookup_category_In k e0 _ Hnd Hin) as Hl.
    rewrite lookup_statistics in Hl.
    destruct (of_category k valid) as [|r rs]; [discriminate|].
    injection Hl as <-. cbn [Stats.count length]. lia.
  - rewrite <- (length_map fst).
    change 4%nat with (length ALLOWED_CATEGORIES).
    apply NoDup_incl_length; [exact Hnd|exact Hall].
Qed.

Lemma categories_of_a_run_witness :
  exists valid errs stats,
    pipeline day0 LeftToRight (Opened order_sample)
      = ([], Returned (valid, errs, stats))
    /\ map (fun kv => (fst kv, Stats.count (snd kv))) (Stats.by_category stats)
       = [("books", 2); ("food", 1)]
    /\ List.NoDup (map fst (Stats.by_category stats))
    /\ (length (Stats.by_category stats) <= 4)%nat.
Proof.
  destruct (pipeline day0 LeftToRight (Opened order_sample))
    as [out [[[valid errs] stats]|x]] eqn:E; [|vm_compute in E; discriminate E].
  destruct (categories_of_a_run _ _ _ _ _ _ _ E) as (H1 & _ & H3).
  exists valid, errs, stats.
  vm_compute in E. injection E as <- <- <- <-.
  split; [reflexivity|]. split; [reflexivity|]. split; [exact H1|exact H3].
Defined.

(** X11.  The count of a category does not depend on the order of the
    records, nor on the variant of [sum]: two lists of records that are
    rearrangements of each other give every category the same count. *)
Theorem counts_do_not_depend_on_the_order
    (alg alg' : sum_algorithm) (records records' : list record)
    (Hperm : Permutation records records') (c : string) :
  option_map Stats.count
    (lookup_category c (Stats.by_category (calculate_statistics alg records)))
  = option_map Stats.count
      (lookup_category c (Stats.by_category (calculate_statistics alg' records'))).
Proof.
  rewrite !lookup_statistics.
  assert (Hlen : length (of_category c records) = length (of_category c records')).
  { apply Permutation_length. unfold of_category.
    clear alg alg'. induction Hperm; cbn [List.filter].
    - constructor.
    - destruct (String.eqb (ValidRecord.category x) c); [now constructor|assumption].
    - destruct (String.eqb (ValidRecord.category x) c),
               (String.eqb (ValidRecord.category y) c);
        try apply Permutation_refl; apply perm_swap.
    - etransitivity; eassumption. }
  destruct (of_category c records), (of_category c records');
    try discriminate Hlen; [reflexivity|].
  cbn [option_map Stats.count]. now rewrite Hlen.
Qed.

Lemma counts_do_not_depend_on_the_order_witness :
  let a := {| ValidRecord.id := 1; ValidRecord.name := "Novel";
              ValidRecord.category := "books"; ValidRecord.final_price := of_Z 3;
              ValidRecord.quantity := 1; ValidRecord.total_value := of_Z 3 |} in
  let b := {| ValidRecord.id := 2; ValidRecord.name := "Bread";
              ValidRecord.category := "food"; ValidRecord.final_price := of_Z 2;
              ValidRecord.quantity := 1; ValidRecord.total_value := of_Z 2 |} in
  Permutation [a; b; a] [b; a; a]
  /\ option_map Stats.count
       (lookup_category "books"
          (Stats.by_category (calculate_statistics LeftToRight [a; b; a])))
     = Some 2
  /\ option_map Stats.count
       (lookup_category "books"
          (Stats.by_category (calculate_statistics Compensated [b; a; a])))
     = Some 2.
Proof.
  intros a b.
  assert (Hp : Permutation [a; b; a] [b; a; a]) by apply perm_swap.
  split; [exact Hp|].
  rewrite <- (counts_do_not_depend_on_the_order LeftToRight Compensated _ _ Hp "books").
  split; vm_compute; reflexivity.
Defined.

(** [main] is [main_with] when the report is written. *)
Lemma main_written today alg src old log :
  main today alg {| input_txt := src; report_txt := old; console := log |}
  = let '(file, con, c) := main_with today alg Written src old log in
    ({| input_txt := src;
        report_txt := match file with Holds r => r | Damaged => None end;
        console := con |}, c).
Proof.
  unfold main, main_with. cbn [input_txt report_txt console].
  destruct (pipeline today alg src) as [out [[[v e] s]|x]]; reflexivity.
Qed.


(** ** Reading back what the report shows *)

Lemma digit_char_digit d : 0 <= d <= 9 -> digit (PyText.digit_char d) = Some d.
Proof.
  intros H.
  assert (E : d = 0 \/ d = 1 \/ d = 2 \/ d = 3 \/ d = 4 \/ d = 5 \/ d = 6
              \/ d = 7 \/ d = 8 \/ d = 9) by lia.
  repeat (destruct E as [->|E]; [reflexivity|]). now subst d.
Qed.

Lemma take_digits_digit a c d r :
  0 <= d <= 9 ->
  take_digits a c (String (PyText.digit_char d) r) = take_digits (10 * a + d) (c + 1) r.
Proof.
  intros H. cbn [take_digits]. now rewrite digit_char_digit.
Qed.

Lemma digits_S fuel n acc :
  PyText.digits (S fuel) n acc
  = if n <? 10 then String (PyText.digit_char (n mod 10)) acc
    else PyText.digits fuel (n / 10) (String (PyText.digit_char (n mod 10)) acc).
Proof. reflexivity. Qed.

(** Reading the digits of [n] continues the number read so far with [n]. *)
Lemma take_digits_digits fuel n acc a c :
  0 <= n < 2 ^ Z.of_nat (S fuel) ->
  exists k, 0 < k
    /\ take_digits a c (PyText.digits (S fuel) n acc)
       = take_digits (a * 10 ^ k + n) (c + k) acc.
Proof.
  revert n acc. induction fuel as [|fuel IH]; intros n acc Hn.
  - change (2 ^ Z.of_nat 1) with 2 in Hn. cbn [PyText.digits].
    assert (Hlt : (n <? 10) = true) by (apply Z.ltb_lt; lia). rewrite Hlt.
    exists 1. split; [lia|]. rewrite Z.mod_small by lia.
    rewrite take_digits_digit by lia. f_equal; lia.
  - rewrite (digits_S (S fuel)).
    destruct (Z.ltb_spec n 10) as [Hlt|Hge].
    + exists 1. split; [lia|]. rewrite Z.mod_small by lia.
      rewrite take_digits_digit by lia. f_equal; lia.
    + destruct (IH (n / 10) (String (PyText.digit_char (n mod 10)) acc))
        as (k & Hk & E).
      { split; [apply Z.div_pos; lia|].
        apply Z.div_lt_upper_bound; [lia|].
        rewrite (Nat2Z.inj_succ (S fuel)), Z.pow_succ_r in Hn by lia.
        assert (0 < 2 ^ Z.of_nat (S fuel)) by (apply Z.pow_pos_nonneg; lia).
        generalize dependent (2 ^ Z.of_nat (S fuel)). intros; lia. }
      exists (k + 1). split; [lia|]. rewrite E.
      pose proof (Z.mod_pos_bound n 10).
      rewrite take_digits_digit by lia.
      rewrite Z.pow_add_r by lia. change (10 ^ 1) with 10.
      pose proof (Z.div_mod n 10 ltac:(lia)).
      match goal with
      | |- take_digits ?x ?y _ = take_digits ?x' ?y' _ =>
          replace x with x' by lia; replace y with y' by lia; reflexivity
      end.
Qed.

Lemma log2_fuel n : 0 <= n -> n < 2 ^ Z.of_nat (S (Z.to_nat (Z.log2 n))).
Proof.
  intros Hn. rewrite Nat2Z.inj_succ, Z2Nat.id by apply Z.log2_nonneg.
  destruct (Z.eq_dec n 0) as [->|Hne]; [reflexivity|].
  apply Z.log2_spec. lia.
Qed.

Lemma take_digits_decimal n acc a c :
  0 <= n ->
  exists k, 0 < k
    /\ take_digits a c (String.append (PyText.decimal n) acc)
       = take_digits (a * 10 ^ k + n) (c + k) acc.
Proof.
  intros Hn. unfold PyText.decimal.
  assert (Happ : forall fuel m s t,
             String.append (PyText.digits fuel m s) t
             = PyText.digits fuel m (String.append s t)).
  { induction fuel as [|fuel IH]; intros m s t; cbn [PyText.digits]; [reflexivity|].
    destruct (m <? 10); [reflexivity|]. now rewrite IH. }
  rewrite Happ. change (String.append "" ?t) with t.
  apply take_digits_digits. split; [exact Hn|now apply log2_fuel].
Qed.

(** Every character of the digits of a number satisfies what the ten digits
    satisfy. *)
Lemma digits_all_chars (p : ascii -> bool) fuel n acc :
  (forall d, 0 <= d <= 9 -> p (PyText.digit_char d) = true) ->
  all_chars p acc = true -> all_chars p (PyText.digits fuel n acc) = true.
Proof.
  intros Hp. revert n acc. induction fuel as [|fuel IH]; intros n acc Hacc;
    cbn [PyText.digits]; [exact Hacc|].
  assert (H' : all_chars p (String (PyText.digit_char (n mod 10)) acc) = true).
  { cbn [all_chars]. rewrite Hacc, Hp; [reflexivity|].
    pose proof (Z.mod_pos_bound n 10). lia. }
  destruct (n <? 10); [exact H'|]. now apply IH.
Qed.

Lemma digits_start fuel n acc :
  starts_with_digit acc = true ->
  starts_with_digit (PyText.digits fuel n acc) = true.
Proof.
  revert n acc. induction fuel as [|fuel IH]; intros n acc Hacc;
    cbn [PyText.digits]; [exact Hacc|].
  assert (H' : starts_with_digit (String (PyText.digit_char (n mod 10)) acc) = true).
  { cbn [starts_with_digit]. unfold is_digit. rewrite digit_char_digit; [reflexivity|].
    pose proof (Z.mod_pos_bound n 10). lia. }
  destruct (n <? 10); [exact H'|]. now apply IH.
Qed.

Lemma decimal_start n : starts_with_digit (PyText.decimal n) = true.
Proof.
  unfold PyText.decimal. cbn [PyText.digits].
  assert (H' : starts_with_digit (String (PyText.digit_char (n mod 10)) "") = true).
  { cbn [starts_with_digit]. unfold is_digit. rewrite digit_char_digit; [reflexivity|].
    pose proof (Z.mod_pos_bound n 10). lia. }
  destruct (n <? 10); [exact H'|]. now apply digits_start.
Qed.

(** Stripping a string without the stripped characters changes nothing. *)
Lemma strip_with_nothing sp s :
  all_chars (fun c => negb (sp c)) s = true -> PyStr.strip_with sp s = s.
Proof.
  intros H. unfold PyStr.strip_with.
  assert (Hl : PyStr.lstrip_with sp s = s).
  { destruct s as [|c r]; [reflexivity|]. cbn [all_chars] in H.
    apply andb_true_iff in H as [Hc _]. cbn [PyStr.lstrip_with].
    now destruct (sp c). }
  rewrite Hl. clear Hl. induction s as [|c r IH]; [reflexivity|].
  cbn [all_chars] in H. apply andb_true_iff in H as [Hc Hr].
  cbn [PyStr.rstrip_with]. rewrite (IH Hr).
  destruct r; [|reflexivity]. now destruct (sp c).
Qed.

Lemma drop_underscores_nothing s prev :
  all_chars (fun c => negb (Ascii.eqb c "_")) s = true ->
  Ascii.eqb prev "_" = false ->
  drop_underscores prev s = Some s.
Proof.
  revert prev. induction s as [|c r IH]; intros prev H Hprev;
    cbn [drop_underscores].
  - now rewrite Hprev.
  - cbn [all_chars] in H. apply andb_true_iff in H as [Hc Hr].
    apply negb_true_iff in Hc. rewrite Hc, Hprev. cbn [andb].
    now rewrite (IH c Hr Hc).
Qed.

Lemma numeric_cases c :
  numeric c = true ->
  num_space c = false /\ Ascii.eqb c "_" = false /\ Ascii.eqb c "010" = false.
Proof.
  destruct c as [[] [] [] [] [] [] [] []]; try discriminate; now repeat split.
Qed.

Lemma digit_cases c :
  is_digit c = true ->
  lower c = c /\ Ascii.eqb c "i" = false /\ Ascii.eqb c "n" = false
  /\ Ascii.eqb c "-" = false /\ Ascii.eqb c "+" = false.
Proof.
  destruct c as [[] [] [] [] [] [] [] []]; try discriminate; now repeat split.
Qed.

Lemma split_sign_digit s :
  starts_with_digit s = true -> split_sign s = (false, s).
Proof.
  destruct s as [|c r]; [discriminate|]. cbn [starts_with_digit].
  destruct c as [[] [] [] [] [] [] [] []]; try discriminate; reflexivity.
Qed.

Lemma not_a_word s :
  starts_with_digit s = true ->
  (String.eqb (lowercase s) "inf" || String.eqb (lowercase s) "infinity") = false
  /\ String.eqb (lowercase s) "nan" = false.
Proof.
  destruct s as [|c r]; [discriminate|]. cbn [starts_with_digit]. intros H.
  destruct (digit_cases c H) as (Hl & Hi & Hn & _).
  cbn [lowercase String.eqb]. rewrite Hl, Hi, Hn. now split.
Qed.

Lemma hundredths_nonneg m e : 0 <= hundredths m e.
Proof.
  unfold hundredths. destruct (0 <=? e) eqn:E.
  - apply Z.leb_le in E. assert (0 < 2 ^ e) by (apply Z.pow_pos_nonneg; lia). nia.
  - etransitivity; [|apply round_half_even_lower].
    apply Z.div_pos; [lia|]. apply Z.pow_pos_nonneg; [lia|].
    apply Z.leb_gt in E. lia.
Qed.

(** The unsigned part of a formatted finite number reads as its number of
    hundredths over 100. *)
Lemma unsigned_literal_hundredths neg h :
  0 <= h ->
  unsigned_literal neg
    (String.append (PyText.decimal (h / 100))
       (String "."
          (String (PyText.digit_char (h mod 100 / 10))
             (String (PyText.digit_char (h mod 10)) EmptyString))))
  = Some (of_decimal neg h (-2)).
Proof.
  intros Hh. unfold unsigned_literal.
  set (frac := String (PyText.digit_char (h mod 100 / 10))
                 (String (PyText.digit_char (h mod 10)) EmptyString)).
  assert (Hstart : starts_with_digit
                     (String.append (PyText.decimal (h / 100)) (String "." frac)) = true).
  { pose proof (decimal_start (h / 100)) as Hd.
    destruct (PyText.decimal (h / 100)); [discriminate|exact Hd]. }
  destruct (not_a_word _ Hstart) as [-> ->].
  destruct (take_digits_decimal (h / 100) (String "." frac) 0 0) as (k & Hk & ->);
    [apply Z.div_pos; lia|].
  change (take_digits (0 * 10 ^ k + h / 100) (0 + k) (String "." frac))
    with (0 * 10 ^ k + h / 100, 0 + k, String "." frac).
  cbv beta iota. unfold frac.
  pose proof (Z.mod_pos_bound h 100).
  pose proof (Z.mod_pos_bound h 10).
  assert (0 <= h mod 100 / 10 <= 9).
  { split; [apply Z.div_pos; lia|].
    assert (h mod 100 / 10 < 10) by (apply Z.div_lt_upper_bound; lia). lia. }
  rewrite !take_digits_digit by lia.
  cbn [take_digits]. cbv beta iota.
  assert (Hpos : (0 <? 0 + k + (0 + 1 + 1)) = true) by (apply Z.ltb_lt; lia).
  rewrite Hpos. cbn [exponent]. apply f_equal.
  apply (f_equal2 (of_decimal neg)); [|reflexivity].
  pose proof (Z.div_mod h 100 ltac:(lia)).
  pose proof (Z.div_mod (h mod 100) 10 ltac:(lia)).
  assert (h mod 100 mod 10 = h mod 10).
  { apply Z.mod_mod_divide. now exists 10. }
  lia.
Qed.

(** The text of an amount parses to the amount rounded to two decimals. *)
Lemma format_2f_reads_back (x : float) :
  py_float (PyText.format_2f x) = Some (py_round2 x).
Proof.
  destruct x as [s|s| |s m e];
    [destruct s; vm_compute; reflexivity
    |destruct s; vm_compute; reflexivity
    |vm_compute; reflexivity|].
  unfold PyText.format_2f. cbv zeta.
  pose proof (hundredths_nonneg m e) as Hh.
  set (h := hundredths m e) in *.
  set (body := String.append (PyText.decimal (h / 100)) _).
  assert (Hstart : starts_with_digit body = true).
  { unfold body. pose proof (decimal_start (h / 100)) as Hd.
    destruct (PyText.decimal (h / 100)); [discriminate|exact Hd]. }
  assert (Hnum : all_chars numeric body = true).
  { unfold body, PyText.decimal.
    assert (Happ : forall fuel m s t,
               String.append (PyText.digits fuel m s) t
               = PyText.digits fuel m (String.append s t)).
    { induction fuel as [|fuel IH]; intros m0 s0 t; cbn [PyText.digits]; [reflexivity|].
      destruct (m0 <? 10); [reflexivity|]. now rewrite IH. }
    rewrite Happ. change (String.append "" ?t) with t.
    assert (Hd : forall d, 0 <= d <= 9 -> numeric (PyText.digit_char d) = true).
    { intros d Hd. unfold numeric, is_digit. now rewrite digit_char_digit. }
    apply digits_all_chars; [exact Hd|].
    pose proof (Z.mod_pos_bound h 100). pose proof (Z.mod_pos_bound h 10).
    cbn [all_chars]. rewrite !Hd; [reflexivity|lia|].
    split; [apply Z.div_pos; lia|].
    assert (h mod 100 / 10 < 10) by (apply Z.div_lt_upper_bound; lia). lia. }
  assert (Hall : all_chars numeric (String.append (PyText.sign s) body) = true)
    by (destruct s; [change (numeric "-" && all_chars numeric body = true);
                     now rewrite Hnum
                    |exact Hnum]).
  unfold py_float.
  rewrite strip_with_nothing.
  2:{ clear - Hall. induction (String.append (PyText.sign s) body) as [|c r IH];
        [reflexivity|].
      cbn [all_chars] in *. apply andb_true_iff in Hall as [Hc Hr].
      destruct (numeric_cases c Hc) as (-> & _). now rewrite IH. }
  rewrite drop_underscores_nothing; [|
    clear - Hall; induction (String.append (PyText.sign s) body) as [|c r IH];
      [reflexivity|];
      cbn [all_chars] in *; apply andb_true_iff in Hall as [Hc Hr];
      destruct (numeric_cases c Hc) as (_ & -> & _); now rewrite IH
    |reflexivity].
  assert (Hsign : split_sign (String.append (PyText.sign s) body) = (s, body)).
  { destruct s; [reflexivity|]. now apply split_sign_digit. }
  rewrite Hsign. unfold body. rewrite unsigned_literal_hundredths by exact Hh.
  reflexivity.
Qed.

Lemma py_eq_refl x : py_eq x x = negb (is_nan x).
Proof.
  unfold py_eq, SFeqb, SFcompare.
  destruct x as [s|s| |s m e]; try (destruct s; reflexivity); [reflexivity|].
  rewrite Z.compare_refl.
  destruct s; cbn [is_nan negb].
  - rewrite Pos.compare_cont_spec, Pos.compare_refl. reflexivity.
  - rewrite Pos.compare_cont_spec, Pos.compare_refl. reflexivity.
Qed.

Lemma of_ratio_not_nan s n d : is_nan (of_ratio s n d) = false.
Proof.
  destruct (of_ratio_rounds s n d) as (l & ->). cbv zeta.
  set (e := Z.min _ 0).
  assert (Hq : 0 <= Z.pos n * 2 ^ (- e) / Z.pos d).
  { apply Z.div_pos; [|lia].
    apply Z.mul_nonneg_nonneg; [lia|]. apply Z.pow_nonneg. lia. }
  destruct (binary_round_aux_cases s _ e l Hq) as (m1 & Hb & ->).
  cbv zeta in Hb.
  assert (Hm1 : 0 <= m1).
  { destruct Hb as [Hb _]. etransitivity; [|exact Hb].
    apply Z.div_pos; [exact Hq|]. apply Z.pow_pos_nonneg; lia. }
  match goal with
  | |- context [match ?q with Z0 => _ | Zpos _ => _ | Zneg _ => _ end] =>
      assert (Hq2 : 0 <= q)
        by (apply Z.div_pos; [lia|apply Z.pow_pos_nonneg; lia]);
      destruct q as [|m|m]
  end.
  - reflexivity.
  - now destruct (_ <=? 971).
  - lia.
Qed.

Lemma py_round2_nan x : is_nan (py_round2 x) = is_nan x.
Proof.
  destruct x as [s|s| |s m e]; try reflexivity.
  unfold py_round2. destruct (hundredths m e); try reflexivity.
  apply of_ratio_not_nan.
Qed.

(** X13.  The text the format [.2f] gives for an amount parses, with
    [float()], to the float [round(x, 2)] returns: the same float, the
    infinities and the signed zeros included, and NaN for NaN.  The
    comparison [float(format(x, ".2f")) == round(x, 2)] is therefore [True]
    for every [x] that is not NaN, and [False] for NaN.  Both [round] and
    the format go through the correctly rounded conversion of a float to
    two decimals, [hundredths]; the property is about the text: its sign,
    its digits and the words [inf] and [nan] parse to the float that
    [round] builds from the hundredths. *)
Theorem shown_amounts_read_back_rounded (x : float) :
  py_float (PyText.format_2f x) = Some (py_round2 x)
  /\ option_map (fun y => py_eq y (py_round2 x)) (py_float (PyText.format_2f x))
     = Some (negb (is_nan x)).
Proof.
  rewrite format_2f_reads_back. split; [reflexivity|].
  cbn [option_map]. now rewrite py_eq_refl, py_round2_nan.
Qed.

(** ** The lines of the report *)

Lemma split_one_line s : one_line s = true -> PyStr.split LF s = [s].
Proof.
  induction s as [|c r IH]; [reflexivity|].
  unfold one_line. cbn [all_chars PyStr.split]. intros H.
  apply andb_true_iff in H as [Hc Hr]. apply negb_true_iff in Hc.
  rewrite Hc. now rewrite (IH Hr).
Qed.

Lemma split_line_then s t :
  one_line s = true ->
  PyStr.split LF (String.append s (String LF t)) = s :: PyStr.split LF t.
Proof.
  induction s as [|c r IH]; [reflexivity|].
  unfold one_line. cbn [all_chars]. intros H.
  apply andb_true_iff in H as [Hc Hr]. apply negb_true_iff in Hc.
  change (String.append (String c r) (String LF t))
    with (String c (String.append r (String LF t))).
  cbn [PyStr.split]. rewrite Hc. now rewrite (IH Hr).
Qed.

(** Splitting the joined lines gives the lines back when none of them
    contains a line feed. *)
Lemma split_join l ls :
  Forall (fun s => one_line s = true) (l :: ls) ->
  PyStr.split LF (PyText.join (String LF EmptyString) (l :: ls)) = l :: ls.
Proof.
  revert l. induction ls as [|l' ls IH]; intros l H.
  - apply split_one_line. now inversion H.
  - inversion H as [|? ? Hl Hrest]; subst.
    change (PyText.join (String LF "") (l :: l' :: ls))
      with (String.append l
              (String LF (PyText.join (String LF "") (l' :: ls)))).
    rewrite split_line_then by exact Hl. now rewrite IH.
Qed.

Lemma one_line_app s t :
  one_line (String.append s t) = one_line s && one_line t.
Proof. apply all_chars_app. Qed.

Lemma one_line_decimal n : one_line (PyText.decimal n) = true.
Proof.
  unfold one_line, PyText.decimal. apply digits_all_chars; [|reflexivity].
  intros d Hd.
  assert (E : d = 0 \/ d = 1 \/ d = 2 \/ d = 3 \/ d = 4 \/ d = 5 \/ d = 6
              \/ d = 7 \/ d = 8 \/ d = 9) by lia.
  repeat (destruct E as [->|E]; [reflexivity|]). now subst d.
Qed.

Lemma one_line_str n : one_line (PyText.str n) = true.
Proof.
  unfold PyText.str. destruct (n <? 0); [|apply one_line_decimal].
  rewrite one_line_app, one_line_decimal. reflexivity.
Qed.

Lemma one_line_format_2f x : one_line (PyText.format_2f x) = true.
Proof.
  destruct x as [s|s| |s m e]; try (destruct s; reflexivity); [reflexivity|].
  unfold PyText.format_2f. cbv zeta.
  rewrite !one_line_app, one_line_decimal.
  assert (Hd : forall d, 0 <= d <= 9 -> one_line (String (PyText.digit_char d) "") = true).
  { intros d Hd.
    assert (E : d = 0 \/ d = 1 \/ d = 2 \/ d = 3 \/ d = 4 \/ d = 5 \/ d = 6
                \/ d = 7 \/ d = 8 \/ d = 9) by lia.
    repeat (destruct E as [->|E]; [reflexivity|]). now subst d. }
  set (h := hundredths m e).
  pose proof (Z.mod_pos_bound h 100 ltac:(lia)).
  pose proof (Z.mod_pos_bound h 10 ltac:(lia)).
  assert (0 <= h mod 100 / 10 <= 9).
  { split; [apply Z.div_pos; lia|].
    assert (h mod 100 / 10 < 10) by (apply Z.div_lt_upper_bound; lia). lia. }
  change (String "." (String ?a (String ?b "")))
    with (String.append "." (String.append (String a "") (String b ""))).
  rewrite !one_line_app, !Hd by lia. now destruct s.
Qed.

Lemma one_line_message why : one_line (message why) = true.
Proof. destruct why; reflexivity. Qed.

Lemma one_line_error_line e : one_line (error_line e) = true.
Proof.
  unfold error_line.
  now rewrite !one_line_app, one_line_str, one_line_message.
Qed.

Lemma one_line_category_line c n v :
  In c ALLOWED_CATEGORIES -> one_line (category_line (c, n, v)) = true.
Proof.
  intros Hc. unfold category_line.
  rewrite !one_line_app, one_line_str, one_line_format_2f.
  repeat (destruct Hc as [<-|Hc]; [reflexivity|]). destruct Hc.
Qed.

(** The lines of a report whose categories are allowed ones hold no line
    feed. *)
Lemma report_lines_one_line rep :
  Forall (fun c => In (fst (fst c)) ALLOWED_CATEGORIES) (Report.categories rep) ->
  Forall (fun s => one_line s = true) (report_lines rep).
Proof.
  intros Hcat. unfold report_lines.
  repeat (apply List.Forall_cons;
          [first [reflexivity
                 |now rewrite one_line_app, one_line_str
                 |now rewrite one_line_app, one_line_format_2f]|]).
  apply List.Forall_app. split.
  - apply List.Forall_map. eapply List.Forall_impl; [|exact Hcat].
    intros [[c n] v] Hc. now apply one_line_category_line.
  - repeat (apply List.Forall_cons; [reflexivity|]).
    destruct (Report.error_lines rep) as [|e es].
    + now repeat constructor.
    + apply List.Forall_map. apply List.Forall_forall. intros e0 _.
      apply one_line_error_line.
Qed.

(** X14.  In a run of the pipeline that returns, no value interpolated
    into the report breaks a line: the text splits at its line feeds into
    exactly the lines [generate_report] built.  These are twelve fixed
    lines, one line per category, and one line per error or, in their
    place, the sentence that no error was found; that sentence is in the
    report exactly when the list of errors is empty. *)
Theorem report_text_has_the_lines_of_the_report
    (today : PyDate.date) (alg : sum_algorithm) (src : source)
    (out : list printed) (valid : list record) (errs : list (nat * reason))
    (stats : statistics)
    (Hrun : pipeline today alg src = (out, Returned (valid, errs, stats))) :
  let rep := generate_report valid errs stats in
  PyStr.split LF (report_text rep) = report_lines rep
  /\ length (report_lines rep)
     = (12 + length (Stats.by_category stats) + Nat.max 1 (length errs))%nat
  /\ (In "Ошибок не обнаружено." (report_lines rep) <-> errs = []).
Proof.
  cbv zeta. apply pipeline_returned in Hrun as [-> Hinv].
  pose proof (statistics_categories_allowed alg valid Hinv) as Hcat.
  set (stats := calculate_statistics alg valid) in *.
  split; [|split].
  - unfold report_text.
    assert (H : Forall (fun s => one_line s = true)
                  (report_lines (generate_report valid errs stats))).
    { apply report_lines_one_line. unfold generate_report. cbn [Report.categories].
      apply List.Forall_map. cbn [fst]. now apply List.Forall_map in Hcat. }
    destruct (report_lines (generate_report valid errs stats)) as [|l ls] eqn:E;
      [discriminate E|].
    now apply split_join.
  - unfold report_lines, generate_report.
    cbn [Report.categories Report.error_lines].
    rewrite !length_app, !length_map. cbn [length].
    destruct errs as [|e es]; [cbn [length]; lia|].
    rewrite length_map. cbn [length]. lia.
  - unfold report_lines, generate_report.
    cbn [Report.categories Report.error_lines Report.total Report.valid
         Report.invalid Report.total_value Report.avg_price].
    split.
    + intros Hin. destruct errs as [|e es]; [reflexivity|]. exfalso.
      do 10 (destruct Hin as [Hin|Hin];
             [cbv [String.append PyText.times] in Hin; discriminate Hin|]).
      cbn [app] in Hin. apply in_app_or in Hin as [Hin|Hin].
      * apply in_map_iff in Hin as ([[c n] v] & Hx & _).
        cbv [category_line String.append] in Hx. discriminate Hx.
      * destruct Hin as [Hin|[Hin|Hin]]; [discriminate Hin|discriminate Hin|].
        apply in_map_iff in Hin as (x & Hx & _).
        cbv [error_line String.append] in Hx. discriminate Hx.
    + intros ->. do 10 right. cbn [app]. apply in_or_app. right.
      do 2 right. now left.
Qed.

Lemma report_text_has_the_lines_of_the_report_witness :
  exists valid errs stats,
    pipeline day0 LeftToRight (Opened order_sample)
      = ([], Returned (valid, errs, stats))
    /\ length (PyStr.split LF (report_text (generate_report valid errs stats)))
       = 17%nat
    /\ nth 6 (PyStr.split LF (report_text (generate_report valid errs stats))) ""
       = "Суммарная стоимость товаров: 83.50".
Proof.
  destruct (pipeline day0 LeftToRight (Opened order_sample))
    as [out [[[valid errs] stats]|x]] eqn:E; [|vm_compute in E; discriminate E].
  destruct (report_text_has_the_lines_of_the_report _ _ _ _ _ _ _ E) as (H1 & H2 & _).
  exists valid, errs, stats. rewrite H1.
  vm_compute in E. injection E as <- <- <- <-.
  split; [reflexivity|]. split; vm_compute; reflexivity.
Defined.

(** X15.  The messages of the sixteen checks and of the blank line are
    pairwise different: the text of an error line determines the check
    that failed. *)
Theorem messages_are_distinct (a b : reason) :
  message a = message b -> a = b.
Proof.
  destruct a, b; intros H; try reflexivity; discriminate H.
Qed.

Lemma messages_are_distinct_witness :
  message PriceBadFormat = "price имеет неверный формат"
  /\ forall why, message why = "price имеет неверный формат" -> why = PriceBadFormat.
Proof.
  split; [reflexivity|]. intros why H.
  exact (messages_are_distinct why PriceBadFormat H).
Defined.

(** ** Reading back the counts *)

Lemma scan_digits_digit prev a c d r :
  0 <= d <= 9 ->
  scan_digits prev a c (String (PyText.digit_char d) r)
  = scan_digits AfterDigit (10 * a + d) (S c) r.
Proof.
  intros H. cbn [scan_digits]. now rewrite digit_char_digit.
Qed.

(** Scanning the digits of [n] continues the number scanned so far with
    [n]; the number of digits is that of [n]. *)
Lemma scan_digits_digits fuel n acc prev a c :
  0 <= n < 2 ^ Z.of_nat (S fuel) ->
  exists k, (0 < k)%nat
    /\ (k = 1%nat \/ 10 ^ (Z.of_nat k - 1) <= n)
    /\ scan_digits prev a c (PyText.digits (S fuel) n acc)
       = scan_digits AfterDigit (a * 10 ^ Z.of_nat k + n) (c + k) acc.
Proof.
  revert n acc. induction fuel as [|fuel IH]; intros n acc Hn.
  - change (2 ^ Z.of_nat 1) with 2 in Hn. rewrite digits_S.
    assert (Hlt : (n <? 10) = true) by (apply Z.ltb_lt; lia). rewrite Hlt.
    exists 1%nat. split; [lia|]. split; [now left|]. rewrite Z.mod_small by lia.
    rewrite scan_digits_digit by lia.
    change (10 ^ Z.of_nat 1) with 10. rewrite Nat.add_1_r. f_equal. lia.
  - rewrite (digits_S (S fuel)).
    destruct (Z.ltb_spec n 10) as [Hlt|Hge].
    + exists 1%nat. split; [lia|]. split; [now left|]. rewrite Z.mod_small by lia.
      rewrite scan_digits_digit by lia.
      change (10 ^ Z.of_nat 1) with 10. rewrite Nat.add_1_r. f_equal. lia.
    + destruct (IH (n / 10) (String (PyText.digit_char (n mod 10)) acc))
        as (k & Hk & Hsize & E).
      { split; [apply Z.div_pos; lia|].
        apply Z.div_lt_upper_bound; [lia|].
        rewrite (Nat2Z.inj_succ (S fuel)), Z.pow_succ_r in Hn by lia.
        assert (0 < 2 ^ Z.of_nat (S fuel)) by (apply Z.pow_pos_nonneg; lia).
        lia. }
      pose proof (Z.div_mod n 10 ltac:(lia)) as Hdm.
      pose proof (Z.mod_pos_bound n 10 ltac:(lia)) as Hmod.
      exists (S k). split; [lia|]. split.
      * right. replace (Z.of_nat (S k) - 1) with (Z.succ (Z.of_nat k - 1)) by lia.
        rewrite Z.pow_succ_r by lia.
        destruct Hsize as [->|Hsize]; [change (10 ^ (Z.of_nat 1 - 1)) with 1; lia|].
        lia.
      * rewrite E, scan_digits_digit by lia.
        rewrite Nat2Z.inj_succ, Z.pow_succ_r by lia.
        replace (c + S k)%nat with (S (c + k)) by lia.
        f_equal. lia.
Qed.

Lemma scan_digits_decimal n :
  0 <= n < 10 ^ 4300 ->
  exists k, (k <= 4300)%nat
    /\ scan_digits AtStart 0 0 (PyText.decimal n) = Some (n, k).
Proof.
  intros [H0 H1]. unfold PyText.decimal.
  pose proof (log2_fuel n H0) as Hfuel.
  destruct (scan_digits_digits (Z.to_nat (Z.log2 n)) n "" AtStart 0 0)
    as (k & Hk & Hsize & ->); [split; assumption|].
  exists k. split; [|reflexivity].
  destruct Hsize as [->|Hsize]; [clear; lia|].
  assert (Hlt : 10 ^ (Z.of_nat k - 1) < 10 ^ 4300)
    by (eapply Z.le_lt_trans; eassumption).
  apply Z.pow_lt_mono_r_iff in Hlt; [clear - Hlt; lia|clear; lia|clear; lia].
Qed.

(** X16.  The counts and the line numbers the report shows read back
    with [int] as the same integers: [int(str(n)) == n] for every integer
    of at most 4300 digits. *)
Theorem shown_counts_read_back (n : Z) (Hsize : Z.abs n < 10 ^ 4300) :
  py_int (PyText.str n) = Some n.
Proof.
  destruct (scan_digits_decimal (Z.abs n) (conj (Z.abs_nonneg n) Hsize))
    as (k & Hk & Hscan).
  clear Hsize.
  assert (Hlim : (max_str_digits <? k)%nat = false)
    by (apply Nat.ltb_ge; exact Hk).
  assert (Hplain : forall m, all_chars (fun c => negb (num_space c))
                               (PyText.decimal m) = true).
  { intros m. unfold PyText.decimal.
    apply digits_all_chars; [|reflexivity]. intros d Hd.
    assert (E : d = 0 \/ d = 1 \/ d = 2 \/ d = 3 \/ d = 4 \/ d = 5 \/ d = 6
                \/ d = 7 \/ d = 8 \/ d = 9) by lia.
    repeat (destruct E as [->|E]; [reflexivity|]). now subst d. }
  unfold py_int, PyText.str. destruct (Z.ltb_spec n 0) as [Hneg|Hpos].
  - change (String.append (PyText.sign true) (PyText.decimal (- n)))
      with (String "-" (PyText.decimal (- n))).
    rewrite strip_with_nothing
      by (cbn [all_chars]; rewrite Hplain; reflexivity).
    cbn [split_sign].
    replace (- n) with (Z.abs n) by lia. rewrite Hscan, Hlim. f_equal. lia.
  - rewrite strip_with_nothing by apply Hplain.
    rewrite split_sign_digit by apply decimal_start.
    replace n with (Z.abs n) at 1 by lia. rewrite Hscan, Hlim. f_equal. lia.
Qed.

Lemma shown_counts_read_back_witness :
  Z.abs 2026 < 10 ^ 4300 /\ py_int (PyText.str 2026) = Some 2026.
Proof.
  assert (H : Z.abs 2026 < 10 ^ 4300) by (vm_compute; reflexivity).
  split; [exact H|]. exact (shown_counts_read_back 2026 H).
Defined.

(** ** The message of a blank line *)

Lemma validate_fields_not_blank today k a b c d e f :
  validate_fields today k a b c d e f <> Invalid EmptyLine.
Proof.
  unfold validate_fields. repeat split_match; discriminate.
Qed.

(** The validator never raises the message of a blank line. *)
Lemma parse_and_validate_not_blank today line n ids :
  fst (parse_and_validate today line n ids) <> Invalid EmptyLine.
Proof.
  unfold parse_and_validate.
  destruct (PyStr.split DELIMITER (PyStr.strip line))
    as [|f0 [|f1 [|f2 [|f3 [|f4 [|f5 [|f6 [|f7 more]]]]]]]]; try discriminate.
  destruct (py_int f0) as [k|]; [|discriminate].
  destruct (k <=? 0); [discriminate|].
  destruct (bool_decide (k ∈ ids)); [discriminate|].
  apply validate_fields_not_blank.
Qed.

Lemma blank_exactly_cons n l lines e :
  (S n <= fst e)%nat ->
  blank_exactly (S n) lines e -> blank_exactly n (l :: lines) e.
Proof.
  intros Hle (_ & line & Hnth & H). split; [lia|]. exists line. split; [|exact H].
  replace (fst e - n)%nat with (S (fst e - S n)) by lia. exact Hnth.
Qed.

Lemma process_lines_blank_entries today lines n st st' :
  process_lines (parse_and_validate today) lines n st = Returned st' ->
  exists es, errors st' = errors st ++ es /\ Forall (blank_exactly n lines) es.
Proof.
  revert n st. induction lines as [|l lines IH]; intros n st H; simpl in H.
  - injection H as <-. exists []. rewrite app_nil_r. now split.
  - destruct (process_line _ st n l) as [st0|x] eqn:E; [|discriminate].
    destruct (IH _ _ H) as (es & He & Hes).
    assert (Hes' : Forall (blank_exactly n (l :: lines)) es).
    { eapply List.Forall_impl; [|exact Hes]. intros e He0.
      apply blank_exactly_cons; [apply He0|exact He0]. }
    unfold process_line in E.
    destruct (String.eqb_spec (PyStr.strip l) "") as [Hblank|Hnb].
    + injection E as <-. cbn [errors] in He.
      exists ((n, EmptyLine) :: es). rewrite He, <- app_assoc.
      split; [reflexivity|]. constructor; [|exact Hes'].
      split; [simpl; lia|]. exists l. cbn [fst snd]. rewrite Nat.sub_diag.
      split; [reflexivity|]. split; [|reflexivity].
      intros _. now apply strip_empty_iff.
    + pose proof (parse_and_validate_not_blank today l n (used_ids st)) as Hne.
      destruct (parse_and_validate today l n (used_ids st)) as [[r|why|x] ids];
        [| |discriminate]; injection E as <-; cbn [errors] in He.
      * exists es. now split.
      * exists ((n, why) :: es). rewrite He, <- app_assoc.
        split; [reflexivity|]. constructor; [|exact Hes'].
        split; [simpl; lia|]. exists l. cbn [fst snd]. rewrite Nat.sub_diag.
        split; [reflexivity|]. split.
        -- intros ->. now destruct Hne.
        -- intros Hsp. apply strip_empty_iff in Hsp. contradiction.
Qed.

(** X17.  In a run of [process_file] that returns, an error entry carries
    the message of a blank line exactly when its line is empty or made of
    whitespace only: the validator never raises that message, and a blank
    line is never reported with a wrong field count. *)
Theorem blank_message_marks_blank_lines
    (today : PyDate.date) (lines : list string) (out : list printed)
    (valid : list record) (errs : list (nat * reason))
    (Hrun : process_file today (Opened lines) = (out, Returned (valid, errs))) :
  Forall (blank_exactly 1 lines) errs.
Proof.
  apply process_file_returned in Hrun as (st & Hst & _ & -> & _).
  apply process_lines_blank_entries in Hst as (es & He & Hes).
  cbn [fresh errors app] in He. now subst es.
Qed.

Lemma blank_message_marks_blank_lines_witness :
  exists valid errs,
    process_file day0 (Opened order_sample) = ([], Returned (valid, errs))
    /\ errs = [(2%nat, EmptyLine); (4%nat, IdNotUnique); (6%nat, IdNotANumber)]
    /\ Forall (blank_exactly 1 order_sample) errs.
Proof.
  destruct (process_file day0 (Opened order_sample)) as [out [[valid errs]|x]] eqn:E;
    [|vm_compute in E; discriminate E].
  pose proof (blank_message_marks_blank_lines _ _ _ _ _ E) as H.
  exists valid, errs.
  vm_compute in E. injection E as <- <- <-.
  split; [reflexivity|]. split; [reflexivity|exact H].
Defined.
